(** * salt/modules/pip.py: a shallow embedding and its verification

    The module builds pip command lines, runs them through the salt
    collaborators ([__salt__], [salt.utils], [os], [shutil]) and parses the
    output of [pip freeze].  Python values are modelled as they are used:
    byte strings as [string], the [packages] dict as a [gmap], integers as
    [Z], exceptions as an inductive type, and the code's effects (the
    filesystem, the calls made to collaborators) by explicit state passing
    in a small monad with early [return] and [raise]. *)

From Stdlib Require Import String Ascii List ZArith Lia Bool.
From stdpp Require Import gmap strings list.
Import ListNotations.
Local Open Scope string_scope.
Local Open Scope list_scope.
Local Arguments String.append !_ _ / : simpl nomatch.

(** ** Python byte-string primitives *)

Module PyStr.

Definition exn_msg : Type := string.

(** [s.startswith(p)] *)
Definition startswith (s p : string) : bool := String.prefix p s.

Fixpoint drop (n : nat) (s : string) : string :=
  match n, s with
  | O, _ => s
  | S n', String _ s' => drop n' s'
  | S _, EmptyString => EmptyString
  end.

(** [s.partition(sep)] at the first occurrence of [sep], [None] when [sep]
    does not occur (Python returns [(s, '', '')] there). *)
Fixpoint partition (sep s : string) : option (string * string) :=
  if String.prefix sep s then Some (EmptyString, drop (String.length sep) s)
  else match s with
       | EmptyString => None
       | String c s' =>
           match partition sep s' with
           | Some (a, b) => Some (String c a, b)
           | None => None
           end
       end.

(** [sub in s] *)
Definition contains (sub s : string) : bool :=
  match partition sub s with Some _ => true | None => false end.

(** [s.split(sep)] for a non-empty [sep]: cut at each occurrence found
    scanning left to right.  The recursion is on a fuel that bounds the
    number of cuts; [String.length s] cuts always suffice. *)
Fixpoint split_fuel (fuel : nat) (sep s : string) : list string :=
  match fuel with
  | O => [s]
  | S fuel' =>
      match partition sep s with
      | None => [s]
      | Some (a, b) => a :: split_fuel fuel' sep b
      end
  end.

Definition split (sep s : string) : list string :=
  split_fuel (String.length s) sep s.

(** [s.count(sep)]: the number of non-overlapping occurrences. *)
Fixpoint count_fuel (fuel : nat) (sep s : string) : nat :=
  match fuel with
  | O => 0
  | S fuel' =>
      match partition sep s with
      | None => 0
      | Some (_, b) => S (count_fuel fuel' sep b)
      end
  end.

Definition count (sep s : string) : nat :=
  count_fuel (String.length s) sep s.

(** [sep.join(l)] *)
Fixpoint join (sep : string) (l : list string) : string :=
  match l with
  | [] => EmptyString
  | [x] => x
  | x :: rest => x +:+ sep +:+ join sep rest
  end.

(** [s.replace(old, new)] for a non-empty [old]. *)
Definition replace (old new s : string) : string := join new (split old s).

(** The characters [str.strip()] removes: space, \t, \n, \v, \f, \r. *)
Definition is_space (c : ascii) : bool :=
  let n := nat_of_ascii c in
  Nat.eqb n 32 || (Nat.leb 9 n && Nat.leb n 13).

Fixpoint lstrip (s : string) : string :=
  match s with
  | EmptyString => EmptyString
  | String c s' => if is_space c then lstrip s' else s
  end.

Fixpoint rstrip (s : string) : string :=
  match s with
  | EmptyString => EmptyString
  | String c s' =>
      match rstrip s' with
      | EmptyString => if is_space c then EmptyString else String c EmptyString
      | r => String c r
      end
  end.

(** [s.strip()] *)
Definition strip (s : string) : string := rstrip (lstrip s).

Definition lower_char (c : ascii) : ascii :=
  let n := nat_of_ascii c in
  if Nat.leb 65 n && Nat.leb n 90 then ascii_of_nat (n + 32) else c.

(** [s.lower()] *)
Fixpoint lower (s : string) : string :=
  match s with
  | EmptyString => EmptyString
  | String c s' => String (lower_char c) (lower s')
  end.

(** [s.splitlines()] of a byte string: lines end at \n, \r or \r\n, the
    line ends are dropped and a final line end opens no empty line. *)
Fixpoint splitlines_go (cur s : string) : list string :=
  match s with
  | EmptyString => if String.eqb cur EmptyString then [] else [cur]
  | String c s' =>
      if Ascii.eqb c "010"%char then cur :: splitlines_go EmptyString s'
      else if Ascii.eqb c "013"%char then
        match s' with
        | String c' s'' =>
            if Ascii.eqb c' "010"%char then cur :: splitlines_go EmptyString s''
            else cur :: splitlines_go EmptyString s'
        | EmptyString => cur :: splitlines_go EmptyString s'
        end
      else splitlines_go (cur +:+ String c EmptyString) s'
  end.

Definition splitlines (s : string) : list string :=
  splitlines_go EmptyString s.

Definition hex_digit (n : nat) : ascii :=
  if Nat.ltb n 10 then ascii_of_nat (48 + n) else ascii_of_nat (87 + n).

(** One character of [repr(s)] with the chosen quote character. *)
Definition repr_char (quote c : ascii) : string :=
  let n := nat_of_ascii c in
  if Ascii.eqb c quote || Ascii.eqb c "\"%char then String "\"%char (String c EmptyString)
  else if Nat.eqb n 9 then "\t"
  else if Nat.eqb n 10 then "\n"
  else if Nat.eqb n 13 then "\r"
  else if Nat.ltb n 32 || Nat.leb 127 n then
    String "\"%char (String "x"%char
      (String (hex_digit (n / 16)) (String (hex_digit (n mod 16)) EmptyString)))
  else String c EmptyString.

Fixpoint repr_body (quote : ascii) (s : string) : string :=
  match s with
  | EmptyString => EmptyString
  | String c s' => repr_char quote c +:+ repr_body quote s'
  end.

(** [repr(s)], the text [{0!r}] formats to: single quotes unless the string
    holds a single quote and no double quote. *)
Definition repr (s : string) : string :=
  let sq := "'"%char in
  let dq := "034"%char in
  let quote :=
    if contains (String sq EmptyString) s && negb (contains (String dq EmptyString) s)
    then dq else sq in
  String quote (repr_body quote s +:+ String quote EmptyString).

Definition is_digit (c : ascii) : bool :=
  let n := nat_of_ascii c in Nat.leb 48 n && Nat.leb n 57.

Fixpoint all_digits (s : string) : bool :=
  match s with
  | EmptyString => true
  | String c s' => is_digit c && all_digits s'
  end.

(** Whether [int(s)] succeeds on a string: surrounding whitespace, one
    optional sign, then at least one decimal digit. *)
Definition int_parses (s : string) : bool :=
  match strip s with
  | EmptyString => false
  | String c s' =>
      if Ascii.eqb c "+"%char || Ascii.eqb c "-"%char
      then negb (String.eqb s' EmptyString) && all_digits s'
      else all_digits (String c s')
  end.

Fixpoint take_while (f : ascii -> bool) (s : string) : string :=
  match s with
  | EmptyString => EmptyString
  | String c s' => if f c then String c (take_while f s') else EmptyString
  end.

(** [(pre + '{0}' + post).format(...)]: the field [{0}] is the
    first positional argument and an [IndexError] when there is none;
    keyword arguments fill no field of such a template. *)
Definition format0 (pre post : string) (args : list string) : exn_msg + string :=
  match args with
  | a :: _ => inr (pre +:+ a +:+ post)
  | [] => inl "tuple index out of range"
  end.

End PyStr.


(** ** Exceptions, values and the world *)

(** The exception classes the module raises or lets through.
    [NameError] is what Python raises when a global name is read that
    nothing binds; [UnboundLocalError] is its subclass, raised when a local
    variable is read before its first assignment. *)
Inductive exn : Type :=
| CommandNotFoundError (msg : string)
| CommandExecutionError (msg : string)
| Exception (msg : string)
| IOError (msg : string)
| ValueError (msg : string)
| IndexError (msg : string)
| NameError (msg : string)
| UnboundLocalError (msg : string).

(** [isinstance(e, NameError)] *)
Definition is_NameError (e : exn) : bool :=
  match e with NameError _ | UnboundLocalError _ => true | _ => false end.

(** The dict [cmd.run_all] returns. *)
Record CommandResult : Type := mkResult {
  retcode : Z;
  stdout : string;
  stderr : string
}.

(** What [install] returns: the result of the run, or the dict
    [{'result': False, 'comment': ...}]. *)
Inductive install_ret : Type :=
| RunResult (r : CommandResult)
| NotFound (comment : string).

(** The calls made to the [__salt__] functions, in the order made. *)
Inductive event : Type :=
| EvWhichBin (names : list string)
| EvIsCached (path saltenv : string)
| EvCacheFile (path saltenv : string)
| EvHashFile (path saltenv : string)
| EvChown (path user : string)
| EvRunAll (cmd runas cwd : string).

(** The part of the machine the module reads and writes: which paths are
    directories, which are regular files, and the calls made so far. *)
Record world : Type := mkWorld {
  dirs : gset string;
  files : gset string;
  trace : list event
}.

Definition log_event (e : event) (w : world) : world :=
  mkWorld (dirs w) (files w) (trace w ++ [e]).

Definition add_file (p : string) (w : world) : world :=
  mkWorld (dirs w) ({[p]} ∪ files w) (trace w).

Definition remove_file (p : string) (w : world) : world :=
  mkWorld (dirs w) (files w ∖ {[p]}) (trace w).

Definition is_run (e : event) : bool :=
  match e with EvRunAll _ _ _ => true | _ => false end.

Definition is_cache_file (e : event) : bool :=
  match e with EvCacheFile _ _ => true | _ => false end.

(** How many processes were spawned, how often [cp.cache_file] was called. *)
Definition spawned (w : world) : nat := List.length (List.filter is_run (trace w)).
Definition cache_file_calls (w : world) : nat :=
  List.length (List.filter is_cache_file (trace w)).

(** Python truth of a string argument; [None] and [''] are both the empty
    string here, the module never tells them apart. *)
Definition truthy (s : string) : bool := negb (String.eqb s EmptyString).

(** [os.path.isdir(p)], [os.path.isfile(p)]; the empty path is neither. *)
Definition os_path_isdir (w : world) (p : string) : bool :=
  truthy p && bool_decide (p ∈ dirs w).

Definition os_path_isfile (w : world) (p : string) : bool :=
  truthy p && bool_decide (p ∈ files w).

(** ** Statements: a state monad with [return] and [raise] *)

Inductive outcome (R A : Type) : Type :=
| Next (a : A)
| Return (r : R)
| Raise (e : exn).
Arguments Next {R A} a.
Arguments Return {R A} r.
Arguments Raise {R A} e.

Definition M (R A : Type) : Type := world -> outcome R A * world.

Definition ret {R A} (a : A) : M R A := fun w => (Next a, w).
Definition return_ {R A} (r : R) : M R A := fun w => (Return r, w).
Definition raise {R A} (e : exn) : M R A := fun w => (Raise e, w).

Definition bind {R A B} (m : M R A) (k : A -> M R B) : M R B :=
  fun w =>
    match m w with
    | (Next a, w') => k a w'
    | (Return r, w') => (Return r, w')
    | (Raise e, w') => (Raise e, w')
    end.

Notation "'let*' x ':=' m 'in' k" := (bind m (fun x => k))
  (at level 10, x pattern, m at level 100, k at level 200).

(** Calling a function: its [return] value is the value of the call. *)
Definition call {R R'} (f : M R' R') : M R R' :=
  fun w =>
    match f w with
    | (Next a, w') => (Next a, w')
    | (Return a, w') => (Next a, w')
    | (Raise e, w') => (Raise e, w')
    end.

(** [try: body finally: fin], for a [fin] that never raises. *)
Definition try_finally {R A} (body : M R A) (fin : world -> world) : M R A :=
  fun w => let '(o, w') := body w in (o, fin w').

(** Reading and changing the world. *)
Definition get_world {R} : M R world := fun w => (Next w, w).
Definition modify {R} (f : world -> world) : M R unit := fun w => (Next tt, f w).
Definition lift {R A} (r : exn + A) : M R A :=
  match r with inl e => raise e | inr a => ret a end.

(** ** The collaborators

    The functions of [__salt__], [salt.utils] and [os.path] the module
    calls live outside it; the development is parametric in them.  Each may
    answer from the whole world, including the calls made before, so a
    cache that changes between two calls is covered.  [file.chown] and
    [cmd.run_all] may raise; the others always answer. *)
Record collaborators : Type := mkSalt {
  is_windows : bool;
  os_path_join : list string -> string;
  cmd_which_bin : list string -> world -> option string;
  cp_is_cached : string -> string -> world -> string;
  cp_cache_file : string -> string -> world -> string;
  cp_hash_file : string -> string -> world -> string;
  file_chown : string -> string -> world -> option exn;
  cmd_run_all : string -> string -> string -> world -> exn + CommandResult;
  valid_url : string -> list string -> bool;
  mkstemp_path : world -> string
}.

(** An argument that is [None], a string or a list of strings. *)
Inductive str_or_list : Type :=
| PyNone
| PyStr (s : string)
| PyList (l : list string).

Definition truthy_arg (a : str_or_list) : bool :=
  match a with
  | PyNone => false
  | PyStr s => truthy s
  | PyList l => match l with [] => false | _ => true end
  end.

(** The keyword arguments of [install]. *)
Module InstallArgs.
Record t : Type := mk {
  pkgs : str_or_list;
  requirements : string;
  env : string;
  bin_env : string;
  log : string;
  proxy : string;
  timeout : string;
  editable : str_or_list;
  find_links : string;
  index_url : string;
  extra_index_url : string;
  no_index : bool;
  mirrors : str_or_list;
  build : string;
  target : string;
  download : string;
  download_cache : string;
  source : string;
  upgrade : bool;
  force_reinstall : bool;
  ignore_installed : bool;
  exists_action : string;
  no_deps : bool;
  no_install : bool;
  no_download : bool;
  install_options : str_or_list;
  runas : string;
  no_chown : bool;
  cwd : string;
  activate : bool;
  __env__ : string
}.
End InstallArgs.

(** The keyword arguments of [uninstall]. *)
Module UninstallArgs.
Record t : Type := mk {
  pkgs : string;
  requirements : string;
  bin_env : string;
  log : string;
  proxy : string;
  timeout : string;
  runas : string;
  cwd : string;
  __env__ : string
}.
End UninstallArgs.

Definition VALID_PROTOS : list string := ["http"; "https"; "ftp"].

(** ** The module *)

Section Pip.

Variable salt : collaborators.

(** *** The module's globals

    [__env__] is a keyword parameter of [install] and of [uninstall], so a
    local of theirs; the module itself binds no global of that name, and a
    function that reads it as a global raises [NameError]. *)

Definition global_env {R} : M R string :=
  raise (NameError "global name '__env__' is not defined").

(** *** Calls to the collaborators, each recorded in the trace *)

Definition which_bin {R} (names : list string) : M R (option string) :=
  fun w => (Next (cmd_which_bin salt names w), log_event (EvWhichBin names) w).

Definition is_cached {R} (path saltenv : string) : M R string :=
  fun w => (Next (cp_is_cached salt path saltenv w),
            log_event (EvIsCached path saltenv) w).

Definition cache_file {R} (path saltenv : string) : M R string :=
  fun w => (Next (cp_cache_file salt path saltenv w),
            log_event (EvCacheFile path saltenv) w).

Definition hash_file {R} (path saltenv : string) : M R string :=
  fun w => (Next (cp_hash_file salt path saltenv w),
            log_event (EvHashFile path saltenv) w).

Definition chown {R} (path user : string) : M R unit :=
  fun w =>
    match file_chown salt path user w with
    | Some e => (Raise e, log_event (EvChown path user) w)
    | None => (Next tt, log_event (EvChown path user) w)
    end.

Definition run_all {R} (cmd runas cwd : string) : M R CommandResult :=
  fun w =>
    match cmd_run_all salt cmd runas cwd w with
    | inl e => (Raise e, log_event (EvRunAll cmd runas cwd) w)
    | inr r => (Next r, log_event (EvRunAll cmd runas cwd) w)
    end.

(** *** The filesystem *)

Definition isdir {R} (p : string) : M R bool :=
  fun w => (Next (os_path_isdir w p), w).

Definition isfile {R} (p : string) : M R bool :=
  fun w => (Next (os_path_isfile w p), w).

(** [salt.utils.mkstemp()]: a new file is created and its path returned. *)
Definition mkstemp {R} : M R string :=
  fun w => let p := mkstemp_path salt w in (Next p, add_file p w).

(** [shutil.copyfile(src, dst)]: an [IOError] when [src] cannot be read. *)
Definition copyfile {R} (src dst : string) : M R unit :=
  fun w =>
    if bool_decide (src ∈ files w) then (Next tt, add_file dst w)
    else (Raise (IOError ("[Errno 2] No such file or directory: " +:+ PyStr.repr src)), w).

(** [try: os.remove(p) except Exception: pass] *)
Definition remove_quietly (p : string) (w : world) : world := remove_file p w.

(** *** [_get_pip_bin] *)

Definition _get_pip_bin (bin_env : string) : M string string :=
  if negb (truthy bin_env) then
    let* which_result := which_bin ["pip2"; "pip"; "pip-python"] in
    match which_result with
    | None => raise (CommandNotFoundError "Could not find a `pip` binary")
    | Some p => return_ p
    end
  else
    let* d := isdir bin_env in
    if d then
      let pip_bin :=
        if is_windows salt then os_path_join salt [bin_env; "Scripts"; "pip.exe"]
        else os_path_join salt [bin_env; "bin"; "pip"] in
      let* f := isfile pip_bin in
      if f then return_ pip_bin
      else raise (CommandNotFoundError "Could not find a `pip` binary")
    else return_ bin_env.

(** *** [_get_cached_requirements] *)

(** The function has the one parameter [requirements] and reads [__env__]
    as a global at each of its calls; the arguments of a call are evaluated
    before the call is made. *)
Definition _get_cached_requirements (requirements : string) : M string string :=
  let* saltenv := global_env in
  let* cached_requirements := is_cached requirements saltenv in
  let* cached_requirements :=
    if negb (truthy cached_requirements) then
      let* saltenv := global_env in
      cache_file requirements saltenv
    else ret cached_requirements in
  let* saltenv := global_env in
  let* upstream := hash_file requirements saltenv in
  let* saltenv := global_env in
  let* local := hash_file cached_requirements saltenv in
  let* cached_requirements :=
    if negb (String.eqb upstream local) then
      let* saltenv := global_env in
      cache_file requirements saltenv
    else ret cached_requirements in
  return_ cached_requirements.

(** *** [_get_env_activate] *)

Definition _get_env_activate (bin_env : string) : M string string :=
  if negb (truthy bin_env) then
    raise (CommandNotFoundError "Could not find a `activate` binary")
  else
    let* d := isdir bin_env in
    let* _ :=
      if d then
        let activate_bin :=
          if is_windows salt then os_path_join salt [bin_env; "Scripts"; "activate.bat"]
          else os_path_join salt [bin_env; "bin"; "activate"] in
        let* f := isfile activate_bin in
        if f then return_ activate_bin else ret tt
      else ret tt in
    raise (CommandNotFoundError "Could not find a `activate` binary").

(** *** [install] *)

Definition ebind {A B} (r : exn + A) (k : A -> exn + B) : exn + B :=
  match r with inl e => inl e | inr a => k a end.

(** [if isinstance(x, basestring)]: a string is split on its commas and the
    pieces stripped, or taken whole when it has none; a list is kept. *)
Definition as_list (a : str_or_list) : list string :=
  match a with
  | PyNone => []
  | PyStr s =>
      if PyStr.contains "," s then map PyStr.strip (PyStr.split "," s) else [s]
  | PyList l => l
  end.

Definition not_amp (c : ascii) : bool := negb (Ascii.eqb c "&"%char).

(** The second alternative of the egg pattern, on the text after [#]: the
    shortest run of characters other than a newline (the lazy star), then
    [&egg=]; group 1 is the longest run without [&] that follows. *)
Fixpoint egg_after_amp (s : string) : option string :=
  match s with
  | EmptyString => None
  | String c s' =>
      if Ascii.eqb c "&"%char && String.prefix "egg=" s'
      then Some (PyStr.take_while not_amp (PyStr.drop 4 s'))
      else if Ascii.eqb c "010"%char then None
      else egg_after_amp s'
  end.

(** [egg_match.search(entry)] for the pattern of [install], a [#] followed
    either at once or after a lazy run and [&] by [egg=] and the captured
    name: group 1 of the leftmost match, the first alternative first. *)
Fixpoint egg_match_search (entry : string) : option string :=
  match entry with
  | EmptyString => None
  | String c s' =>
      if Ascii.eqb c "#"%char then
        if String.prefix "egg=" s'
        then Some (PyStr.take_while not_amp (PyStr.drop 4 s'))
        else match egg_after_amp s' with
             | Some g => Some g
             | None => egg_match_search s'
             end
      else egg_match_search s'
  end.

Definition add_pkgs (pkgs : str_or_list) (cmd : list string) : list string :=
  if truthy_arg pkgs
  then cmd ++ map (PyStr.replace ";" ",") (as_list pkgs)
  else cmd.

Fixpoint editable_loop (entries cmd : list string) : exn + list string :=
  match entries with
  | [] => inr cmd
  | entry :: rest =>
      if negb (PyStr.startswith entry "file://" || PyStr.startswith entry "/")
         && match egg_match_search entry with
            | None => true
            | Some g => negb (truthy g)
            end
      then inl (Exception "You must specify an egg for this editable")
      else editable_loop rest (cmd ++ ["--editable=" +:+ entry])
  end.

Definition add_editable (editable : str_or_list) (cmd : list string)
  : exn + list string :=
  if truthy_arg editable then editable_loop (as_list editable) cmd else inr cmd.

(** [treq or requirements] *)
Definition treq_or (treq : option string) (requirements : string) : string :=
  match treq with
  | Some t => if truthy t then t else requirements
  | None => requirements
  end.

Definition add_requirements (a : InstallArgs.t) (cmd : list string)
  : M install_ret (list string * option string) :=
  let requirements := InstallArgs.requirements a in
  if truthy requirements then
    let* requirements :=
      if PyStr.startswith requirements "salt://" then
        let* cached_requirements :=
          call (_get_cached_requirements requirements) in
        if negb (truthy cached_requirements) then
          return_ (NotFound ("pip requirements file " +:+ PyStr.repr requirements
                             +:+ " not found"))
        else ret cached_requirements
      else ret requirements in
    let* treq :=
      if truthy (InstallArgs.runas a) && negb (InstallArgs.no_chown a) then
        let* treq := mkstemp in
        let* _ := copyfile requirements treq in
        let* _ := chown treq (InstallArgs.runas a) in
        ret (Some treq)
      else ret None in
    ret (cmd ++ ["--requirement=" +:+ PyStr.repr (treq_or treq requirements)], treq)
  else ret (cmd, None).

(** [os.path.exists(log)] raises no [IOError], so the handler is dead. *)
Definition add_log (log : string) (cmd : list string) : exn + list string :=
  if truthy log then inr (cmd ++ ["--log=" +:+ log]) else inr cmd.

Definition add_proxy (proxy : string) (cmd : list string) : exn + list string :=
  if truthy proxy then inr (cmd ++ ["--proxy=" +:+ proxy]) else inr cmd.

Definition add_timeout (timeout : string) (cmd : list string) : exn + list string :=
  if truthy timeout then
    if PyStr.int_parses timeout then inr (cmd ++ ["--timeout=" +:+ timeout])
    else inl (ValueError (PyStr.repr timeout +:+ " is not a valid integer base 10."))
  else inr cmd.

Definition add_find_links (find_links : string) (cmd : list string)
  : exn + list string :=
  if truthy find_links then
    if negb (valid_url salt find_links VALID_PROTOS)
    then inl (Exception (PyStr.repr find_links +:+ " must be a valid URL"))
    else inr (cmd ++ ["--find-links=" +:+ find_links])
  else inr cmd.

Definition check_no_index (a : InstallArgs.t) (cmd : list string)
  : exn + list string :=
  if InstallArgs.no_index a
     && (truthy (InstallArgs.index_url a) || truthy (InstallArgs.extra_index_url a))
  then inl (Exception
    "'no_index' and ('index_url' or 'extra_index_url') are mutually exclusive.")
  else inr cmd.

Definition add_index_url (index_url : string) (cmd : list string)
  : exn + list string :=
  if truthy index_url then
    if negb (valid_url salt index_url VALID_PROTOS)
    then inl (Exception (PyStr.repr index_url +:+ " must be a valid URL"))
    else inr (cmd ++ ["--index-url=" +:+ PyStr.repr index_url])
  else inr cmd.

Definition add_extra_index_url (extra_index_url : string) (cmd : list string)
  : exn + list string :=
  if truthy extra_index_url then
    if negb (valid_url salt extra_index_url VALID_PROTOS)
    then inl (Exception (PyStr.repr extra_index_url +:+ " must be a valid URL"))
    else inr (cmd ++ ["--extra-index-url=" +:+ PyStr.repr extra_index_url +:+ " "])
  else inr cmd.

Definition add_flag (b : bool) (flag : string) (cmd : list string)
  : exn + list string :=
  if b then inr (cmd ++ [flag]) else inr cmd.

Fixpoint mirrors_loop (mirrors cmd : list string) : exn + list string :=
  match mirrors with
  | [] => inr cmd
  | mirror :: rest =>
      if negb (PyStr.startswith mirror "http://")
      then inl (Exception (PyStr.repr mirror +:+ " must be a valid URL"))
      else mirrors_loop rest (cmd ++ ["--mirrors=" +:+ mirror])
  end.

Definition add_mirrors (mirrors : str_or_list) (cmd : list string)
  : exn + list string :=
  if truthy_arg mirrors
  then mirrors_loop (as_list mirrors) (cmd ++ ["--use-mirrors"])
  else inr cmd.

(** [cmd.append('--build={0}'.format(build=build))]: the value is passed by
    keyword only, the template asks for positional argument 0. *)
Definition add_build (build : string) (cmd : list string) : exn + list string :=
  if truthy build then
    match PyStr.format0 "--build=" "" [] with
    | inl msg => inl (IndexError msg)
    | inr tok => inr (cmd ++ [tok])
    end
  else inr cmd.

(** [cmd.append((pre + '{0}').format(value))] under [if value:] *)
Definition add_value (pre value : string) (cmd : list string) : exn + list string :=
  if truthy value then
    match PyStr.format0 pre "" [value] with
    | inl msg => inl (IndexError msg)
    | inr tok => inr (cmd ++ [tok])
    end
  else inr cmd.

Definition add_install_options (opts : str_or_list) (cmd : list string)
  : exn + list string :=
  if truthy_arg opts then
    let opts := match opts with PyStr s => [s] | PyList l => l | PyNone => [] end in
    inr (cmd ++ map (fun opt => "--install-option=" +:+ opt) opts)
  else inr cmd.


(** The options after the requirements file, in the order of the source. *)
Definition add_options_to_mirrors (a : InstallArgs.t) (cmd : list string)
  : exn + list string :=
  ebind (add_log (InstallArgs.log a) cmd) (fun cmd =>
  ebind (add_proxy (InstallArgs.proxy a) cmd) (fun cmd =>
  ebind (add_timeout (InstallArgs.timeout a) cmd) (fun cmd =>
  ebind (add_find_links (InstallArgs.find_links a) cmd) (fun cmd =>
  ebind (check_no_index a cmd) (fun cmd =>
  ebind (add_index_url (InstallArgs.index_url a) cmd) (fun cmd =>
  ebind (add_extra_index_url (InstallArgs.extra_index_url a) cmd) (fun cmd =>
  add_flag (InstallArgs.no_index a) "--no-index" cmd))))))).

Definition add_dirs (a : InstallArgs.t) (cmd : list string) : exn + list string :=
  ebind (add_build (InstallArgs.build a) cmd) (fun cmd =>
  ebind (add_value "--target=" (InstallArgs.target a) cmd) (fun cmd =>
  ebind (add_value "--download=" (InstallArgs.download a) cmd) (fun cmd =>
  ebind (add_value "--download-cache=" (InstallArgs.download_cache a) cmd) (fun cmd =>
  add_value "--source=" (InstallArgs.source a) cmd)))).

Definition add_modifiers (a : InstallArgs.t) (cmd : list string)
  : exn + list string :=
  ebind (add_flag (InstallArgs.upgrade a) "--upgrade" cmd) (fun cmd =>
  ebind (add_flag (InstallArgs.force_reinstall a) "--force-reinstall" cmd) (fun cmd =>
  ebind (add_flag (InstallArgs.ignore_installed a) "--ignore-installed" cmd) (fun cmd =>
  ebind (add_value "--exists-action=" (InstallArgs.exists_action a) cmd) (fun cmd =>
  ebind (add_flag (InstallArgs.no_deps a) "--no-deps" cmd) (fun cmd =>
  ebind (add_flag (InstallArgs.no_install a) "--no-install" cmd) (fun cmd =>
  ebind (add_flag (InstallArgs.no_download a) "--no-download" cmd) (fun cmd =>
  add_install_options (InstallArgs.install_options a) cmd))))))).

Definition add_options (a : InstallArgs.t) (cmd : list string) : exn + list string :=
  ebind (add_options_to_mirrors a cmd) (fun cmd =>
  ebind (add_mirrors (InstallArgs.mirrors a) cmd) (fun cmd =>
  ebind (add_dirs a cmd) (fun cmd =>
  add_modifiers a cmd))).

(** [if env and not bin_env: bin_env = env] *)
Definition effective_bin_env (a : InstallArgs.t) : string :=
  if truthy (InstallArgs.env a) && negb (truthy (InstallArgs.bin_env a))
  then InstallArgs.env a else InstallArgs.bin_env a.

(** The command up to the requirements file: the binary, the activation
    prefix, the packages and the editables. *)
Definition install_front (a : InstallArgs.t) : M install_ret (list string) :=
  let bin_env := effective_bin_env a in
  let* pip_bin := call (_get_pip_bin bin_env) in
  let cmd := [pip_bin; "install"] in
  let* cmd :=
    if InstallArgs.activate a && truthy bin_env then
      if negb (is_windows salt) then
        let* activate_bin := call (_get_env_activate bin_env) in
        ret (["."; activate_bin; "&&"] ++ cmd)
      else ret cmd
    else ret cmd in
  let cmd := add_pkgs (InstallArgs.pkgs a) cmd in
  lift (add_editable (InstallArgs.editable a) cmd).

(** Everything [install] does before its [try]: the token list [cmd] and
    the temporary copy [treq], if one was made. *)
Definition install_cmd (a : InstallArgs.t)
  : M install_ret (list string * option string) :=
  let* cmd := install_front a in
  let* (cmd, treq) := add_requirements a cmd in
  let* cmd := lift (add_options a cmd) in
  ret (cmd, treq).

Definition install_cleanup (treq : option string) (w : world) : world :=
  match treq with
  | Some t => remove_quietly t w
  | None => w
  end.

Definition install (a : InstallArgs.t) : M install_ret install_ret :=
  let* (cmd, treq) := install_cmd a in
  try_finally
    (let* r := run_all (PyStr.join " " cmd) (InstallArgs.runas a) (InstallArgs.cwd a) in
     return_ (RunResult r))
    (install_cleanup treq).

(** *** [uninstall] *)

Definition uninstall (a : UninstallArgs.t) : M CommandResult CommandResult :=
  let requirements := UninstallArgs.requirements a in
  let* pip_bin := call (_get_pip_bin (UninstallArgs.bin_env a)) in
  let cmd := pip_bin +:+ " uninstall -y " in
  let cmd :=
    if truthy (UninstallArgs.pkgs a)
    then cmd +:+ " " +:+ PyStr.replace "," " " (UninstallArgs.pkgs a) +:+ " "
    else cmd in
  let* (cmd, treq) :=
    if truthy requirements then
      let* treq :=
        if PyStr.startswith requirements "salt://" then
          let* req := cache_file requirements (UninstallArgs.__env__ a) in
          let* treq := mkstemp in
          let* _ := copyfile req treq in
          ret (Some treq)
        else ret None in
      ret (cmd +:+ " --requirements " +:+ PyStr.repr (treq_or treq requirements)
           +:+ " ", treq)
    else ret (cmd, None) in
  let cmd :=
    if truthy (UninstallArgs.log a)
    then cmd +:+ " --" +:+ UninstallArgs.log a +:+ " " else cmd in
  let cmd :=
    if truthy (UninstallArgs.proxy a)
    then cmd +:+ " --proxy=" +:+ UninstallArgs.proxy a +:+ " " else cmd in
  let* cmd :=
    if truthy (UninstallArgs.timeout a) then
      if PyStr.int_parses (UninstallArgs.timeout a)
      then ret (cmd +:+ " --timeout=" +:+ UninstallArgs.timeout a +:+ " ")
      else raise (ValueError ("'" +:+ UninstallArgs.timeout a
                              +:+ "' is not a valid integer base 10."))
    else ret cmd in
  let* result := run_all cmd (UninstallArgs.runas a) (UninstallArgs.cwd a) in
  let* _ :=
    match treq with
    | Some t =>
        if truthy t && PyStr.startswith requirements "salt://"
        then modify (remove_quietly t) else ret tt
    | None => ret tt
    end in
  return_ result.

(** *** [freeze] *)

Definition freeze (bin_env runas cwd : string) : M (list string) (list string) :=
  let* pip_bin := call (_get_pip_bin bin_env) in
  let cmd := pip_bin +:+ " freeze" in
  let* result := run_all cmd runas cwd in
  if (0 <? retcode result)%Z then raise (CommandExecutionError (stderr result))
  else return_ (PyStr.splitlines (stdout result)).

(** *** [list_] *)

(** The local variables the loop of [list_] reads and writes; [name] and
    [version] are unbound until a line assigns them. *)
Record list_locals : Type := mkLocals {
  name : option string;
  version : option string;
  packages : gmap string string
}.

Definition unbound (var : string) : exn :=
  UnboundLocalError ("local variable '" +:+ var +:+ "' referenced before assignment").

(** The two assignments at the head of the loop body. *)
Definition list_assign (line : string) (st : list_locals)
  : exn + (option string * option string) :=
  if PyStr.startswith line "-e" then
    match nth_error (PyStr.split "-e " line) 1 with
    | None => inl (IndexError "list index out of range")
    | Some line =>
        match PyStr.split "#egg=" line with
        | [version; name] => inr (Some name, Some version)
        | [] | [_] => inl (ValueError "need more than 1 value to unpack")
        | _ => inl (ValueError "too many values to unpack")
        end
    end
  else
    match PyStr.split "==" line with
    | name :: version :: _ => inr (Some name, Some version)
    | _ => inr (name st, version st)
    end.

(** [packages[name] = version]: the right-hand side is read first. *)
Definition list_record (name version : option string) (packages : gmap string string)
  : exn + gmap string string :=
  match version, name with
  | None, _ => inl (unbound "version")
  | Some _, None => inl (unbound "name")
  | Some v, Some n => inr (<[n := v]> packages)
  end.

(** One turn of the loop. *)
Definition list_line (prefix : string) (st : list_locals) (line : string)
  : exn + list_locals :=
  ebind (list_assign line st) (fun '(name, version) =>
  ebind
    (if truthy prefix then
       match name with
       | None => inl (unbound "name")
       | Some n =>
           if PyStr.startswith (PyStr.lower n) (PyStr.lower prefix)
           then list_record name version (packages st)
           else inr (packages st)
       end
     else list_record name version (packages st))
    (fun packages => inr (mkLocals name version packages))).

Fixpoint list_loop (prefix : string) (st : list_locals) (lines : list string)
  : exn + list_locals :=
  match lines with
  | [] => inr st
  | line :: rest => ebind (list_line prefix st line) (fun st => list_loop prefix st rest)
  end.

Definition list_ (prefix bin_env runas cwd : string)
  : M (gmap string string) (gmap string string) :=
  let* pip_bin := call (_get_pip_bin bin_env) in
  let cmd := pip_bin +:+ " freeze" in
  let* result := run_all cmd runas cwd in
  if (0 <? retcode result)%Z then raise (CommandExecutionError (stderr result))
  else
    let* st := lift (list_loop prefix (mkLocals None None ∅)
                       (PyStr.splitlines (stdout result))) in
    return_ (packages st).

End Pip.

(** ** A concrete minion, for the examples *)

Module Minion.

Definition ends_with_slash (s : string) : bool :=
  String.eqb (PyStr.drop (String.length s - 1) s) "/".

(** [posixpath.join] *)
Definition join_step (path b : string) : string :=
  if PyStr.startswith b "/" then b
  else if String.eqb path EmptyString || ends_with_slash path then path +:+ b
  else path +:+ "/" +:+ b.

Definition posix_join (parts : list string) : string :=
  match parts with
  | [] => EmptyString
  | a :: p => fold_left join_step p a
  end.

(** A stand-in for [salt.utils.valid_url]: the text before [://] is one of
    the accepted schemes. *)
Definition scheme_valid (url : string) (protos : list string) : bool :=
  match PyStr.partition "://" url with
  | Some (scheme, _) => bool_decide (scheme ∈ protos)
  | None => false
  end.

(** A POSIX minion: [pip] is what the PATH search finds, [cached uri] the
    local copy the file server has for [uri] (empty when it has none), all
    hashes agree, and every command exits with [result]. *)
Definition posix (pip : option string) (cached : string -> string)
    (result : exn + CommandResult) : collaborators :=
  {| is_windows := false;
     os_path_join := posix_join;
     cmd_which_bin := fun _ _ => pip;
     cp_is_cached := fun uri _ _ => cached uri;
     cp_cache_file := fun uri _ _ => cached uri;
     cp_hash_file := fun _ _ _ => "d41d8cd9";
     file_chown := fun _ _ _ => None;
     cmd_run_all := fun _ _ _ _ => result;
     valid_url := scheme_valid;
     mkstemp_path := fun _ => "/tmp/tmpXs3kq1" |}.

Definition ok : exn + CommandResult := inr (mkResult 0 "" "").
Definition nothing_cached (uri : string) : string := EmptyString.

(** [install(pkgs=..., requirements=..., ...)], the other keywords at their
    defaults. *)
Definition install_call (pkgs : str_or_list) (requirements bin_env timeout : string)
    (editable mirrors : str_or_list) (build runas : string) : InstallArgs.t :=
  {| InstallArgs.pkgs := pkgs;
     InstallArgs.requirements := requirements;
     InstallArgs.env := "";
     InstallArgs.bin_env := bin_env;
     InstallArgs.log := "";
     InstallArgs.proxy := "";
     InstallArgs.timeout := timeout;
     InstallArgs.editable := editable;
     InstallArgs.find_links := "";
     InstallArgs.index_url := "";
     InstallArgs.extra_index_url := "";
     InstallArgs.no_index := false;
     InstallArgs.mirrors := mirrors;
     InstallArgs.build := build;
     InstallArgs.target := "";
     InstallArgs.download := "";
     InstallArgs.download_cache := "";
     InstallArgs.source := "";
     InstallArgs.upgrade := false;
     InstallArgs.force_reinstall := false;
     InstallArgs.ignore_installed := false;
     InstallArgs.exists_action := "";
     InstallArgs.no_deps := false;
     InstallArgs.no_install := false;
     InstallArgs.no_download := false;
     InstallArgs.install_options := PyNone;
     InstallArgs.runas := runas;
     InstallArgs.no_chown := false;
     InstallArgs.cwd := "";
     InstallArgs.activate := false;
     InstallArgs.__env__ := "base" |}.

(** A machine with one requirements file and nothing else. *)
Definition machine : world := mkWorld ∅ {["/srv/reqs.txt"]} [].

(** A machine with a virtualenv directory that holds no pip. *)
Definition bare_venv : world := mkWorld {["/srv/venv"]} ∅ [].

(** The minion with pip on its PATH, an empty file server and commands
    that succeed silently. *)
Definition stock : collaborators := posix (Some "/usr/bin/pip") nothing_cached ok.

(** The minion whose command exits with [result]. *)
Definition exits (result : CommandResult) : collaborators :=
  posix (Some "/usr/bin/pip") nothing_cached (inr result).

(** A minion whose cached copy of every file is out of date: the hash of a
    [salt://] source differs from the hash of any local path.  Every
    command ends as [result] says. *)
Definition stale_with (result : exn + CommandResult) : collaborators :=
  {| is_windows := false;
     os_path_join := posix_join;
     cmd_which_bin := fun _ _ => Some "/usr/bin/pip";
     cp_is_cached := fun _ _ _ => "/var/cache/salt/reqs.txt";
     cp_cache_file := fun _ _ _ => "/var/cache/salt/reqs.txt";
     cp_hash_file := fun path _ _ =>
       if PyStr.startswith path "salt://" then "9e107d9d" else "e4d909c2";
     file_chown := fun _ _ _ => None;
     cmd_run_all := fun _ _ _ _ => result;
     valid_url := scheme_valid;
     mkstemp_path := fun _ => "/tmp/tmpXs3kq1" |}.

Definition stale : collaborators := stale_with ok.

(** The same minion when the user to run as does not exist. *)
Definition stale_no_user : collaborators :=
  stale_with (inl (CommandExecutionError "User 'bob' is not available")).

(** A machine that holds the cached copy of the requirements file. *)
Definition cached_machine : world :=
  mkWorld ∅ {["/var/cache/salt/reqs.txt"]} [].

Definition nl : string := String "010"%char EmptyString.

(** The world after the PATH search for pip. *)
Definition searched : world :=
  log_event (EvWhichBin ["pip2"; "pip"; "pip-python"]) machine.

(** [install(requirements='salt://reqs.txt')] *)
Definition remote_requirements : InstallArgs.t :=
  install_call PyNone "salt://reqs.txt" "" "" PyNone PyNone "" "".

(** [install(pkgs='foo', mirrors='http://a.example, ftp://mirror.example')] *)
Definition two_mirrors : InstallArgs.t :=
  install_call (PyStr "foo") "" "" "" PyNone
    (PyStr "http://a.example, ftp://mirror.example") "" "".

(** A pip killed by signal 9 after it printed one line. *)
Definition killed : CommandResult :=
  mkResult (-9) ("django==1.5" +:+ nl) "Killed".

(** Outputs with a line that is neither editable nor [name==version],
    first and later, and with an editable line that names no egg. *)
Definition comment_first : CommandResult :=
  mkResult 0 ("## FIXME: could not find svn URL" +:+ nl +:+ "django==1.5" +:+ nl) "".

Definition comment_later : CommandResult :=
  mkResult 0 ("django==1.5" +:+ nl +:+ "## FIXME: could not find svn URL" +:+ nl) "".

Definition editable_without_egg : CommandResult :=
  mkResult 0 ("django==1.5" +:+ nl +:+ "-e git+https://x" +:+ nl) "".

(** The output of the spec's end-to-end example. *)
Definition two_packages : CommandResult :=
  mkResult 0 ("django==1.5" +:+ nl +:+ "-e git+https://x#egg=foo" +:+ nl) "".

End Minion.

(** ** Notions used to state the properties *)

(** [freeze] and [list_] found the binary and the run of [<pip> freeze]
    gave the result [r]. *)
Definition freeze_ran (salt : collaborators) (bin_env runas cwd : string)
    (w : world) (r : CommandResult) : Prop :=
  exists pip_bin w1,
    _get_pip_bin salt bin_env w = (Return pip_bin, w1)
    /\ cmd_run_all salt (pip_bin +:+ " freeze") runas cwd w1 = inr r.

(** The value of [list_] for a finished loop. *)
Definition loop_outcome (r : exn + list_locals)
  : outcome (gmap string string) (gmap string string) :=
  match r with
  | inl e => Raise e
  | inr st => Return (packages st)
  end.

Definition no_locals : list_locals := mkLocals None None ∅.

(** Whether the character [c] occurs in [s]. *)
Fixpoint has_char (c : ascii) (s : string) : bool :=
  match s with
  | EmptyString => false
  | String c' s' => Ascii.eqb c' c || has_char c s'
  end.

(** [s] with every [old] character turned into [new]. *)
Fixpoint subst_char (old new : ascii) (s : string) : string :=
  match s with
  | EmptyString => EmptyString
  | String c s' => String (if Ascii.eqb c old then new else c) (subst_char old new s')
  end.

(** A well-formed line of [pip freeze]: a package at a version, or an
    editable checkout of an origin under an egg name. *)
Inductive freeze_entry : Type :=
| Plain (name version : string)
| Editable (origin name : string).

Definition render (e : freeze_entry) : string :=
  match e with
  | Plain n v => n +:+ "==" +:+ v
  | Editable o n => "-e " +:+ o +:+ "#egg=" +:+ n
  end.

(** The name holds no [=] and does not open like an editable line, the
    version holds no [==]; the origin holds no [#], the egg name no
    [#egg=], and neither brings a second [-e ] marker. *)
Definition well_formed (e : freeze_entry) : bool :=
  match e with
  | Plain n v =>
      negb (has_char "="%char n) && negb (PyStr.startswith n "-e")
      && negb (PyStr.contains "==" v)
  | Editable o n =>
      negb (has_char "#"%char o) && negb (PyStr.contains "#egg=" n)
      && negb (PyStr.contains "-e " (o +:+ "#egg=" +:+ n))
  end.

Definition entry_name (e : freeze_entry) : string :=
  match e with Plain n _ => n | Editable _ n => n end.

Definition entry_value (e : freeze_entry) : string :=
  match e with Plain _ v => v | Editable o _ => o end.

(** The mapping after one more entry. *)
Definition recorded (m : gmap string string) (e : freeze_entry) : gmap string string :=
  <[entry_name e := entry_value e]> m.

(** A line that is not editable and holds no [==]. *)
Definition unparsed (line : string) : Prop :=
  PyStr.startswith line "-e" = false /\ PyStr.contains "==" line = false.

(** [name] and [version] are bound together or not at all. *)
Definition paired (st : list_locals) : Prop :=
  (name st = None /\ version st = None)
  \/ (exists n v, name st = Some n /\ version st = Some v).

(** Both are bound, and recorded if the prefix filter lets the name pass. *)
Definition settled (prefix : string) (st : list_locals) : Prop :=
  exists n v,
    name st = Some n /\ version st = Some v
    /\ (truthy prefix = false
        \/ PyStr.startswith (PyStr.lower n) (PyStr.lower prefix) = true ->
        packages st !! n = Some v).

(** How a caller joins a package list into one string: the commas inside a
    package become semicolons, then the packages are joined by commas. *)
Definition comma_joined (ps : list string) : string :=
  PyStr.join "," (map (PyStr.replace "," ";") ps).

(** A package that survives the joining: not empty, without a semicolon of
    its own and without blanks around it. *)
Definition pkg_ok (p : string) : bool :=
  truthy p && negb (has_char ";"%char p) && String.eqb (PyStr.strip p) p.

(** The normalization in the words of the specification, for any string:
    split on commas, strip each piece, put the commas back for the
    semicolons. *)
Definition split_strip_restore (s : string) : list string :=
  map (PyStr.replace ";" ",") (map PyStr.strip (PyStr.split "," s)).

(** Whether [s] holds blanks only. *)
Fixpoint all_space (s : string) : bool :=
  match s with
  | EmptyString => true
  | String c s' => PyStr.is_space c && all_space s'
  end.

(** A package as it stands in a joined string: the blanks before it, the
    package the caller means, the blanks after it. *)
Record written : Type := mkWritten {
  lead : string;
  pkg : string;
  trail : string
}.

Definition written_ok (x : written) : bool :=
  pkg_ok (pkg x) && all_space (lead x) && all_space (trail x).

Definition unpadded (x : written) : bool :=
  negb (truthy (lead x)) && negb (truthy (trail x)).

(** The piece of the string: the commas of the package as semicolons,
    between the blanks. *)
Definition spelled (x : written) : string :=
  lead x +:+ PyStr.replace "," ";" (pkg x) +:+ trail x.

Definition written_joined (xs : list written) : string :=
  PyStr.join "," (map spelled xs).

(** A step of the builder that only ever appends to the command. *)
Definition extends (f : list string -> exn + list string) : Prop :=
  forall cmd cmd', f cmd = inr cmd' -> exists extra, cmd' = cmd ++ extra.

(** A statement that spawns no process. *)
Definition quiet {R A} (m : M R A) : Prop :=
  forall w, spawned (snd (m w)) = spawned w.

(** The first mirror [install] rejects. *)
Definition first_bad_mirror (mirrors : list string) : option string :=
  List.find (fun m => negb (PyStr.startswith m "http://")) mirrors.

(** ** Notions for the further properties *)

(** The files the resolvers look for under a virtualenv. *)
Definition pip_subpath (salt : collaborators) (bin_env : string) : string :=
  if is_windows salt then os_path_join salt [bin_env; "Scripts"; "pip.exe"]
  else os_path_join salt [bin_env; "bin"; "pip"].

Definition activate_subpath (salt : collaborators) (bin_env : string) : string :=
  if is_windows salt then os_path_join salt [bin_env; "Scripts"; "activate.bat"]
  else os_path_join salt [bin_env; "bin"; "activate"].

(** A statement that leaves the files as they are. *)
Definition keeps_files {R A} (m : M R A) : Prop :=
  forall w, files (snd (m w)) = files w.

(** A request with one keyword argument changed. *)
Definition set_activate (v : bool) (a : InstallArgs.t) : InstallArgs.t :=
  {| InstallArgs.pkgs := InstallArgs.pkgs a;
     InstallArgs.requirements := InstallArgs.requirements a;
     InstallArgs.env := InstallArgs.env a;
     InstallArgs.bin_env := InstallArgs.bin_env a;
     InstallArgs.log := InstallArgs.log a;
     InstallArgs.proxy := InstallArgs.proxy a;
     InstallArgs.timeout := InstallArgs.timeout a;
     InstallArgs.editable := InstallArgs.editable a;
     InstallArgs.find_links := InstallArgs.find_links a;
     InstallArgs.index_url := InstallArgs.index_url a;
     InstallArgs.extra_index_url := InstallArgs.extra_index_url a;
     InstallArgs.no_index := InstallArgs.no_index a;
     InstallArgs.mirrors := InstallArgs.mirrors a;
     InstallArgs.build := InstallArgs.build a;
     InstallArgs.target := InstallArgs.target a;
     InstallArgs.download := InstallArgs.download a;
     InstallArgs.download_cache := InstallArgs.download_cache a;
     InstallArgs.source := InstallArgs.source a;
     InstallArgs.upgrade := InstallArgs.upgrade a;
     InstallArgs.force_reinstall := InstallArgs.force_reinstall a;
     InstallArgs.ignore_installed := InstallArgs.ignore_installed a;
     InstallArgs.exists_action := InstallArgs.exists_action a;
     InstallArgs.no_deps := InstallArgs.no_deps a;
     InstallArgs.no_install := InstallArgs.no_install a;
     InstallArgs.no_download := InstallArgs.no_download a;
     InstallArgs.install_options := InstallArgs.install_options a;
     InstallArgs.runas := InstallArgs.runas a;
     InstallArgs.no_chown := InstallArgs.no_chown a;
     InstallArgs.cwd := InstallArgs.cwd a;
     InstallArgs.activate := v;
     InstallArgs.__env__ := InstallArgs.__env__ a |}.

Definition set_env (v : string) (a : InstallArgs.t) : InstallArgs.t :=
  {| InstallArgs.pkgs := InstallArgs.pkgs a;
     InstallArgs.requirements := InstallArgs.requirements a;
     InstallArgs.env := v;
     InstallArgs.bin_env := InstallArgs.bin_env a;
     InstallArgs.log := InstallArgs.log a;
     InstallArgs.proxy := InstallArgs.proxy a;
     InstallArgs.timeout := InstallArgs.timeout a;
     InstallArgs.editable := InstallArgs.editable a;
     InstallArgs.find_links := InstallArgs.find_links a;
     InstallArgs.index_url := InstallArgs.index_url a;
     InstallArgs.extra_index_url := InstallArgs.extra_index_url a;
     InstallArgs.no_index := InstallArgs.no_index a;
     InstallArgs.mirrors := InstallArgs.mirrors a;
     InstallArgs.build := InstallArgs.build a;
     InstallArgs.target := InstallArgs.target a;
     InstallArgs.download := InstallArgs.download a;
     InstallArgs.download_cache := InstallArgs.download_cache a;
     InstallArgs.source := InstallArgs.source a;
     InstallArgs.upgrade := InstallArgs.upgrade a;
     InstallArgs.force_reinstall := InstallArgs.force_reinstall a;
     InstallArgs.ignore_installed := InstallArgs.ignore_installed a;
     InstallArgs.exists_action := InstallArgs.exists_action a;
     InstallArgs.no_deps := InstallArgs.no_deps a;
     InstallArgs.no_install := InstallArgs.no_install a;
     InstallArgs.no_download := InstallArgs.no_download a;
     InstallArgs.install_options := InstallArgs.install_options a;
     InstallArgs.runas := InstallArgs.runas a;
     InstallArgs.no_chown := InstallArgs.no_chown a;
     InstallArgs.cwd := InstallArgs.cwd a;
     InstallArgs.activate := InstallArgs.activate a;
     InstallArgs.__env__ := InstallArgs.__env__ a |}.

Definition set_bin_env (v : string) (a : InstallArgs.t) : InstallArgs.t :=
  {| InstallArgs.pkgs := InstallArgs.pkgs a;
     InstallArgs.requirements := InstallArgs.requirements a;
     InstallArgs.env := InstallArgs.env a;
     InstallArgs.bin_env := v;
     InstallArgs.log := InstallArgs.log a;
     InstallArgs.proxy := InstallArgs.proxy a;
     InstallArgs.timeout := InstallArgs.timeout a;
     InstallArgs.editable := InstallArgs.editable a;
     InstallArgs.find_links := InstallArgs.find_links a;
     InstallArgs.index_url := InstallArgs.index_url a;
     InstallArgs.extra_index_url := InstallArgs.extra_index_url a;
     InstallArgs.no_index := InstallArgs.no_index a;
     InstallArgs.mirrors := InstallArgs.mirrors a;
     InstallArgs.build := InstallArgs.build a;
     InstallArgs.target := InstallArgs.target a;
     InstallArgs.download := InstallArgs.download a;
     InstallArgs.download_cache := InstallArgs.download_cache a;
     InstallArgs.source := InstallArgs.source a;
     InstallArgs.upgrade := InstallArgs.upgrade a;
     InstallArgs.force_reinstall := InstallArgs.force_reinstall a;
     InstallArgs.ignore_installed := InstallArgs.ignore_installed a;
     InstallArgs.exists_action := InstallArgs.exists_action a;
     InstallArgs.no_deps := InstallArgs.no_deps a;
     InstallArgs.no_install := InstallArgs.no_install a;
     InstallArgs.no_download := InstallArgs.no_download a;
     InstallArgs.install_options := InstallArgs.install_options a;
     InstallArgs.runas := InstallArgs.runas a;
     InstallArgs.no_chown := InstallArgs.no_chown a;
     InstallArgs.cwd := InstallArgs.cwd a;
     InstallArgs.activate := InstallArgs.activate a;
     InstallArgs.__env__ := InstallArgs.__env__ a |}.

Definition set_upgrade (v : bool) (a : InstallArgs.t) : InstallArgs.t :=
  {| InstallArgs.pkgs := InstallArgs.pkgs a;
     InstallArgs.requirements := InstallArgs.requirements a;
     InstallArgs.env := InstallArgs.env a;
     InstallArgs.bin_env := InstallArgs.bin_env a;
     InstallArgs.log := InstallArgs.log a;
     InstallArgs.proxy := InstallArgs.proxy a;
     InstallArgs.timeout := InstallArgs.timeout a;
     InstallArgs.editable := InstallArgs.editable a;
     InstallArgs.find_links := InstallArgs.find_links a;
     InstallArgs.index_url := InstallArgs.index_url a;
     InstallArgs.extra_index_url := InstallArgs.extra_index_url a;
     InstallArgs.no_index := InstallArgs.no_index a;
     InstallArgs.mirrors := InstallArgs.mirrors a;
     InstallArgs.build := InstallArgs.build a;
     InstallArgs.target := InstallArgs.target a;
     InstallArgs.download := InstallArgs.download a;
     InstallArgs.download_cache := InstallArgs.download_cache a;
     InstallArgs.source := InstallArgs.source a;
     InstallArgs.upgrade := v;
     InstallArgs.force_reinstall := InstallArgs.force_reinstall a;
     InstallArgs.ignore_installed := InstallArgs.ignore_installed a;
     InstallArgs.exists_action := InstallArgs.exists_action a;
     InstallArgs.no_deps := InstallArgs.no_deps a;
     InstallArgs.no_install := InstallArgs.no_install a;
     InstallArgs.no_download := InstallArgs.no_download a;
     InstallArgs.install_options := InstallArgs.install_options a;
     InstallArgs.runas := InstallArgs.runas a;
     InstallArgs.no_chown := InstallArgs.no_chown a;
     InstallArgs.cwd := InstallArgs.cwd a;
     InstallArgs.activate := InstallArgs.activate a;
     InstallArgs.__env__ := InstallArgs.__env__ a |}.

(** The token of an option that is set. *)
Definition opt (b : bool) (tok : string) : list string := if b then [tok] else [].

(** The tokens of the packages and of the editables. *)
Definition package_tokens (a : InstallArgs.t) : list string :=
  if truthy_arg (InstallArgs.pkgs a)
  then map (PyStr.replace ";" ",") (as_list (InstallArgs.pkgs a)) else [].

Definition editable_tokens (a : InstallArgs.t) : list string :=
  if truthy_arg (InstallArgs.editable a)
  then map (fun e => "--editable=" +:+ e) (as_list (InstallArgs.editable a)) else [].

(** The tokens of the options that follow the requirements file, in the
    order of the command line. *)
Definition option_tokens (a : InstallArgs.t) : list string :=
  opt (truthy (InstallArgs.log a)) ("--log=" +:+ InstallArgs.log a)
  ++ opt (truthy (InstallArgs.proxy a)) ("--proxy=" +:+ InstallArgs.proxy a)
  ++ opt (truthy (InstallArgs.timeout a)) ("--timeout=" +:+ InstallArgs.timeout a)
  ++ opt (truthy (InstallArgs.find_links a))
       ("--find-links=" +:+ InstallArgs.find_links a)
  ++ opt (truthy (InstallArgs.index_url a))
       ("--index-url=" +:+ PyStr.repr (InstallArgs.index_url a))
  ++ opt (truthy (InstallArgs.extra_index_url a))
       ("--extra-index-url=" +:+ PyStr.repr (InstallArgs.extra_index_url a) +:+ " ")
  ++ opt (InstallArgs.no_index a) "--no-index"
  ++ (if truthy_arg (InstallArgs.mirrors a)
      then "--use-mirrors"
           :: map (fun m => "--mirrors=" +:+ m) (as_list (InstallArgs.mirrors a))
      else [])
  ++ opt (truthy (InstallArgs.target a)) ("--target=" +:+ InstallArgs.target a)
  ++ opt (truthy (InstallArgs.download a)) ("--download=" +:+ InstallArgs.download a)
  ++ opt (truthy (InstallArgs.download_cache a))
       ("--download-cache=" +:+ InstallArgs.download_cache a)
  ++ opt (truthy (InstallArgs.source a)) ("--source=" +:+ InstallArgs.source a)
  ++ opt (InstallArgs.upgrade a) "--upgrade"
  ++ opt (InstallArgs.force_reinstall a) "--force-reinstall"
  ++ opt (InstallArgs.ignore_installed a) "--ignore-installed"
  ++ opt (truthy (InstallArgs.exists_action a))
       ("--exists-action=" +:+ InstallArgs.exists_action a)
  ++ opt (InstallArgs.no_deps a) "--no-deps"
  ++ opt (InstallArgs.no_install a) "--no-install"
  ++ opt (InstallArgs.no_download a) "--no-download"
  ++ (if truthy_arg (InstallArgs.install_options a)
      then map (fun o => "--install-option=" +:+ o)
             (match InstallArgs.install_options a with
              | PyStr s => [s]
              | PyList l => l
              | PyNone => []
              end)
      else []).

(** A step of the builder that, when it succeeds, appends [toks]. *)
Definition appends (f : list string -> exn + list string) (toks : list string) : Prop :=
  forall cmd cmd', f cmd = inr cmd' -> cmd' = cmd ++ toks.

Module World.

(** A Windows minion; paths are joined with a backslash. *)
Definition windows : collaborators :=
  {| is_windows := true;
     os_path_join := PyStr.join "\";
     cmd_which_bin := fun _ _ => Some "C:\Python27\Scripts\pip.exe";
     cp_is_cached := fun _ _ _ => "";
     cp_cache_file := fun _ _ _ => "";
     cp_hash_file := fun _ _ _ => "d41d8cd9";
     file_chown := fun _ _ _ => None;
     cmd_run_all := fun _ _ _ _ => Minion.ok;
     valid_url := Minion.scheme_valid;
     mkstemp_path := fun _ => "C:\Temp\tmpXs3kq1" |}.

(** [install(pkgs=['django', 'markdown'], upgrade=True)] *)
Definition upgrade_two : InstallArgs.t :=
  set_upgrade true
    (Minion.install_call (PyList ["django"; "markdown"]) "" "" "" PyNone PyNone "" "").

(** [install(pkgs='foo', bin_env=..., activate=True)] *)
Definition activated (bin_env : string) : InstallArgs.t :=
  set_activate true
    (Minion.install_call (PyStr "foo") "" bin_env "" PyNone PyNone "" "").

(** A machine with a virtualenv that holds pip and its activation script. *)
Definition venv : world :=
  mkWorld {["/srv/venv"]}
    ({["/srv/venv/bin/pip"]} ∪ {["/srv/venv/bin/activate"]} ∪ {["/srv/reqs.txt"]}) [].

(** A machine with a pip binary outside any virtualenv. *)
Definition lone_pip : world := mkWorld ∅ {["/opt/pip"]} [].

End World.

(** The packages of a mapping whose name passes the prefix filter of
    [list_]: the lower-cased name starts with the lower-cased prefix. *)
Definition matching (prefix : string) (m : gmap string string) : gmap string string :=
  filter (fun kv : string * string =>
            PyStr.startswith (PyStr.lower kv.1) (PyStr.lower prefix) = true) m.

(** The locals of a filtered loop beside those of an unfiltered one. *)
Definition related (prefix : string) (sp sa : list_locals) : Prop :=
  name sp = name sa /\ version sp = version sa
  /\ packages sp = matching prefix (packages sa).

(** The last entry of a listing that carries the name [n]. *)
Definition last_named (n : string) (entries : list freeze_entry) : option freeze_entry :=
  List.find (fun e => String.eqb (entry_name e) n) (rev entries).

Module Freeze.

(** An output whose editable line has no blank after [-e]. *)
Definition glued_editable : CommandResult :=
  mkResult 0 ("django==1.5" +:+ Minion.nl +:+ "-egit+https://x#egg=foo" +:+ Minion.nl) "".

(** An output that lists a package twice and mixes the case of names. *)
Definition mixed : CommandResult :=
  mkResult 0 ("Django==1.4" +:+ Minion.nl +:+ "markdown==2.0" +:+ Minion.nl
              +:+ "Django==1.5" +:+ Minion.nl
              +:+ "-e git+https://x#egg=django-embed" +:+ Minion.nl) "".

End Freeze.

(** An editable entry that starts with neither [file://] nor [/] and holds
    no [egg=] at all. *)
Definition lacks_egg (entry : string) : Prop :=
  PyStr.startswith entry "file://" = false
  /\ PyStr.startswith entry "/" = false
  /\ PyStr.contains "egg=" entry = false.

(** An editable entry [install] accepts by its shape: a local path, or an
    origin without [#] followed by [#egg=] and a name that does not open
    with [&]. *)
Definition editable_ok (entry : string) : Prop :=
  PyStr.startswith entry "file://" = true
  \/ PyStr.startswith entry "/" = true
  \/ exists origin c name,
       entry = origin +:+ "#egg=" +:+ String c name
       /\ has_char "#"%char origin = false
       /\ c <> "&"%char.

Module Editable.

(** [install(editable=[...])] *)
Definition request (editable : str_or_list) : InstallArgs.t :=
  Minion.install_call PyNone "" "" "" editable PyNone "" "".

End Editable.

(** The checks of [timeout] and of [find_links] pass. *)
Definition timeout_ok (a : InstallArgs.t) : bool :=
  negb (truthy (InstallArgs.timeout a)) || PyStr.int_parses (InstallArgs.timeout a).

Definition find_links_ok (salt : collaborators) (a : InstallArgs.t) : bool :=
  negb (truthy (InstallArgs.find_links a))
  || valid_url salt (InstallArgs.find_links a) VALID_PROTOS.

(** No temporary copy of the requirements file is called for. *)
Definition no_copy (a : InstallArgs.t) : Prop :=
  truthy (InstallArgs.requirements a) = false
  \/ truthy (InstallArgs.runas a) = false
  \/ InstallArgs.no_chown a = true.

(** Whether [install] got as far as a command. *)
Definition built {R A} (o : outcome R A) : bool :=
  match o with Next _ => true | _ => false end.

Module Options.

(** [install(pkgs='foo', index_url=..., no_index=True)] *)
Definition index_and_no_index : InstallArgs.t :=
  {| InstallArgs.pkgs := PyStr "foo";
     InstallArgs.requirements := "";
     InstallArgs.env := "";
     InstallArgs.bin_env := "";
     InstallArgs.log := "";
     InstallArgs.proxy := "";
     InstallArgs.timeout := "";
     InstallArgs.editable := PyNone;
     InstallArgs.find_links := "";
     InstallArgs.index_url := "http://pypi.example/simple";
     InstallArgs.extra_index_url := "";
     InstallArgs.no_index := true;
     InstallArgs.mirrors := PyNone;
     InstallArgs.build := "";
     InstallArgs.target := "";
     InstallArgs.download := "";
     InstallArgs.download_cache := "";
     InstallArgs.source := "";
     InstallArgs.upgrade := false;
     InstallArgs.force_reinstall := false;
     InstallArgs.ignore_installed := false;
     InstallArgs.exists_action := "";
     InstallArgs.no_deps := false;
     InstallArgs.no_install := false;
     InstallArgs.no_download := false;
     InstallArgs.install_options := PyNone;
     InstallArgs.runas := "";
     InstallArgs.no_chown := false;
     InstallArgs.cwd := "";
     InstallArgs.activate := false;
     InstallArgs.__env__ := "base" |}.

(** [install(pkgs='foo', timeout='abc')] *)
Definition bad_timeout : InstallArgs.t :=
  Minion.install_call (PyStr "foo") "" "" "abc" PyNone PyNone "" "".

(** [install(pkgs='foo', build='/tmp/build')] *)
Definition with_build : InstallArgs.t :=
  Minion.install_call (PyStr "foo") "" "" "" PyNone PyNone "/tmp/build" "".

(** [install(pkgs='foo', requirements='/srv/reqs.txt', runas='bob')] *)
Definition as_bob : InstallArgs.t :=
  Minion.install_call (PyStr "foo") "/srv/reqs.txt" "" "" PyNone PyNone "" "bob".

(** [install(pkgs='foo', requirements='/srv/reqs.txt')] *)
Definition plain_requirements : InstallArgs.t :=
  Minion.install_call (PyStr "foo") "/srv/reqs.txt" "" "" PyNone PyNone "" "".

(** The world of [as_bob] once the command is built. *)
Definition copied : world :=
  log_event (EvChown "/tmp/tmpXs3kq1" "bob")
    (add_file "/tmp/tmpXs3kq1" Minion.searched).

End Options.

Module Removal.

(** [uninstall(pkgs='foo,bar', requirements=...)] *)
Definition request (requirements timeout : string) : UninstallArgs.t :=
  UninstallArgs.mk "foo,bar" requirements "" "" "" timeout "" "" "base".

(** The world of a remote uninstall after the run: fetched, copied, run,
    the copy removed. *)
Definition fetched : world :=
  log_event (EvCacheFile "salt://reqs.txt" "base")
    (log_event (EvWhichBin ["pip2"; "pip"; "pip-python"]) Minion.cached_machine).

End Removal.

(** * Facts about the string primitives *)

Module PyStrFacts.

Lemma app_nil_r (s : string) : s +:+ "" = s.
Proof. induction s as [|c s IH]; cbn; [reflexivity|]. now rewrite IH. Qed.

Lemma app_assoc (a b c : string) : (a +:+ b) +:+ c = a +:+ b +:+ c.
Proof. induction a as [|x a IH]; cbn; [reflexivity|]. now rewrite IH. Qed.

Lemma length_app (a b : string) :
  String.length (a +:+ b) = String.length a + String.length b.
Proof. induction a as [|x a IH]; cbn; [reflexivity|]. now rewrite IH. Qed.

Lemma prefix_cons (a b : ascii) (s1 s2 : string) :
  String.prefix (String a s1) (String b s2)
  = if ascii_dec a b then String.prefix s1 s2 else false.
Proof. reflexivity. Qed.

Lemma prefix_nil_l (s : string) : String.prefix "" s = true.
Proof. now destruct s. Qed.

Lemma prefix_app (sep b : string) : String.prefix sep (sep +:+ b) = true.
Proof.
  induction sep as [|c sep IH]; cbn; [now destruct b|].
  destruct (ascii_dec c c); [exact IH|congruence].
Qed.

Lemma drop_app (sep b : string) : PyStr.drop (String.length sep) (sep +:+ b) = b.
Proof. induction sep as [|c sep IH]; cbn; [reflexivity|exact IH]. Qed.

Lemma prefix_head_ne (c0 c : ascii) (sep s : string) :
  Ascii.eqb c c0 = false -> String.prefix (String c0 sep) (String c s) = false.
Proof.
  intros Hne. cbn. destruct (ascii_dec c0 c) as [->|]; [|reflexivity].
  rewrite Ascii.eqb_refl in Hne. discriminate.
Qed.

(** The first cut falls after [a] when [a] lacks the first character of the
    separator. *)
Lemma partition_first (c0 : ascii) (sep a b : string) :
  has_char c0 a = false ->
  PyStr.partition (String c0 sep) (a +:+ String c0 sep +:+ b) = Some (a, b).
Proof.
  induction a as [|c a IH]; intros Ha.
  - change ("" +:+ String c0 sep +:+ b) with (String c0 sep +:+ b).
    destruct (String c0 sep +:+ b) eqn:E; [discriminate|].
    unfold PyStr.partition; fold PyStr.partition.
    rewrite <- E, prefix_app, drop_app. reflexivity.
  - cbn [has_char] in Ha. apply orb_false_elim in Ha as [Hc Ha].
    change (String c a +:+ String c0 sep +:+ b)
      with (String c (a +:+ String c0 sep +:+ b)).
    unfold PyStr.partition; fold PyStr.partition.
    rewrite (prefix_head_ne _ _ _ _ Hc), (IH Ha). reflexivity.
Qed.

Lemma contains_false (sep s : string) :
  PyStr.contains sep s = false -> PyStr.partition sep s = None.
Proof.
  unfold PyStr.contains. destruct (PyStr.partition sep s); [discriminate|reflexivity].
Qed.

Lemma split_fuel_uncut (n : nat) (sep s : string) :
  PyStr.partition sep s = None -> PyStr.split_fuel n sep s = [s].
Proof. intros H. destruct n; cbn; [reflexivity|]. now rewrite H. Qed.

Lemma split_uncut (sep s : string) :
  PyStr.contains sep s = false -> PyStr.split sep s = [s].
Proof. intros H. apply split_fuel_uncut, contains_false, H. Qed.

(** A string of the shape [a sep b], [sep] not reaching into [a] and absent
    from [b], splits in two. *)
Lemma split_once (c0 : ascii) (sep a b : string) :
  has_char c0 a = false ->
  PyStr.contains (String c0 sep) b = false ->
  PyStr.split (String c0 sep) (a +:+ String c0 sep +:+ b) = [a; b].
Proof.
  intros Ha Hb. unfold PyStr.split.
  destruct (String.length (a +:+ String c0 sep +:+ b)) as [|n] eqn:E.
  { rewrite length_app in E. cbn in E. lia. }
  cbn [PyStr.split_fuel].
  rewrite (partition_first _ _ _ _ Ha).
  now rewrite (split_fuel_uncut _ _ _ (contains_false _ _ Hb)).
Qed.

(** The pieces of a split are one more than the occurrences counted. *)
Lemma length_split_fuel (n : nat) (sep s : string) :
  List.length (PyStr.split_fuel n sep s) = S (PyStr.count_fuel n sep s).
Proof.
  revert s. induction n as [|n IH]; intros s; cbn; [reflexivity|].
  destruct (PyStr.partition sep s) as [[a b]|]; cbn; [|reflexivity].
  now rewrite IH.
Qed.

Lemma length_split (sep s : string) :
  List.length (PyStr.split sep s) = S (PyStr.count sep s).
Proof. apply length_split_fuel. Qed.

(** *** The fuel of [split] is enough *)

Lemma prefix_length (sep s : string) :
  String.prefix sep s = true ->
  String.length (PyStr.drop (String.length sep) s) + String.length sep
  = String.length s.
Proof.
  revert s. induction sep as [|c sep IH]; intros s H.
  - cbn. lia.
  - destruct s as [|x s]; [discriminate|].
    rewrite prefix_cons in H. destruct (ascii_dec c x); [|discriminate].
    cbn. specialize (IH s H). lia.
Qed.

Lemma partition_length (sep s a b : string) :
  PyStr.partition sep s = Some (a, b) ->
  String.length s = String.length a + String.length sep + String.length b.
Proof.
  revert a. induction s as [|x s IH]; intros a.
  - unfold PyStr.partition.
    destruct (String.prefix sep "") eqn:E; [|discriminate].
    intros [= <- <-]. pose proof (prefix_length _ _ E). cbn in *. lia.
  - unfold PyStr.partition; fold PyStr.partition.
    destruct (String.prefix sep (String x s)) eqn:E.
    + intros [= <- <-]. pose proof (prefix_length _ _ E). cbn in *. lia.
    + destruct (PyStr.partition sep s) as [[a' b']|]; [|discriminate].
      intros [= <- <-]. specialize (IH a' eq_refl). cbn. lia.
Qed.

(** Any fuel from the length of the string on gives the same pieces: the
    fuel never cuts a split short. *)
Lemma split_fuel_enough (sep s : string) (n m : nat) :
  sep <> "" ->
  String.length s <= n -> String.length s <= m ->
  PyStr.split_fuel n sep s = PyStr.split_fuel m sep s.
Proof.
  intros Hsep. revert m s. induction n as [|n IH]; intros m s Hn Hm.
  - destruct s; [|cbn in Hn; lia].
    destruct m; [reflexivity|]. cbn.
    destruct sep; [congruence|reflexivity].
  - destruct m as [|m].
    + destruct s; [|cbn in Hm; lia]. cbn.
      destruct sep; [congruence|reflexivity].
    + cbn [PyStr.split_fuel].
      destruct (PyStr.partition sep s) as [[a b]|] eqn:Hp; [|reflexivity].
      apply partition_length in Hp.
      assert (0 < String.length sep) by (destruct sep; [congruence|cbn; lia]).
      f_equal. apply IH; lia.
Qed.

(** *** One-character separators *)

Lemma partition_char_cons (c x : ascii) (s : string) :
  PyStr.partition (String c "") (String x s)
  = if ascii_dec c x then Some ("", s)
    else match PyStr.partition (String c "") s with
         | Some (a, b) => Some (String x a, b)
         | None => None
         end.
Proof.
  unfold PyStr.partition; fold PyStr.partition.
  rewrite prefix_cons, prefix_nil_l.
  destruct (ascii_dec c x); reflexivity.
Qed.

Lemma partition_char_nil (c : ascii) : PyStr.partition (String c "") "" = None.
Proof. reflexivity. Qed.

Lemma eqb_ascii_dec (x c : ascii) :
  Ascii.eqb x c = if ascii_dec c x then true else false.
Proof.
  destruct (ascii_dec c x) as [->|Hne].
  - apply Ascii.eqb_refl.
  - apply Ascii.eqb_neq. congruence.
Qed.

Lemma partition_char_absent (c : ascii) (s : string) :
  has_char c s = false -> PyStr.partition (String c "") s = None.
Proof.
  induction s as [|x s IH]; [reflexivity|].
  cbn [has_char]. rewrite partition_char_cons, eqb_ascii_dec.
  destruct (ascii_dec c x); [discriminate|].
  cbn [orb]. intros H. now rewrite (IH H).
Qed.

Lemma contains_char_absent (c : ascii) (s : string) :
  has_char c s = false -> PyStr.contains (String c "") s = false.
Proof.
  intros H. unfold PyStr.contains. now rewrite (partition_char_absent _ _ H).
Qed.

(** What a cut at a character tells about the string. *)
Lemma partition_char_found (c : ascii) (s a b : string) :
  PyStr.partition (String c "") s = Some (a, b) ->
  s = a +:+ String c b /\ has_char c a = false.
Proof.
  revert a. induction s as [|x s IH]; intros a; [discriminate|].
  rewrite partition_char_cons.
  destruct (ascii_dec c x) as [->|Hne].
  - intros [= <- <-]. split; reflexivity.
  - destruct (PyStr.partition (String c "") s) as [[a' b']|]; [|discriminate].
    intros [= <- <-]. destruct (IH a' eq_refl) as [-> Ha].
    split; [reflexivity|]. cbn [has_char]. rewrite Ha, eqb_ascii_dec.
    now destruct (ascii_dec c x).
Qed.

Lemma split_fuel_nonempty (n : nat) (sep s : string) :
  PyStr.split_fuel n sep s <> [].
Proof.
  destruct n; cbn; [discriminate|].
  destruct (PyStr.partition sep s) as [[a b]|]; discriminate.
Qed.

Lemma join_cons (sep a : string) (l : list string) :
  l <> [] -> PyStr.join sep (a :: l) = a +:+ sep +:+ PyStr.join sep l.
Proof. destruct l; [congruence|reflexivity]. Qed.

Lemma subst_char_app (c1 c2 : ascii) (a b : string) :
  subst_char c1 c2 (a +:+ b) = subst_char c1 c2 a +:+ subst_char c1 c2 b.
Proof. induction a as [|x a IH]; cbn; [reflexivity|]. now rewrite IH. Qed.

Lemma subst_char_absent (c1 c2 : ascii) (s : string) :
  has_char c1 s = false -> subst_char c1 c2 s = s.
Proof.
  induction s as [|x s IH]; [reflexivity|].
  cbn. intros H. apply orb_false_elim in H as [Hx Hs].
  now rewrite Hx, (IH Hs).
Qed.

(** Replacing one character by another is a character-wise substitution. *)
Lemma replace_fuel_char (c1 c2 : ascii) (n : nat) (s : string) :
  String.length s <= n ->
  PyStr.join (String c2 "") (PyStr.split_fuel n (String c1 "") s)
  = subst_char c1 c2 s.
Proof.
  revert s. induction n as [|n IH]; intros s Hlen.
  - destruct s; [reflexivity|cbn in Hlen; lia].
  - cbn [PyStr.split_fuel].
    destruct (PyStr.partition (String c1 "") s) as [[a b]|] eqn:Hp.
    + destruct (partition_char_found _ _ _ _ Hp) as [-> Ha].
      rewrite join_cons by apply split_fuel_nonempty.
      rewrite IH.
      * rewrite subst_char_app, (subst_char_absent _ _ _ Ha).
        cbn. now rewrite Ascii.eqb_refl.
      * rewrite length_app in Hlen. cbn in Hlen. lia.
    + cbn. symmetry. apply subst_char_absent.
      destruct (has_char c1 s) eqn:Hc; [|reflexivity].
      exfalso. clear -Hp Hc.
      induction s as [|x s IHs]; [discriminate|].
      rewrite partition_char_cons in Hp. cbn in Hc.
      rewrite eqb_ascii_dec in Hc.
      destruct (ascii_dec c1 x); [discriminate|].
      destruct (PyStr.partition (String c1 "") s) as [[a b]|]; [discriminate|].
      now apply IHs.
Qed.

Lemma replace_char (c1 c2 : ascii) (s : string) :
  PyStr.replace (String c1 "") (String c2 "") s = subst_char c1 c2 s.
Proof. apply replace_fuel_char. lia. Qed.

Lemma has_char_subst (c1 c2 : ascii) (s : string) :
  c1 <> c2 -> has_char c1 (subst_char c1 c2 s) = false.
Proof.
  intros Hne. induction s as [|x s IH]; [reflexivity|].
  cbn. rewrite IH, orb_false_r.
  destruct (Ascii.eqb x c1) eqn:E; [|exact E].
  apply Ascii.eqb_neq. congruence.
Qed.

Lemma subst_char_inverse (c1 c2 : ascii) (s : string) :
  has_char c2 s = false -> subst_char c2 c1 (subst_char c1 c2 s) = s.
Proof.
  induction s as [|x s IH]; [reflexivity|].
  cbn. intros H. apply orb_false_elim in H as [Hx Hs]. rewrite (IH Hs).
  destruct (Ascii.eqb x c1) eqn:E.
  - apply Ascii.eqb_eq in E. subst x. now rewrite Ascii.eqb_refl.
  - now rewrite Hx.
Qed.

Lemma lstrip_subst (c1 c2 : ascii) (s : string) :
  PyStr.is_space c1 = false -> PyStr.is_space c2 = false ->
  PyStr.lstrip (subst_char c1 c2 s) = subst_char c1 c2 (PyStr.lstrip s).
Proof.
  intros H1 H2. induction s as [|x s IH]; [reflexivity|].
  cbn. destruct (Ascii.eqb x c1) eqn:E.
  - apply Ascii.eqb_eq in E. subst x. rewrite H1, H2. cbn.
    now rewrite Ascii.eqb_refl.
  - destruct (PyStr.is_space x); [exact IH|]. cbn. now rewrite E.
Qed.

Lemma rstrip_subst (c1 c2 : ascii) (s : string) :
  PyStr.is_space c1 = false -> PyStr.is_space c2 = false ->
  PyStr.rstrip (subst_char c1 c2 s) = subst_char c1 c2 (PyStr.rstrip s).
Proof.
  intros H1 H2. induction s as [|x s IH]; [reflexivity|].
  cbn [subst_char PyStr.rstrip]. rewrite IH.
  assert (Hsp : PyStr.is_space (if Ascii.eqb x c1 then c2 else x)
                = PyStr.is_space x).
  { destruct (Ascii.eqb x c1) eqn:E; [|reflexivity].
    apply Ascii.eqb_eq in E. subst x. congruence. }
  destruct (PyStr.rstrip s) as [|y r]; cbn [subst_char].
  - rewrite Hsp. now destruct (PyStr.is_space x).
  - reflexivity.
Qed.

Lemma strip_subst (c1 c2 : ascii) (s : string) :
  PyStr.is_space c1 = false -> PyStr.is_space c2 = false ->
  PyStr.strip (subst_char c1 c2 s) = subst_char c1 c2 (PyStr.strip s).
Proof.
  intros H1 H2. unfold PyStr.strip.
  now rewrite lstrip_subst, rstrip_subst.
Qed.

(** Splitting a join gives the pieces back when none holds the separator. *)
Lemma split_fuel_join (c : ascii) (qs : list string) (n : nat) :
  qs <> [] ->
  forallb (fun q => negb (has_char c q)) qs = true ->
  String.length (PyStr.join (String c "") qs) <= n ->
  PyStr.split_fuel n (String c "") (PyStr.join (String c "") qs) = qs.
Proof.
  revert n. induction qs as [|q qs IH]; intros n Hne Hall Hlen; [congruence|].
  cbn [forallb] in Hall. apply andb_prop in Hall as [Hq Hqs].
  apply negb_true_iff in Hq.
  destruct qs as [|q' qs'].
  - cbn. apply split_fuel_uncut, partition_char_absent, Hq.
  - rewrite join_cons in * by discriminate.
    rewrite length_app in Hlen. cbn [String.append String.length] in Hlen.
    destruct n as [|n]; [lia|].
    cbn [PyStr.split_fuel].
    rewrite (partition_first c "" q _ Hq).
    f_equal. apply IH; [discriminate|exact Hqs|lia].
Qed.

Lemma split_join (c : ascii) (qs : list string) :
  qs <> [] ->
  forallb (fun q => negb (has_char c q)) qs = true ->
  PyStr.split (String c "") (PyStr.join (String c "") qs) = qs.
Proof. intros Hne Hall. apply split_fuel_join; [exact Hne|exact Hall|lia]. Qed.

(** Stripping removes the blanks around a piece and nothing else. *)
Lemma length_lstrip (s : string) :
  String.length (PyStr.lstrip s) <= String.length s.
Proof.
  induction s as [|c s IH]; cbn [PyStr.lstrip String.length]; [lia|].
  destruct (PyStr.is_space c); cbn [String.length]; lia.
Qed.

Lemma length_rstrip (s : string) :
  String.length (PyStr.rstrip s) <= String.length s.
Proof.
  induction s as [|c s IH]; cbn [PyStr.rstrip String.length]; [lia|].
  destruct (PyStr.rstrip s) as [|d r].
  - destruct (PyStr.is_space c); cbn [String.length]; lia.
  - cbn [String.length] in *. lia.
Qed.

Lemma strip_fixed_head (c : ascii) (s : string) :
  PyStr.strip (String c s) = String c s -> PyStr.is_space c = false.
Proof.
  unfold PyStr.strip. cbn [PyStr.lstrip].
  destruct (PyStr.is_space c); [|reflexivity].
  intros H. apply (f_equal String.length) in H. cbn [String.length] in H.
  pose proof (length_rstrip (PyStr.lstrip s)).
  pose proof (length_lstrip s). lia.
Qed.

Lemma lstrip_all_space_app (l s : string) :
  all_space l = true -> PyStr.lstrip (l +:+ s) = PyStr.lstrip s.
Proof.
  induction l as [|c l IH]; intros H; [reflexivity|].
  cbn [all_space] in H. apply andb_prop in H as [Hc Hl].
  cbn [String.append PyStr.lstrip]. rewrite Hc. now apply IH.
Qed.

Lemma lstrip_all_space (r : string) : all_space r = true -> PyStr.lstrip r = "".
Proof.
  intros H. rewrite <- (app_nil_r r). now rewrite lstrip_all_space_app.
Qed.

Lemma rstrip_all_space (r : string) : all_space r = true -> PyStr.rstrip r = "".
Proof.
  induction r as [|c r IH]; intros H; [reflexivity|].
  cbn [all_space] in H. apply andb_prop in H as [Hc Hr].
  cbn [PyStr.rstrip]. now rewrite (IH Hr), Hc.
Qed.

Lemma rstrip_app_all_space (s r : string) :
  all_space r = true -> PyStr.rstrip (s +:+ r) = PyStr.rstrip s.
Proof.
  intros H. induction s as [|c s IH].
  - cbn [String.append]. now apply rstrip_all_space.
  - cbn [String.append PyStr.rstrip]. now rewrite IH.
Qed.

Lemma strip_padded (l q r : string) :
  all_space l = true -> all_space r = true -> PyStr.strip q = q ->
  PyStr.strip (l +:+ q +:+ r) = q.
Proof.
  intros Hl Hr Hq. unfold PyStr.strip at 1.
  rewrite (lstrip_all_space_app l _ Hl).
  destruct q as [|c q].
  - cbn [String.append]. now rewrite (lstrip_all_space r Hr).
  - pose proof (strip_fixed_head c q Hq) as Hc.
    cbn [String.append PyStr.lstrip]. rewrite Hc.
    change (String c (q +:+ r)) with (String c q +:+ r).
    rewrite (rstrip_app_all_space _ r Hr).
    unfold PyStr.strip in Hq. cbn [PyStr.lstrip] in Hq. now rewrite Hc in Hq.
Qed.

Lemma has_char_app (c : ascii) (a b : string) :
  has_char c (a +:+ b) = has_char c a || has_char c b.
Proof.
  induction a as [|x a IH]; cbn [String.append has_char]; [reflexivity|].
  now rewrite IH, orb_assoc.
Qed.

Lemma all_space_has_char (c : ascii) (s : string) :
  PyStr.is_space c = false -> all_space s = true -> has_char c s = false.
Proof.
  intros Hc. induction s as [|x s IH]; intros H; [reflexivity|].
  cbn [all_space] in H. apply andb_prop in H as [Hx Hs].
  cbn [has_char]. rewrite (IH Hs), orb_false_r.
  apply Ascii.eqb_neq. intros ->. congruence.
Qed.

End PyStrFacts.

(** * Verification *)

(** ** Binary resolution *)

Section Resolver.

Variable salt : collaborators.

Lemma os_path_isdir_truthy (w : world) (p : string) :
  os_path_isdir w p = true -> truthy p = true.
Proof.
  unfold os_path_isdir. intros H. apply andb_prop in H. tauto.
Qed.

(** C5. When [bin_env] is an existing directory and the platform's pip
    subpath under it (Scripts/pip.exe on Windows, bin/pip elsewhere) is not
    a file, [_get_pip_bin] raises [CommandNotFoundError]; the world it
    leaves is the one it found, so no PATH search was made. *)
Theorem get_pip_bin_directory_without_pip (w : world) (bin_env : string) :
  os_path_isdir w bin_env = true ->
  os_path_isfile w
    (if is_windows salt then os_path_join salt [bin_env; "Scripts"; "pip.exe"]
     else os_path_join salt [bin_env; "bin"; "pip"]) = false ->
  _get_pip_bin salt bin_env w
    = (Raise (CommandNotFoundError "Could not find a `pip` binary"), w)
  /\ trace (snd (_get_pip_bin salt bin_env w)) = trace w.
Proof.
  intros Hdir Hfile.
  assert (Hrun : _get_pip_bin salt bin_env w
            = (Raise (CommandNotFoundError "Could not find a `pip` binary"), w)).
  { unfold _get_pip_bin.
    rewrite (os_path_isdir_truthy _ _ Hdir). cbn [negb].
    unfold bind, isdir, isfile. rewrite Hdir, Hfile. reflexivity. }
  rewrite Hrun. split; reflexivity.
Qed.

End Resolver.

Lemma get_pip_bin_directory_without_pip_witness :
  _get_pip_bin Minion.stock "/srv/venv" Minion.bare_venv
    = (Raise (CommandNotFoundError "Could not find a `pip` binary"), Minion.bare_venv)
  /\ trace (snd (_get_pip_bin Minion.stock "/srv/venv" Minion.bare_venv))
     = trace Minion.bare_venv.
Proof.
  apply (get_pip_bin_directory_without_pip Minion.stock Minion.bare_venv "/srv/venv");
    vm_compute; reflexivity.
Defined.

(** ** The requirements cache *)

Section Cache.

Variable salt : collaborators.

Lemma cache_file_calls_log (e : event) (w : world) :
  cache_file_calls (log_event e w)
  = cache_file_calls w + (if is_cache_file e then 1 else 0).
Proof.
  unfold cache_file_calls, log_event. cbn [trace].
  rewrite List.filter_app, List.length_app. cbn [List.filter].
  destruct (is_cache_file e); reflexivity.
Qed.

(** The first thing [_get_cached_requirements] does is read the global
    [__env__], an argument of its first call: it raises before any
    collaborator is called and leaves the world as it found it. *)
Lemma get_cached_requirements_unbound (requirements : string) (w : world) :
  _get_cached_requirements salt requirements w
  = (Raise (NameError "global name '__env__' is not defined"), w).
Proof. reflexivity. Qed.

End Cache.

(** C4, the failing call. On a minion whose cached copy of
    [salt://reqs.txt] is out of date (the two hashes differ for every
    environment), [_get_cached_requirements('salt://reqs.txt')] raises
    [NameError] for the global [__env__]: it returns no path and makes no
    [cp.cache_file] call, so nothing is fetched again.  The same happens
    for every argument on every minion. *)
Theorem get_cached_requirements_raises_NameError :
  (forall saltenv w1 w2,
      cp_is_cached Minion.stale "salt://reqs.txt" saltenv w1
      = "/var/cache/salt/reqs.txt"
      /\ cp_hash_file Minion.stale "salt://reqs.txt" saltenv w1
         <> cp_hash_file Minion.stale "/var/cache/salt/reqs.txt" saltenv w2)
  /\ (let '(o, w') := _get_cached_requirements Minion.stale "salt://reqs.txt"
                        Minion.cached_machine in
      o = Raise (NameError "global name '__env__' is not defined")
      /\ cache_file_calls w' = 0
      /\ trace w' = [])
  /\ (forall salt requirements w,
         fst (_get_cached_requirements salt requirements w)
         = Raise (NameError "global name '__env__' is not defined")
         /\ cache_file_calls (snd (_get_cached_requirements salt requirements w))
            = cache_file_calls w).
Proof.
  split; [|split].
  - intros saltenv w1 w2. split; [reflexivity|]. vm_compute. discriminate.
  - vm_compute. repeat split; reflexivity.
  - intros salt requirements w.
    rewrite get_cached_requirements_unbound. split; reflexivity.
Qed.

(** ** [freeze] and [list_]: the exit code *)

Section ExitCode.

Variable salt : collaborators.

Lemma freeze_after_run (bin_env runas cwd : string) (w : world) (r : CommandResult) :
  freeze_ran salt bin_env runas cwd w r ->
  fst (freeze salt bin_env runas cwd w)
  = if (0 <? retcode r)%Z then Raise (CommandExecutionError (stderr r))
    else Return (PyStr.splitlines (stdout r)).
Proof.
  intros (pip_bin & w1 & Hpip & Hrun).
  unfold freeze, bind, call, run_all. rewrite Hpip, Hrun.
  destruct (0 <? retcode r)%Z; reflexivity.
Qed.

Lemma list_after_run (prefix bin_env runas cwd : string) (w : world)
    (r : CommandResult) :
  freeze_ran salt bin_env runas cwd w r ->
  fst (list_ salt prefix bin_env runas cwd w)
  = if (0 <? retcode r)%Z then Raise (CommandExecutionError (stderr r))
    else loop_outcome (list_loop prefix no_locals (PyStr.splitlines (stdout r))).
Proof.
  intros (pip_bin & w1 & Hpip & Hrun).
  unfold list_, bind, call, run_all. rewrite Hpip, Hrun.
  destruct (0 <? retcode r)%Z; [reflexivity|].
  unfold lift, no_locals.
  destruct (list_loop prefix _ _); reflexivity.
Qed.

(** C7, as amended. When the run of [<pip> freeze] ends with an exit code
    greater than zero, [freeze] and [list_] raise [CommandExecutionError]
    with the captured stderr. *)
Theorem freeze_list_positive_exit_code (prefix bin_env runas cwd : string)
    (w : world) (r : CommandResult) :
  freeze_ran salt bin_env runas cwd w r ->
  (0 < retcode r)%Z ->
  fst (freeze salt bin_env runas cwd w) = Raise (CommandExecutionError (stderr r))
  /\ fst (list_ salt prefix bin_env runas cwd w)
     = Raise (CommandExecutionError (stderr r)).
Proof.
  intros Hran Hpos.
  rewrite (freeze_after_run _ _ _ _ _ Hran), (list_after_run prefix _ _ _ _ _ Hran).
  apply Z.ltb_lt in Hpos. rewrite Hpos. split; reflexivity.
Qed.

End ExitCode.

Ltac ran_on_path :=
  exists "/usr/bin/pip", Minion.searched; split; reflexivity.

Lemma freeze_list_positive_exit_code_witness :
  fst (freeze (Minion.exits (mkResult 2 "" "No such command")) "" "" "" Minion.machine)
  = Raise (CommandExecutionError "No such command")
  /\ fst (list_ (Minion.exits (mkResult 2 "" "No such command")) "" "" "" ""
            Minion.machine)
     = Raise (CommandExecutionError "No such command").
Proof.
  apply (freeze_list_positive_exit_code
           (Minion.exits (mkResult 2 "" "No such command")) "" "" "" ""
           Minion.machine (mkResult 2 "" "No such command")).
  - ran_on_path.
  - reflexivity.
Defined.

(** C7 as stated fails on a negative exit code, which [cmd.run_all] reports
    for a process ended by a signal: the code is not zero, yet [freeze]
    returns the lines printed so far and [list_] the packages parsed from
    them. *)
Lemma freeze_list_negative_exit_code :
  retcode Minion.killed <> 0%Z
  /\ fst (freeze (Minion.exits Minion.killed) "" "" "" Minion.machine)
     = Return ["django==1.5"]
  /\ fst (list_ (Minion.exits Minion.killed) "" "" "" "" Minion.machine)
     = Return {["django" := "1.5"]}.
Proof.
  split; [discriminate|]. split; vm_compute; reflexivity.
Qed.

(** ** The temporary copy of the requirements file *)

Section TemporaryCopy.

Variable salt : collaborators.

(** Once [install] reaches its [try], the copy is gone when it returns,
    whether the run returned or raised. *)
Lemma install_removes_copy_after_run (a : InstallArgs.t) (w w1 : world)
    (cmd : list string) (treq : string) :
  install_cmd salt a w = (Next (cmd, Some treq), w1) ->
  treq ∉ files (snd (install salt a w)).
Proof.
  intros Hcmd. unfold install, bind. rewrite Hcmd.
  unfold try_finally, run_all, return_.
  destruct (cmd_run_all salt _ _ _ w1); cbn;
    rewrite elem_of_difference, elem_of_singleton; tauto.
Qed.

End TemporaryCopy.

(** C1, the failing calls. [install] with [runas] and a [timeout] that is
    no integer raises after the copy was made and leaves the copy behind;
    so does [uninstall] of a [salt://] requirements file, both when its
    [timeout] is rejected and when the run itself raises. *)
Theorem temporary_copy_left_behind :
  (let r := install Minion.stock
              (Minion.install_call (PyStr "foo") "/srv/reqs.txt" "" "abc"
                 PyNone PyNone "" "bob") Minion.machine in
   ("/tmp/tmpXs3kq1" ∉ files Minion.machine)
   /\ fst r = Raise (ValueError "'abc' is not a valid integer base 10.")
   /\ ("/tmp/tmpXs3kq1" ∈ files (snd r)))
  /\ (let r := uninstall Minion.stale
                 (UninstallArgs.mk "" "salt://reqs.txt" "" "" "" "abc" "" "" "base")
                 Minion.cached_machine in
      ("/tmp/tmpXs3kq1" ∉ files Minion.cached_machine)
      /\ fst r = Raise (ValueError "'abc' is not a valid integer base 10.")
      /\ ("/tmp/tmpXs3kq1" ∈ files (snd r)))
  /\ (let r := uninstall Minion.stale_no_user
                 (UninstallArgs.mk "" "salt://reqs.txt" "" "" "" "" "bob" "" "base")
                 Minion.cached_machine in
      fst r = Raise (CommandExecutionError "User 'bob' is not available")
      /\ ("/tmp/tmpXs3kq1" ∈ files (snd r))).
Proof.
  repeat split;
    solve [ vm_compute; reflexivity
          | apply bool_decide_unpack; vm_compute; exact I
          | intros H; apply (bool_decide_pack _) in H; vm_compute in H; exact H ].
Qed.

(** The same [install] call with a valid [timeout] runs pip on the copy and
    removes it. *)
Example install_removes_copy :
  let r := install Minion.stock
             (Minion.install_call (PyStr "foo") "/srv/reqs.txt" "" "30"
                PyNone PyNone "" "bob") Minion.machine in
  fst r = Return (RunResult (mkResult 0 "" ""))
  /\ ("/tmp/tmpXs3kq1" ∉ files (snd r)).
Proof.
  split; [vm_compute; reflexivity|].
  intros H; apply (bool_decide_pack _) in H; vm_compute in H; exact H.
Qed.

(** ** The directory options *)

Section Directories.

Variable salt : collaborators.

Lemma add_value_appends (pre value : string) (cmd : list string) :
  truthy value = true ->
  add_value pre value cmd = inr (cmd ++ [pre +:+ value]).
Proof.
  intros Hv. unfold add_value. rewrite Hv. cbn.
  now rewrite PyStrFacts.app_nil_r.
Qed.

(** A non-empty [build] stops every command at the build option. *)
Lemma add_build_raises (build : string) (cmd : list string) :
  truthy build = true ->
  add_build build cmd = inl (IndexError "tuple index out of range").
Proof.
  intros Hb. unfold add_build. rewrite Hb. reflexivity.
Qed.

End Directories.

(** C2, the failing call. [install(pkgs='foo', build='/tmp/build')] raises
    [IndexError] at the build option, and no process is spawned. *)
Theorem install_build_raises_IndexError :
  let r := install Minion.stock
             (Minion.install_call (PyStr "foo") "" "" "" PyNone PyNone
                "/tmp/build" "") Minion.machine in
  fst r = Raise (IndexError "tuple index out of range")
  /\ spawned (snd r) = 0.
Proof. vm_compute. split; reflexivity. Qed.

(** ** [list_]: parsing the lines *)

Section Parsing.

Lemma startswith_plain (n v : string) :
  has_char "="%char n = false ->
  PyStr.startswith (n +:+ "==" +:+ v) "-e" = PyStr.startswith n "-e".
Proof.
  unfold PyStr.startswith. intros Hn.
  destruct n as [|c1 [|c2 n]]; cbn [String.append];
    rewrite ?PyStrFacts.prefix_cons.
  - reflexivity.
  - destruct (ascii_dec "-" c1); reflexivity.
  - destruct (ascii_dec "-" c1); [|reflexivity].
    destruct (ascii_dec "e" c2); [|reflexivity].
    now rewrite !PyStrFacts.prefix_nil_l.
Qed.

Lemma list_assign_well_formed (e : freeze_entry) (st : list_locals) :
  well_formed e = true ->
  list_assign (render e) st = inr (Some (entry_name e), Some (entry_value e)).
Proof.
  destruct e as [n v|o n]; cbn [well_formed render entry_name entry_value];
    intros H; apply andb_prop in H as [H H3]; apply andb_prop in H as [H1 H2];
    apply negb_true_iff in H1, H2, H3; unfold list_assign.
  - rewrite startswith_plain, H2 by assumption.
    now rewrite (PyStrFacts.split_once "=" "=" n v).
  - change (PyStr.startswith ("-e " +:+ o +:+ "#egg=" +:+ n) "-e") with true.
    cbn iota.
    assert (Hs := PyStrFacts.split_once "-" "e " "" (o +:+ "#egg=" +:+ n) eq_refl H3).
    change ("" +:+ "-e " +:+ o +:+ "#egg=" +:+ n)
      with ("-e " +:+ o +:+ "#egg=" +:+ n) in Hs.
    rewrite Hs. cbn [nth_error].
    now rewrite (PyStrFacts.split_once "#" "egg=" o n).
Qed.

Lemma list_line_well_formed (e : freeze_entry) (st : list_locals) :
  well_formed e = true ->
  list_line "" st (render e)
  = inr (mkLocals (Some (entry_name e)) (Some (entry_value e))
           (recorded (packages st) e)).
Proof.
  intros H. unfold list_line. now rewrite (list_assign_well_formed e st H).
Qed.

Lemma list_loop_well_formed (entries : list freeze_entry) (st : list_locals) :
  forallb well_formed entries = true ->
  exists st',
    list_loop "" st (map render entries) = inr st'
    /\ packages st' = fold_left recorded entries (packages st).
Proof.
  revert st. induction entries as [|e entries IH]; intros st H.
  - exists st. split; reflexivity.
  - cbn [forallb] in H. apply andb_prop in H as [He Hes].
    cbn [map list_loop fold_left].
    rewrite (list_line_well_formed e st He). cbn [ebind].
    destruct (IH (mkLocals (Some (entry_name e)) (Some (entry_value e))
                    (recorded (packages st) e)) Hes) as (st' & Hloop & Hpk).
    exists st'. split; [exact Hloop|exact Hpk].
Qed.

Lemma list_loop_app (prefix : string) (st : list_locals) (l1 l2 : list string) :
  list_loop prefix st (l1 ++ l2)
  = ebind (list_loop prefix st l1) (fun st' => list_loop prefix st' l2).
Proof.
  revert st. induction l1 as [|l l1 IH]; intros st; cbn; [reflexivity|].
  destruct (list_line prefix st l); cbn; [reflexivity|apply IH].
Qed.

Lemma list_assign_unparsed (line : string) (st : list_locals) :
  unparsed line -> list_assign line st = inr (name st, version st).
Proof.
  intros [He Hs]. unfold list_assign. rewrite He.
  now rewrite (PyStrFacts.split_uncut _ _ Hs).
Qed.

Lemma list_assign_paired (line : string) (st : list_locals)
    (n v : option string) :
  paired st -> list_assign line st = inr (n, v) ->
  (n = None /\ v = None) \/ (exists n' v', n = Some n' /\ v = Some v').
Proof.
  intros Hp. unfold list_assign.
  destruct (PyStr.startswith line "-e").
  - destruct (nth_error _ 1); [|discriminate].
    destruct (PyStr.split "#egg=" s) as [|a [|b [|c l]]]; try discriminate.
    intros [= <- <-]. right. eauto.
  - destruct (PyStr.split "==" line) as [|a [|b l]].
    + intros [= <- <-]. exact Hp.
    + intros [= <- <-]. exact Hp.
    + intros [= <- <-]. right. eauto.
Qed.

(** After a turn that did not raise, both variables are bound and the
    mapping holds them if the name passed the filter. *)
Lemma list_line_settled (prefix line : string) (st st' : list_locals) :
  paired st -> list_line prefix st line = inr st' -> settled prefix st'.
Proof.
  intros Hp. unfold list_line.
  destruct (list_assign line st) as [e|[n v]] eqn:Ha; [discriminate|].
  destruct (list_assign_paired _ _ _ _ Hp Ha) as [[-> ->]|(n' & v' & -> & ->)];
    cbn [ebind].
  - destruct (truthy prefix); discriminate.
  - destruct (truthy prefix) eqn:Hpre.
    + destruct (PyStr.startswith (PyStr.lower n') (PyStr.lower prefix)) eqn:Hm;
        cbn; intros [= <-]; exists n', v'; cbn; repeat split.
      * intros _. apply lookup_insert_eq.
      * intros [H|H]; congruence.
    + cbn. intros [= <-]. exists n', v'. cbn. repeat split.
      intros _. apply lookup_insert_eq.
Qed.

Lemma settled_paired (prefix : string) (st : list_locals) :
  settled prefix st -> paired st.
Proof. intros (n & v & Hn & Hv & _). right. eauto. Qed.

Lemma list_loop_settled (prefix : string) (lines : list string)
    (st st' : list_locals) :
  paired st -> lines <> [] ->
  list_loop prefix st lines = inr st' -> settled prefix st'.
Proof.
  revert st. induction lines as [|l lines IH]; intros st Hp Hne; [easy|].
  cbn. destruct (list_line prefix st l) as [e|st1] eqn:Hl; [discriminate|].
  cbn. pose proof (list_line_settled _ _ _ _ Hp Hl) as Hs.
  destruct lines as [|l' lines'].
  - cbn. now intros [= <-].
  - apply IH; [eapply settled_paired; eassumption|discriminate].
Qed.

(** A line that cannot be parsed records the bound pair once more and
    leaves every variable as it was. *)
Lemma list_line_unparsed (prefix line : string) (st : list_locals) :
  settled prefix st -> unparsed line -> list_line prefix st line = inr st.
Proof.
  intros (n & v & Hn & Hv & Hpk) Hu. unfold list_line.
  rewrite (list_assign_unparsed _ _ Hu), Hn, Hv. cbn [ebind].
  destruct st as [sn sv sp]. cbn in Hn, Hv, Hpk |- *. subst sn sv.
  destruct (truthy prefix).
  - destruct (PyStr.startswith (PyStr.lower n) (PyStr.lower prefix)).
    + cbn. now rewrite insert_id by auto.
    + reflexivity.
  - cbn. now rewrite insert_id by auto.
Qed.

Lemma list_loop_unparsed_first (prefix bad : string) (rest : list string) :
  unparsed bad ->
  exists e, list_loop prefix no_locals (bad :: rest) = inl e
            /\ is_NameError e = true.
Proof.
  intros Hu. cbn [list_loop]. unfold list_line.
  rewrite (list_assign_unparsed _ _ Hu). cbn.
  destruct (truthy prefix); cbn; eexists; split; reflexivity.
Qed.

Lemma list_loop_unparsed_later (prefix bad : string) (pre post : list string) :
  pre <> [] -> unparsed bad ->
  list_loop prefix no_locals (pre ++ bad :: post)
  = list_loop prefix no_locals (pre ++ post).
Proof.
  intros Hne Hu. rewrite !list_loop_app.
  destruct (list_loop prefix no_locals pre) as [e|st] eqn:Hpre; [reflexivity|].
  cbn [ebind list_loop].
  assert (Hs : settled prefix st).
  { eapply list_loop_settled; [|exact Hne|exact Hpre]. left. split; reflexivity. }
  now rewrite (list_line_unparsed _ _ _ Hs Hu).
Qed.

Lemma list_assign_editable (line rem : string) (st : list_locals) :
  PyStr.startswith line "-e" = true ->
  nth_error (PyStr.split "-e " line) 1 = Some rem ->
  PyStr.count "#egg=" rem <> 1 ->
  exists msg, list_assign line st = inl (ValueError msg).
Proof.
  intros He Hrem Hcount. unfold list_assign. rewrite He, Hrem.
  pose proof (PyStrFacts.length_split "#egg=" rem) as Hlen.
  destruct (PyStr.split "#egg=" rem) as [|a [|b [|c l]]]; cbn in Hlen;
    try (eexists; reflexivity).
  exfalso. apply Hcount. lia.
Qed.

Lemma list_loop_editable (prefix line rem : string) (pre post : list string)
    (st : list_locals) :
  list_loop prefix no_locals pre = inr st ->
  PyStr.startswith line "-e" = true ->
  nth_error (PyStr.split "-e " line) 1 = Some rem ->
  PyStr.count "#egg=" rem <> 1 ->
  exists msg,
    list_loop prefix no_locals (pre ++ line :: post) = inl (ValueError msg).
Proof.
  intros Hpre He Hrem Hcount.
  destruct (list_assign_editable line rem st He Hrem Hcount) as [msg Hmsg].
  exists msg. rewrite list_loop_app, Hpre. cbn [ebind list_loop].
  unfold list_line. now rewrite Hmsg.
Qed.

End Parsing.

Section ParsedOutput.

Variable salt : collaborators.

Lemma list_after_clean_run (prefix bin_env runas cwd : string) (w : world)
    (r : CommandResult) :
  freeze_ran salt bin_env runas cwd w r ->
  (retcode r <= 0)%Z ->
  fst (list_ salt prefix bin_env runas cwd w)
  = loop_outcome (list_loop prefix no_locals (PyStr.splitlines (stdout r))).
Proof.
  intros Hran Hret. rewrite (list_after_run salt prefix _ _ _ _ _ Hran).
  destruct (0 <? retcode r)%Z eqn:E; [|reflexivity].
  apply Z.ltb_lt in E. lia.
Qed.

(** C6. When the freeze output is a sequence of well-formed lines, [list_]
    without a prefix returns the mapping that records, line after line,
    [name -> version] for a plain line [name==version] and [name -> origin]
    for an editable line [-e origin#egg=name]. *)
Theorem list_parses_well_formed_output (bin_env runas cwd : string) (w : world)
    (r : CommandResult) (entries : list freeze_entry) :
  freeze_ran salt bin_env runas cwd w r ->
  (retcode r <= 0)%Z ->
  PyStr.splitlines (stdout r) = map render entries ->
  forallb well_formed entries = true ->
  fst (list_ salt "" bin_env runas cwd w) = Return (fold_left recorded entries ∅).
Proof.
  intros Hran Hret Hlines Hwf.
  rewrite (list_after_clean_run "" _ _ _ _ _ Hran Hret), Hlines.
  destruct (list_loop_well_formed entries no_locals Hwf) as (st' & -> & Hpk).
  cbn [loop_outcome]. now rewrite Hpk.
Qed.

(** C10. After a clean run of [<pip> freeze]: a line that is not editable
    and holds no [==] makes [list_] raise a [NameError] when it is the
    first line; after at least one other line it changes nothing, the
    outcome is that of the output without it; and an editable line whose
    remainder does not hold exactly one [#egg=] makes [list_] raise a
    [ValueError] when the lines before it were read without an error. *)
Theorem list_unparsed_lines (prefix bin_env runas cwd : string) (w : world)
    (r : CommandResult) :
  freeze_ran salt bin_env runas cwd w r ->
  (retcode r <= 0)%Z ->
  (forall bad rest,
      PyStr.splitlines (stdout r) = bad :: rest -> unparsed bad ->
      exists e, fst (list_ salt prefix bin_env runas cwd w) = Raise e
                /\ is_NameError e = true)
  /\ (forall pre bad post,
         PyStr.splitlines (stdout r) = pre ++ bad :: post ->
         pre <> [] -> unparsed bad ->
         fst (list_ salt prefix bin_env runas cwd w)
         = loop_outcome (list_loop prefix no_locals (pre ++ post)))
  /\ (forall pre line rem post st,
         PyStr.splitlines (stdout r) = pre ++ line :: post ->
         list_loop prefix no_locals pre = inr st ->
         PyStr.startswith line "-e" = true ->
         nth_error (PyStr.split "-e " line) 1 = Some rem ->
         PyStr.count "#egg=" rem <> 1 ->
         exists msg,
           fst (list_ salt prefix bin_env runas cwd w) = Raise (ValueError msg)).
Proof.
  intros Hran Hret.
  rewrite (list_after_clean_run prefix _ _ _ _ _ Hran Hret).
  split; [|split].
  - intros bad rest -> Hu.
    destruct (list_loop_unparsed_first prefix bad rest Hu) as (e & -> & He).
    exists e. split; [reflexivity|exact He].
  - intros pre bad post -> Hne Hu.
    now rewrite (list_loop_unparsed_later prefix bad pre post Hne Hu).
  - intros pre line rem post st -> Hpre He Hrem Hcount.
    destruct (list_loop_editable prefix line rem pre post st Hpre He Hrem Hcount)
      as (msg & ->).
    exists msg. reflexivity.
Qed.

End ParsedOutput.

Lemma list_parses_well_formed_output_witness :
  fst (list_ (Minion.exits Minion.two_packages) "" "" "" "" Minion.machine)
  = Return (<["foo" := "git+https://x"]> (<["django" := "1.5"]> ∅)).
Proof.
  apply (list_parses_well_formed_output (Minion.exits Minion.two_packages)
           "" "" "" Minion.machine Minion.two_packages
           [Plain "django" "1.5"; Editable "git+https://x" "foo"]).
  - ran_on_path.
  - discriminate.
  - reflexivity.
  - reflexivity.
Defined.

Lemma list_unparsed_lines_witness :
  (exists e,
      fst (list_ (Minion.exits Minion.comment_first) "" "" "" "" Minion.machine)
      = Raise e /\ is_NameError e = true)
  /\ fst (list_ (Minion.exits Minion.comment_later) "" "" "" "" Minion.machine)
     = Return (<["django" := "1.5"]> ∅)
  /\ (exists msg,
         fst (list_ (Minion.exits Minion.editable_without_egg) "" "" "" ""
                Minion.machine)
         = Raise (ValueError msg)).
Proof.
  split; [|split].
  - apply (proj1 (list_unparsed_lines (Minion.exits Minion.comment_first)
                    "" "" "" "" Minion.machine Minion.comment_first
                    ltac:(ran_on_path) ltac:(discriminate))
             "## FIXME: could not find svn URL" ["django==1.5"]).
    + reflexivity.
    + split; reflexivity.
  - apply (proj1 (proj2 (list_unparsed_lines (Minion.exits Minion.comment_later)
                    "" "" "" "" Minion.machine Minion.comment_later
                    ltac:(ran_on_path) ltac:(discriminate)))
             ["django==1.5"] "## FIXME: could not find svn URL" []).
    + reflexivity.
    + discriminate.
    + split; reflexivity.
  - apply (proj2 (proj2 (list_unparsed_lines
                    (Minion.exits Minion.editable_without_egg)
                    "" "" "" "" Minion.machine Minion.editable_without_egg
                    ltac:(ran_on_path) ltac:(discriminate)))
             ["django==1.5"] "-e git+https://x" "git+https://x" []
             (mkLocals (Some "django") (Some "1.5") (<["django" := "1.5"]> ∅))).
    + reflexivity.
    + reflexivity.
    + reflexivity.
    + reflexivity.
    + vm_compute. discriminate.
Defined.

(** ** The package list *)

Section Packages.

Lemma truthy_app_cons (a b : string) (c : ascii) : truthy (a +:+ String c b) = true.
Proof. now destruct a. Qed.

Lemma truthy_subst (c1 c2 : ascii) (s : string) :
  truthy (subst_char c1 c2 s) = truthy s.
Proof. now destruct s. Qed.

Lemma add_pkgs_round_trip (ps cmd : list string) :
  forallb pkg_ok ps = true ->
  add_pkgs (PyStr (comma_joined ps)) cmd = cmd ++ ps.
Proof.
  intros Hok. unfold comma_joined.
  rewrite (map_ext _ _ (PyStrFacts.replace_char "," ";")).
  set (qs := map (subst_char "," ";") ps).
  assert (Hback : map (PyStr.replace ";" ",") qs = ps).
  { rewrite (map_ext _ _ (PyStrFacts.replace_char ";" ",")).
    unfold qs. clear qs. induction ps as [|p ps IH]; [reflexivity|].
    cbn [forallb] in Hok. apply andb_prop in Hok as [Hp Hps].
    cbn [map]. rewrite (IH Hps). f_equal.
    unfold pkg_ok in Hp. apply andb_prop in Hp as [Hp _].
    apply andb_prop in Hp as [_ Hp]. apply negb_true_iff in Hp.
    now apply PyStrFacts.subst_char_inverse. }
  assert (Hstrip : map PyStr.strip qs = qs).
  { unfold qs. clear qs Hback. induction ps as [|p ps IH]; [reflexivity|].
    cbn [forallb] in Hok. apply andb_prop in Hok as [Hp Hps].
    cbn [map]. rewrite (IH Hps). f_equal.
    unfold pkg_ok in Hp. apply andb_prop in Hp as [_ Hp].
    apply String.eqb_eq in Hp.
    rewrite PyStrFacts.strip_subst by reflexivity. now rewrite Hp. }
  assert (Hcomma : forallb (fun q => negb (has_char "," q)) qs = true).
  { unfold qs. clear. induction ps as [|p ps IH]; [reflexivity|].
    cbn [map forallb]. rewrite IH, PyStrFacts.has_char_subst; [reflexivity|].
    discriminate. }
  unfold add_pkgs, truthy_arg, as_list.
  destruct ps as [|p1 [|p2 ps]].
  - cbn. now rewrite List.app_nil_r.
  - cbn [map PyStr.join qs] in *.
    cbn [forallb] in Hok, Hcomma.
    apply andb_prop in Hok as [Hp _]. unfold pkg_ok in Hp.
    apply andb_prop in Hp as [Hp _]. apply andb_prop in Hp as [Hp _].
    rewrite truthy_subst, Hp.
    apply andb_prop in Hcomma as [Hc _]. apply negb_true_iff in Hc.
    rewrite (PyStrFacts.contains_char_absent _ _ Hc). exact (f_equal _ Hback).
  - assert (Hne : qs <> []) by discriminate.
    assert (Hj : exists a b, PyStr.join "," qs = a +:+ String "," b
                             /\ has_char "," a = false).
    { unfold qs in *. cbn [map] in *. rewrite PyStrFacts.join_cons by discriminate.
      cbn [forallb] in Hcomma. apply andb_prop in Hcomma as [Hc _].
      apply negb_true_iff in Hc. eauto. }
    destruct Hj as (a & b & Hj & Ha).
    assert (Ht : truthy (PyStr.join "," qs) = true).
    { rewrite Hj. apply truthy_app_cons. }
    assert (Hc : PyStr.contains "," (PyStr.join "," qs) = true).
    { rewrite Hj. unfold PyStr.contains.
      pose proof (PyStrFacts.partition_first "," "" a b Ha) as Hp.
      change (a +:+ "," +:+ b) with (a +:+ String "," b) in Hp.
      now rewrite Hp. }
    rewrite Ht, Hc, (PyStrFacts.split_join "," qs Hne Hcomma), Hstrip, Hback.
    reflexivity.
Qed.

Lemma written_packages_ok (xs : list written) :
  forallb written_ok xs = true -> forallb pkg_ok (map pkg xs) = true.
Proof.
  induction xs as [|x xs IH]; [reflexivity|].
  cbn [forallb map]. intros H. apply andb_prop in H as [Hx Hxs].
  rewrite (IH Hxs), andb_true_r.
  unfold written_ok in Hx. apply andb_prop in Hx as [Hx _].
  now apply andb_prop in Hx as [Hx _].
Qed.

(** Without blanks around the pieces the string is the plain join. *)
Lemma written_unpadded (xs : list written) :
  forallb unpadded xs = true -> written_joined xs = comma_joined (map pkg xs).
Proof.
  intros H. unfold written_joined, comma_joined. rewrite List.map_map. f_equal.
  induction xs as [|x xs IH]; [reflexivity|].
  cbn [forallb map] in *. apply andb_prop in H as [Hx Hxs].
  rewrite (IH Hxs). f_equal.
  unfold unpadded in Hx. apply andb_prop in Hx as [Hl Ht].
  unfold spelled. destruct (lead x); [|discriminate].
  destruct (trail x); [|discriminate].
  cbn [String.append]. apply PyStrFacts.app_nil_r.
Qed.

(** A piece is stripped to the package with its commas as semicolons, and
    holds no comma. *)
Lemma strip_spelled (x : written) :
  written_ok x = true ->
  PyStr.strip (spelled x) = subst_char "," ";" (pkg x)
  /\ has_char "," (spelled x) = false.
Proof.
  unfold written_ok, pkg_ok, spelled. intros H.
  apply andb_prop in H as [H Ht]. apply andb_prop in H as [H Hl].
  apply andb_prop in H as [_ Hs]. apply String.eqb_eq in Hs.
  rewrite PyStrFacts.replace_char. split.
  - apply PyStrFacts.strip_padded; [exact Hl|exact Ht|].
    rewrite PyStrFacts.strip_subst by reflexivity. now rewrite Hs.
  - rewrite !PyStrFacts.has_char_app.
    rewrite (PyStrFacts.all_space_has_char "," _ eq_refl Hl).
    rewrite (PyStrFacts.all_space_has_char "," _ eq_refl Ht).
    rewrite PyStrFacts.has_char_subst; [reflexivity|discriminate].
Qed.

(** The round trip with blanks around the pieces: a string of two or more
    pieces is split and each piece stripped; a string of fewer is taken
    whole, so it must carry no blanks. *)
Lemma add_pkgs_written (xs : list written) (cmd : list string) :
  forallb written_ok xs = true ->
  (length xs < 2 -> forallb unpadded xs = true) ->
  add_pkgs (PyStr (written_joined xs)) cmd = cmd ++ map pkg xs.
Proof.
  intros Hok Hpad.
  pose proof (written_packages_ok xs Hok) as Hps.
  destruct (le_lt_dec 2 (length xs)) as [Hlen|Hlen].
  2: { rewrite (written_unpadded xs (Hpad Hlen)). now apply add_pkgs_round_trip. }
  unfold written_joined. set (qs := map spelled xs).
  assert (Hstrip : map PyStr.strip qs = map (subst_char "," ";") (map pkg xs)).
  { unfold qs. clear qs Hpad Hlen Hps.
    induction xs as [|x xs IH]; [reflexivity|].
    cbn [forallb] in Hok. apply andb_prop in Hok as [Hx Hxs].
    cbn [map]. rewrite (IH Hxs). f_equal. apply (strip_spelled x Hx). }
  assert (Hback : map (PyStr.replace ";" ",") (map (subst_char "," ";") (map pkg xs))
                  = map pkg xs).
  { rewrite (map_ext _ _ (PyStrFacts.replace_char ";" ",")).
    clear Hstrip. induction (map pkg xs) as [|p ps IH]; [reflexivity|].
    cbn [forallb] in Hps. apply andb_prop in Hps as [Hp Hps].
    cbn [map]. rewrite (IH Hps). f_equal.
    unfold pkg_ok in Hp. apply andb_prop in Hp as [Hp _].
    apply andb_prop in Hp as [_ Hp]. apply negb_true_iff in Hp.
    now apply PyStrFacts.subst_char_inverse. }
  assert (Hcomma : forallb (fun q => negb (has_char "," q)) qs = true).
  { unfold qs. clear qs Hpad Hlen Hps Hstrip Hback.
    induction xs as [|x xs IH]; [reflexivity|].
    cbn [forallb] in Hok. apply andb_prop in Hok as [Hx Hxs].
    cbn [map forallb]. rewrite (IH Hxs), (proj2 (strip_spelled x Hx)). reflexivity. }
  destruct xs as [|x1 [|x2 xs]]; [cbn [length] in Hlen; lia..|].
  assert (Hne : qs <> []) by discriminate.
  assert (Hj : exists a b, PyStr.join "," qs = a +:+ String "," b
                           /\ has_char "," a = false).
  { unfold qs in *. cbn [map] in *. rewrite PyStrFacts.join_cons by discriminate.
    cbn [forallb] in Hcomma. apply andb_prop in Hcomma as [Hc _].
    apply negb_true_iff in Hc. eauto. }
  destruct Hj as (a & b & Hj & Ha).
  assert (Ht : truthy (PyStr.join "," qs) = true).
  { rewrite Hj. apply truthy_app_cons. }
  assert (Hc : PyStr.contains "," (PyStr.join "," qs) = true).
  { rewrite Hj. unfold PyStr.contains.
    pose proof (PyStrFacts.partition_first "," "" a b Ha) as Hp.
    change (a +:+ "," +:+ b) with (a +:+ String "," b) in Hp.
    now rewrite Hp. }
  unfold add_pkgs, truthy_arg, as_list.
  rewrite Ht, Hc, (PyStrFacts.split_join "," qs Hne Hcomma), Hstrip, Hback.
  reflexivity.
Qed.

(** With a comma in the string the normalization is the one the
    specification words. *)
Lemma add_pkgs_with_comma (s : string) :
  PyStr.contains "," s = true -> add_pkgs (PyStr s) [] = split_strip_restore s.
Proof.
  intros Hc. unfold add_pkgs, truthy_arg, as_list, split_strip_restore.
  rewrite Hc. destruct s; [discriminate|reflexivity].
Qed.

End Packages.

(** ** The shape of the command *)

Section Shape.

Variable salt : collaborators.

Lemma ebind_inr {A B} (r : exn + A) (k : A -> exn + B) (b : B) :
  ebind r k = inr b -> exists a, r = inr a /\ k a = inr b.
Proof. destruct r as [e|a]; [discriminate|]. intros H. eauto. Qed.

Lemma extends_ebind (f : list string -> exn + list string)
    (g : list string -> exn + list string) :
  extends f -> extends g -> extends (fun cmd => ebind (f cmd) g).
Proof.
  intros Hf Hg cmd cmd' H.
  apply ebind_inr in H as (cmd1 & H1 & H2).
  apply Hf in H1 as [e1 ->]. apply Hg in H2 as [e2 ->].
  exists (e1 ++ e2). now rewrite List.app_assoc.
Qed.

Ltac extends_cases :=
  intros cmd cmd' H;
  repeat match type of H with
         | context [if ?b then _ else _] => destruct b
         | context [match ?x with _ => _ end] => destruct x
         end;
  try discriminate;
  injection H as <-;
  solve [ eexists; reflexivity | exists []; now rewrite List.app_nil_r ].

Lemma add_log_extends (v : string) : extends (add_log v).
Proof. unfold add_log. extends_cases. Qed.

Lemma add_proxy_extends (v : string) : extends (add_proxy v).
Proof. unfold add_proxy. extends_cases. Qed.

Lemma add_timeout_extends (v : string) : extends (add_timeout v).
Proof. unfold add_timeout. extends_cases. Qed.

Lemma add_find_links_extends (v : string) : extends (add_find_links salt v).
Proof. unfold add_find_links. extends_cases. Qed.

Lemma check_no_index_extends (a : InstallArgs.t) : extends (check_no_index a).
Proof. unfold check_no_index. extends_cases. Qed.

Lemma add_index_url_extends (v : string) : extends (add_index_url salt v).
Proof. unfold add_index_url. extends_cases. Qed.

Lemma add_extra_index_url_extends (v : string) :
  extends (add_extra_index_url salt v).
Proof. unfold add_extra_index_url. extends_cases. Qed.

Lemma add_flag_extends (b : bool) (flag : string) : extends (add_flag b flag).
Proof. unfold add_flag. extends_cases. Qed.

Lemma add_build_extends (v : string) : extends (add_build v).
Proof. unfold add_build, PyStr.format0. extends_cases. Qed.

Lemma add_value_extends (pre v : string) : extends (add_value pre v).
Proof. unfold add_value, PyStr.format0. extends_cases. Qed.

Lemma add_install_options_extends (o : str_or_list) :
  extends (add_install_options o).
Proof. unfold add_install_options. extends_cases. Qed.

Lemma mirrors_loop_extends (mirrors : list string) : extends (mirrors_loop mirrors).
Proof.
  induction mirrors as [|m mirrors IH]; intros cmd cmd' H; cbn in H.
  - injection H as <-. exists []. now rewrite List.app_nil_r.
  - destruct (negb (PyStr.startswith m "http://")); [discriminate|].
    apply IH in H as [extra ->]. eexists. now rewrite <- List.app_assoc.
Qed.

Lemma add_mirrors_extends (m : str_or_list) : extends (add_mirrors m).
Proof.
  intros cmd cmd' H. unfold add_mirrors in H.
  destruct (truthy_arg m).
  - apply mirrors_loop_extends in H as [extra ->].
    eexists. now rewrite <- List.app_assoc.
  - injection H as <-. exists []. now rewrite List.app_nil_r.
Qed.

Lemma editable_loop_extends (entries : list string) :
  extends (editable_loop entries).
Proof.
  induction entries as [|e entries IH]; intros cmd cmd' H; cbn in H.
  - injection H as <-. exists []. now rewrite List.app_nil_r.
  - match type of H with (if ?b then _ else _) = _ => destruct b end;
      [discriminate|].
    apply IH in H as [extra ->]. eexists. now rewrite <- List.app_assoc.
Qed.

Lemma add_editable_extends (e : str_or_list) : extends (add_editable e).
Proof.
  intros cmd cmd' H. unfold add_editable in H.
  destruct (truthy_arg e).
  - now apply editable_loop_extends in H.
  - injection H as <-. exists []. now rewrite List.app_nil_r.
Qed.

Create HintDb extends.
Hint Resolve add_log_extends add_proxy_extends add_timeout_extends
  add_find_links_extends check_no_index_extends add_index_url_extends
  add_extra_index_url_extends add_flag_extends add_build_extends
  add_value_extends add_install_options_extends add_mirrors_extends
  add_editable_extends : extends.

Lemma add_options_extends (a : InstallArgs.t) : extends (add_options salt a).
Proof.
  unfold add_options, add_options_to_mirrors, add_dirs, add_modifiers.
  repeat (apply extends_ebind; [auto with extends|]); auto with extends.
Qed.

Ltac split_cases H :=
  repeat match type of H with
         | context [if ?b then _ else _] => destruct b eqn:?
         | context [match ?x with _ => _ end] => destruct x eqn:?
         end.

Lemma add_requirements_extends (a : InstallArgs.t) (cmd cmd' : list string)
    (treq : option string) (w w' : world) :
  add_requirements salt a cmd w = (Next (cmd', treq), w') ->
  exists extra, cmd' = cmd ++ extra.
Proof.
  unfold add_requirements, bind, call, ret, return_, raise, mkstemp, copyfile, chown.
  intros H. split_cases H; try discriminate; injection H as <- _ _;
    solve [ eexists; reflexivity | exists []; now rewrite List.app_nil_r ].
Qed.

(** The command [install_front] hands on opens with the binary and
    [install], after the activation prefix if there is one; the packages
    and the editables follow. *)
Lemma install_front_shape (a : InstallArgs.t) (cmd : list string) (w w' : world) :
  install_front salt a w = (Next cmd, w') ->
  exists pre pip_bin,
    (pre = [] \/ exists activate_bin, pre = ["."; activate_bin; "&&"])
    /\ add_editable (InstallArgs.editable a)
         (add_pkgs (InstallArgs.pkgs a) (pre ++ [pip_bin; "install"])) = inr cmd.
Proof.
  unfold install_front, bind, call, ret, lift, raise.
  intros H.
  destruct (_get_pip_bin salt (effective_bin_env a) w) as [[p|p|e] w1];
    try discriminate.
  - destruct (InstallArgs.activate a && truthy (effective_bin_env a));
      [destruct (negb (is_windows salt))|].
    + destruct (_get_env_activate salt (effective_bin_env a) w1) as [[act|act|e] w2];
        try discriminate;
        (destruct (add_editable _ _) eqn:E in H; [discriminate|]);
        injection H as <- _; exists ["."; act; "&&"], p; split; eauto.
    + destruct (add_editable _ _) eqn:E in H; [discriminate|].
      injection H as <- _. exists [], p. split; [now left|exact E].
    + destruct (add_editable _ _) eqn:E in H; [discriminate|].
      injection H as <- _. exists [], p. split; [now left|exact E].
  - destruct (InstallArgs.activate a && truthy (effective_bin_env a));
      [destruct (negb (is_windows salt))|].
    + destruct (_get_env_activate salt (effective_bin_env a) w1) as [[act|act|e] w2];
        try discriminate;
        (destruct (add_editable _ _) eqn:E in H; [discriminate|]);
        injection H as <- _; exists ["."; act; "&&"], p; split; eauto.
    + destruct (add_editable _ _) eqn:E in H; [discriminate|].
      injection H as <- _. exists [], p. split; [now left|exact E].
    + destruct (add_editable _ _) eqn:E in H; [discriminate|].
      injection H as <- _. exists [], p. split; [now left|exact E].
Qed.

Lemma install_cmd_shape (a : InstallArgs.t) (cmd : list string)
    (treq : option string) (w w' : world) :
  install_cmd salt a w = (Next (cmd, treq), w') ->
  exists pre pip_bin rest,
    (pre = [] \/ exists activate_bin, pre = ["."; activate_bin; "&&"])
    /\ cmd = add_pkgs (InstallArgs.pkgs a) (pre ++ [pip_bin; "install"]) ++ rest.
Proof.
  unfold install_cmd, bind, ret, lift, raise. intros H.
  destruct (install_front salt a w) as [[cmd0|r|e] w0] eqn:Hfront; try discriminate.
  destruct (add_requirements salt a cmd0 w0) as [[[cmd1 t]|r|e] w1] eqn:Hreq;
    try discriminate.
  destruct (add_options salt a cmd1) as [e|cmd2] eqn:Hopt; [discriminate|].
  injection H as <- _ _.
  apply install_front_shape in Hfront as (pre & pip_bin & Hpre & Hed).
  apply add_editable_extends in Hed as [e1 ->].
  apply add_requirements_extends in Hreq as [e2 ->].
  apply add_options_extends in Hopt as [e3 ->].
  exists pre, pip_bin, (e1 ++ e2 ++ e3). split; [exact Hpre|].
  now rewrite <- !List.app_assoc.
Qed.

(** What [install] does once the command is built: one run of the joined
    tokens, recorded after everything the builder did. *)
Lemma install_runs_command (a : InstallArgs.t) (cmd : list string)
    (treq : option string) (w w' : world) :
  install_cmd salt a w = (Next (cmd, treq), w') ->
  trace (snd (install salt a w))
  = trace w' ++ [EvRunAll (PyStr.join " " cmd) (InstallArgs.runas a)
                   (InstallArgs.cwd a)].
Proof.
  intros H. unfold install, bind. rewrite H.
  unfold try_finally, bind, run_all, return_.
  destruct (cmd_run_all salt _ _ _ w'); destruct treq; reflexivity.
Qed.

(** C9, as amended. A joined string of two or more packages, each with
    any blanks around it and its own commas written as semicolons, is
    split on the commas, stripped piece by piece and the semicolons turned
    back; a string of one package stands for it when it carries no blanks.
    The normalization of [install] then gives the intended list back, in
    every command [install] builds the packages stand in their order right
    after the [install] token, and that command is the one it runs. *)
Theorem install_packages_round_trip (a : InstallArgs.t) (xs : list written)
    (cmd : list string) (treq : option string) (w w' : world) :
  forallb written_ok xs = true ->
  (length xs < 2 -> forallb unpadded xs = true) ->
  InstallArgs.pkgs a = PyStr (written_joined xs) ->
  install_cmd salt a w = (Next (cmd, treq), w') ->
  add_pkgs (PyStr (written_joined xs)) [] = map pkg xs
  /\ (2 <= length xs ->
      split_strip_restore (written_joined xs) = map pkg xs)
  /\ (exists pre pip_bin rest,
         (pre = [] \/ exists activate_bin, pre = ["."; activate_bin; "&&"])
         /\ cmd = pre ++ [pip_bin; "install"] ++ map pkg xs ++ rest)
  /\ trace (snd (install salt a w))
     = trace w' ++ [EvRunAll (PyStr.join " " cmd) (InstallArgs.runas a)
                      (InstallArgs.cwd a)].
Proof.
  intros Hok Hpad Hpkgs Hcmd. split; [|split; [|split]].
  - now rewrite (add_pkgs_written xs [] Hok Hpad).
  - intros Hlen.
    transitivity (add_pkgs (PyStr (written_joined xs)) []);
      [|now rewrite (add_pkgs_written xs [] Hok Hpad)].
    symmetry. apply add_pkgs_with_comma.
    destruct xs as [|x1 [|x2 xs]]; [cbn [length] in Hlen; lia..|].
    destruct (PyStr.contains "," (written_joined (x1 :: x2 :: xs))) eqn:Hc;
      [reflexivity|].
    pose proof (add_pkgs_written (x1 :: x2 :: xs) [] Hok Hpad) as Hrt.
    unfold add_pkgs, truthy_arg, as_list in Hrt. rewrite Hc in Hrt.
    destruct (truthy (written_joined (x1 :: x2 :: xs))); discriminate Hrt.
  - destruct (install_cmd_shape a cmd treq w w' Hcmd)
      as (pre & pip_bin & rest & Hpre & ->).
    exists pre, pip_bin, rest. split; [exact Hpre|].
    rewrite Hpkgs, (add_pkgs_written xs _ Hok Hpad).
    now rewrite <- !List.app_assoc.
  - exact (install_runs_command a cmd treq w w' Hcmd).
Qed.

End Shape.

Lemma install_packages_round_trip_witness :
  add_pkgs (PyStr " django>=1.4;<1.5 , markdown ") []
  = ["django>=1.4,<1.5"; "markdown"]
  /\ (2 <= 2 ->
      split_strip_restore " django>=1.4;<1.5 , markdown "
      = ["django>=1.4,<1.5"; "markdown"])
  /\ (exists pre pip_bin rest,
         (pre = [] \/ exists activate_bin, pre = ["."; activate_bin; "&&"])
         /\ ["/usr/bin/pip"; "install"; "django>=1.4,<1.5"; "markdown"; "--timeout=30"]
            = pre ++ [pip_bin; "install"] ++ ["django>=1.4,<1.5"; "markdown"] ++ rest)
  /\ trace (snd (install Minion.stock
                   (Minion.install_call (PyStr " django>=1.4;<1.5 , markdown ")
                      "" "" "30" PyNone PyNone "" "") Minion.machine))
     = trace (log_event (EvWhichBin ["pip2"; "pip"; "pip-python"]) Minion.machine)
       ++ [EvRunAll "/usr/bin/pip install django>=1.4,<1.5 markdown --timeout=30"
             "" ""].
Proof.
  apply (install_packages_round_trip Minion.stock
           (Minion.install_call (PyStr " django>=1.4;<1.5 , markdown ")
              "" "" "30" PyNone PyNone "" "")
           [mkWritten " " "django>=1.4,<1.5" " "; mkWritten " " "markdown" " "]
           ["/usr/bin/pip"; "install"; "django>=1.4,<1.5"; "markdown"; "--timeout=30"]
           None Minion.machine
           (log_event (EvWhichBin ["pip2"; "pip"; "pip-python"]) Minion.machine)).
  - reflexivity.
  - cbn [length]. lia.
  - reflexivity.
  - vm_compute. reflexivity.
Defined.

(** C9 as stated fails for a string without a comma: it is not split and
    not stripped.  The one package [foo] written with a blank on each side
    is handed to pip with its blanks, where splitting and stripping would
    give [foo]. *)
Lemma install_single_package_not_stripped :
  split_strip_restore " foo " = ["foo"]
  /\ add_pkgs (PyStr " foo ") [] = [" foo "]
  /\ add_pkgs (PyStr " foo ") [] <> split_strip_restore " foo "
  /\ fst (install_cmd Minion.stock
            (Minion.install_call (PyStr " foo ") "" "" "" PyNone PyNone "" "")
            Minion.machine)
     = Next (["/usr/bin/pip"; "install"; " foo "], None).
Proof.
  split; [vm_compute; reflexivity|].
  split; [vm_compute; reflexivity|].
  split; [vm_compute; discriminate|vm_compute; reflexivity].
Qed.

(** ** What happens before any process is spawned *)

Section Quiet.

Variable salt : collaborators.

Lemma spawned_log (e : event) (w : world) :
  spawned (log_event e w) = spawned w + (if is_run e then 1 else 0).
Proof.
  unfold spawned, log_event. cbn [trace].
  rewrite List.filter_app, List.length_app. cbn [List.filter].
  destruct (is_run e); reflexivity.
Qed.

Lemma quiet_bind {R A B} (m : M R A) (k : A -> M R B) :
  quiet m -> (forall a, quiet (k a)) -> quiet (bind m k).
Proof.
  intros Hm Hk w. unfold bind. specialize (Hm w).
  destruct (m w) as [[a|r|e] w1]; cbn in Hm |- *; try exact Hm.
  now rewrite (Hk a w1).
Qed.

Lemma quiet_ret {R A} (a : A) : quiet (ret (R := R) a).
Proof. intros w. reflexivity. Qed.

Lemma quiet_return {R A} (r : R) : quiet (return_ (A := A) r).
Proof. intros w. reflexivity. Qed.

Lemma quiet_raise {R A} (e : exn) : quiet (raise (R := R) (A := A) e).
Proof. intros w. reflexivity. Qed.

Lemma quiet_lift {R A} (r : exn + A) : quiet (lift (R := R) r).
Proof. destruct r; intros w; reflexivity. Qed.

Lemma quiet_call {R R'} (f : M R' R') : quiet f -> quiet (call (R := R) f).
Proof.
  intros Hf w. unfold call. specialize (Hf w).
  destruct (f w) as [[a|r|e] w1]; exact Hf.
Qed.

Lemma quiet_which_bin {R} (names : list string) : quiet (which_bin (R := R) salt names).
Proof. intros w. unfold which_bin. cbn [snd]. rewrite spawned_log. cbn [is_run]. lia. Qed.

Lemma quiet_is_cached {R} (p e : string) : quiet (is_cached (R := R) salt p e).
Proof. intros w. unfold is_cached. cbn [snd]. rewrite spawned_log. cbn [is_run]. lia. Qed.

Lemma quiet_cache_file {R} (p e : string) : quiet (cache_file (R := R) salt p e).
Proof. intros w. unfold cache_file. cbn [snd]. rewrite spawned_log. cbn [is_run]. lia. Qed.

Lemma quiet_hash_file {R} (p e : string) : quiet (hash_file (R := R) salt p e).
Proof. intros w. unfold hash_file. cbn [snd]. rewrite spawned_log. cbn [is_run]. lia. Qed.

Lemma quiet_chown {R} (p u : string) : quiet (chown (R := R) salt p u).
Proof.
  intros w. unfold chown. destruct (file_chown salt p u w); cbn [snd];
    rewrite spawned_log; cbn [is_run]; lia.
Qed.

Lemma quiet_isdir {R} (p : string) : quiet (isdir (R := R) p).
Proof. intros w. reflexivity. Qed.

Lemma quiet_isfile {R} (p : string) : quiet (isfile (R := R) p).
Proof. intros w. reflexivity. Qed.

Lemma quiet_mkstemp {R} : quiet (mkstemp (R := R) salt).
Proof. intros w. reflexivity. Qed.

Lemma quiet_copyfile {R} (src dst : string) : quiet (copyfile (R := R) src dst).
Proof. intros w. unfold copyfile. destruct (bool_decide _); reflexivity. Qed.

Ltac quiet_steps :=
  repeat first
    [ apply quiet_ret | apply quiet_return | apply quiet_raise | apply quiet_lift
    | apply quiet_which_bin | apply quiet_is_cached | apply quiet_cache_file
    | apply quiet_hash_file | apply quiet_chown | apply quiet_isdir
    | apply quiet_isfile | apply quiet_mkstemp | apply quiet_copyfile
    | apply quiet_bind; [|intros ?]
    | match goal with
      | |- quiet (if ?b then _ else _) => destruct b
      | |- quiet (match ?x with _ => _ end) => destruct x
      | |- quiet (let _ := _ in _) => cbv zeta
      end ].

Lemma quiet_get_pip_bin (bin_env : string) : quiet (_get_pip_bin salt bin_env).
Proof. unfold _get_pip_bin. quiet_steps. Qed.

Lemma quiet_get_env_activate (bin_env : string) :
  quiet (_get_env_activate salt bin_env).
Proof. unfold _get_env_activate. quiet_steps. Qed.

Lemma quiet_get_cached_requirements (requirements : string) :
  quiet (_get_cached_requirements salt requirements).
Proof. intros w. reflexivity. Qed.

Lemma quiet_install_front (a : InstallArgs.t) : quiet (install_front salt a).
Proof.
  unfold install_front. cbv zeta.
  apply quiet_bind; [apply quiet_call, quiet_get_pip_bin|intros pip_bin].
  apply quiet_bind; [|intros cmd; apply quiet_lift].
  destruct (_ && _); [|apply quiet_ret].
  destruct (negb _); [|apply quiet_ret].
  apply quiet_bind; [apply quiet_call, quiet_get_env_activate|intros ?].
  apply quiet_ret.
Qed.

Lemma quiet_add_requirements (a : InstallArgs.t) (cmd : list string) :
  quiet (add_requirements salt a cmd).
Proof.
  unfold add_requirements. cbv zeta.
  destruct (truthy _); [|apply quiet_ret].
  apply quiet_bind; [|intros ?; quiet_steps].
  destruct (PyStr.startswith _ _); [|apply quiet_ret].
  apply quiet_bind; [apply quiet_call, quiet_get_cached_requirements|intros ?].
  quiet_steps.
Qed.

(** Building the command spawns nothing. *)
Lemma quiet_install_cmd (a : InstallArgs.t) : quiet (install_cmd salt a).
Proof.
  unfold install_cmd.
  apply quiet_bind; [apply quiet_install_front|intros cmd].
  apply quiet_bind; [apply quiet_add_requirements|intros [cmd1 treq]].
  quiet_steps.
Qed.

(** When the builder does not deliver a command, [install] ends as the
    builder did, in the same world. *)
Lemma install_without_command (a : InstallArgs.t) (w : world) :
  (forall c, fst (install_cmd salt a w) <> Next c) ->
  snd (install salt a w) = snd (install_cmd salt a w)
  /\ ((exists e, fst (install_cmd salt a w) = Raise e
                 /\ fst (install salt a w) = Raise e)
      \/ (exists r, fst (install_cmd salt a w) = Return r
                    /\ fst (install salt a w) = Return r)).
Proof.
  intros Hno. unfold install, bind.
  destruct (install_cmd salt a w) as [[c|r|e] w1]; cbn in *.
  - now destruct (Hno c).
  - split; [reflexivity|]. right. eauto.
  - split; [reflexivity|]. left. eauto.
Qed.

End Quiet.

(** ** Requirements that cannot be fetched, mirrors that are rejected *)

Section Rejections.

Variable salt : collaborators.

Ltac split_cases H :=
  repeat match type of H with
         | context [if ?b then _ else _] => destruct b eqn:?
         | context [match ?x with _ => _ end] => destruct x eqn:?
         end.

Lemma startswith_truthy (s p : string) :
  truthy p = true -> PyStr.startswith s p = true -> truthy s = true.
Proof. destruct s, p; try discriminate; reflexivity. Qed.

Lemma install_front_no_return (a : InstallArgs.t) (w : world) (r : install_ret) :
  fst (install_front salt a w) <> Return r.
Proof.
  unfold install_front, bind, call, ret, lift, raise.
  destruct (_get_pip_bin salt (effective_bin_env a) w) as [[p|p|e] w1];
    try (intros H; discriminate H).
  all: destruct (InstallArgs.activate a && truthy (effective_bin_env a));
    [destruct (negb (is_windows salt))|].
  all: try destruct (_get_env_activate salt (effective_bin_env a) w1)
         as [[act|act|e] w2].
  all: try destruct (add_editable _ _).
  all: intros H; discriminate H.
Qed.

Lemma add_requirements_return (a : InstallArgs.t) (cmd : list string)
    (w : world) (r : install_ret) :
  fst (add_requirements salt a cmd w) = Return r ->
  r = NotFound ("pip requirements file " +:+ PyStr.repr (InstallArgs.requirements a)
                +:+ " not found").
Proof.
  unfold add_requirements, bind, call, ret, return_, raise, mkstemp, copyfile, chown.
  destruct (truthy (InstallArgs.requirements a)); [|intros H; discriminate H].
  destruct (PyStr.startswith (InstallArgs.requirements a) "salt://").
  - destruct (_get_cached_requirements salt _ w) as [[c|c|e] w1];
      try (intros H; discriminate H).
    all: destruct (negb (truthy c)); [intros H; now injection H as <-|].
    all: destruct (truthy (InstallArgs.runas a) && negb (InstallArgs.no_chown a));
      [|intros H; discriminate H].
    all: destruct (bool_decide _); [|intros H; discriminate H].
    all: destruct (file_chown salt _ _ _); intros H; discriminate H.
  - destruct (truthy (InstallArgs.runas a) && negb (InstallArgs.no_chown a));
      [|intros H; discriminate H].
    destruct (bool_decide _); [|intros H; discriminate H].
    destruct (file_chown salt _ _ _); intros H; discriminate H.
Qed.

(** The builder has one [return] of its own, the not-found dict (which
    the [NameError] of the cache lookup keeps it from reaching). *)
Lemma install_cmd_return (a : InstallArgs.t) (w : world) (r : install_ret) :
  fst (install_cmd salt a w) = Return r ->
  r = NotFound ("pip requirements file " +:+ PyStr.repr (InstallArgs.requirements a)
                +:+ " not found").
Proof.
  unfold install_cmd, bind. intros H.
  pose proof (install_front_no_return a w) as Hfront.
  destruct (install_front salt a w) as [[cmd0|r0|e] w0]; cbn in *.
  - pose proof (add_requirements_return a cmd0 w0) as Hreq.
    destruct (add_requirements salt a cmd0 w0) as [[[cmd1 treq]|r1|e] w1]; cbn in *.
    + unfold lift, ret, raise in H. destruct (add_options salt a cmd1); discriminate.
    + injection H as <-. now apply Hreq.
    + discriminate.
  - now destruct (Hfront r0).
  - discriminate.
Qed.

(** A [salt://] requirements source: the step that handles the
    requirements file raises the [NameError] of the cache lookup and
    changes nothing. *)
Lemma add_requirements_remote (a : InstallArgs.t) (cmd : list string) (w : world) :
  PyStr.startswith (InstallArgs.requirements a) "salt://" = true ->
  add_requirements salt a cmd w
  = (Raise (NameError "global name '__env__' is not defined"), w).
Proof.
  intros Hs. unfold add_requirements.
  rewrite (startswith_truthy _ "salt://" eq_refl Hs), Hs. reflexivity.
Qed.

(** Once the binary, the activation script and the editables are accepted,
    [install] with a [salt://] requirements source raises that [NameError];
    it spawns nothing whatever happens. *)
Lemma install_remote_requirements (a : InstallArgs.t) (w : world) :
  PyStr.startswith (InstallArgs.requirements a) "salt://" = true ->
  spawned (snd (install salt a w)) = spawned w
  /\ (forall r, fst (install salt a w) <> Return r)
  /\ (forall cmd w1,
         install_front salt a w = (Next cmd, w1) ->
         install salt a w
         = (Raise (NameError "global name '__env__' is not defined"), w1)).
Proof.
  intros Hs.
  assert (Hcmd : forall cmd w1,
             install_front salt a w = (Next cmd, w1) ->
             install_cmd salt a w
             = (Raise (NameError "global name '__env__' is not defined"), w1)).
  { intros cmd w1 Hfront. unfold install_cmd. unfold bind at 1. rewrite Hfront.
    unfold bind at 1. now rewrite (add_requirements_remote a cmd w1 Hs). }
  assert (Hno : forall c, fst (install_cmd salt a w) <> Next c).
  { intros c Hc'. destruct (install_front salt a w) as [[cmd|r|e] w1] eqn:Hfront.
    - rewrite (Hcmd cmd w1 eq_refl) in Hc'. discriminate.
    - unfold install_cmd, bind in Hc'. rewrite Hfront in Hc'. discriminate.
    - unfold install_cmd, bind in Hc'. rewrite Hfront in Hc'. discriminate. }
  assert (Hnr : forall r, fst (install_cmd salt a w) <> Return r).
  { intros r Hr. destruct (install_front salt a w) as [[cmd|r0|e] w1] eqn:Hfront.
    - rewrite (Hcmd cmd w1 eq_refl) in Hr. discriminate.
    - pose proof (install_front_no_return a w r0) as Hn.
      rewrite Hfront in Hn. now destruct Hn.
    - unfold install_cmd, bind in Hr. rewrite Hfront in Hr. discriminate. }
  destruct (install_without_command salt a w Hno) as [Hw Ho].
  split; [|split].
  - rewrite Hw. apply quiet_install_cmd.
  - intros r Hr. destruct Ho as [(e & He & Hi)|(r' & Hr' & Hi)]; [congruence|].
    now destruct (Hnr r').
  - intros cmd w1 Hfront. specialize (Hcmd cmd w1 Hfront).
    apply injective_projections; cbn [fst snd]; [|now rewrite Hw, Hcmd].
    destruct Ho as [(e & He & Hi)|(r' & Hr' & Hi)]; [|now destruct (Hnr r')].
    rewrite Hi. rewrite Hcmd in He. cbn [fst] in He.
    injection He as <-. reflexivity.
Qed.

Lemma mirrors_loop_rejects (mirrors cmd : list string) (m : string) :
  first_bad_mirror mirrors = Some m ->
  mirrors_loop mirrors cmd
  = inl (Exception (PyStr.repr m +:+ " must be a valid URL")).
Proof.
  revert cmd. induction mirrors as [|x mirrors IH]; intros cmd; [discriminate|].
  unfold first_bad_mirror. cbn [find mirrors_loop].
  destruct (negb (PyStr.startswith x "http://")).
  - now intros [= ->].
  - intros H. now apply IH.
Qed.

Lemma add_options_rejects (a : InstallArgs.t) (m : string) (cmd : list string) :
  truthy_arg (InstallArgs.mirrors a) = true ->
  first_bad_mirror (as_list (InstallArgs.mirrors a)) = Some m ->
  (exists e, add_options salt a cmd = inl e)
  /\ (forall cmd1,
         add_options_to_mirrors salt a cmd = inr cmd1 ->
         add_options salt a cmd
         = inl (Exception (PyStr.repr m +:+ " must be a valid URL"))).
Proof.
  intros Ht Hm. unfold add_options.
  destruct (add_options_to_mirrors salt a cmd) as [e|cmd1]; cbn [ebind].
  - split; [eauto|discriminate].
  - unfold add_mirrors. rewrite Ht, (mirrors_loop_rejects _ _ m Hm). cbn [ebind].
    split; [eauto|reflexivity].
Qed.

(** C8. When a mirror is supplied that does not start with [http://],
    [install] spawns no process and returns no command result; with the
    arguments handled before the mirrors accepted, it raises an [Exception]
    whose message names the first such mirror. *)
Theorem install_rejects_mirror (a : InstallArgs.t) (m : string) (w : world) :
  truthy_arg (InstallArgs.mirrors a) = true ->
  first_bad_mirror (as_list (InstallArgs.mirrors a)) = Some m ->
  spawned (snd (install salt a w)) = spawned w
  /\ (forall r, fst (install salt a w) <> Return (RunResult r))
  /\ (forall cmd0 w0 cmd treq w1 cmd1,
         install_front salt a w = (Next cmd0, w0) ->
         add_requirements salt a cmd0 w0 = (Next (cmd, treq), w1) ->
         add_options_to_mirrors salt a cmd = inr cmd1 ->
         install salt a w
         = (Raise (Exception (PyStr.repr m +:+ " must be a valid URL")), w1)).
Proof.
  intros Ht Hm.
  assert (Hno : forall c, fst (install_cmd salt a w) <> Next c).
  { intros c. unfold install_cmd, bind.
    destruct (install_front salt a w) as [[cmd0|r|e] w0]; try discriminate.
    destruct (add_requirements salt a cmd0 w0) as [[[cmd treq]|r|e] w1];
      try discriminate.
    destruct (proj1 (add_options_rejects a m cmd Ht Hm)) as [e ->]. discriminate. }
  destruct (install_without_command salt a w Hno) as [Hw Ho].
  split; [|split].
  - rewrite Hw. apply quiet_install_cmd.
  - intros r Hr. destruct Ho as [(e & _ & He)|(r' & Hr' & Hi)]; [congruence|].
    apply install_cmd_return in Hr'. congruence.
  - intros cmd0 w0 cmd treq w1 cmd1 Hfront Hreq Hopt.
    unfold install, install_cmd, bind. rewrite Hfront, Hreq.
    now rewrite (proj2 (add_options_rejects a m cmd Ht Hm) cmd1 Hopt).
Qed.

End Rejections.

(** The schemes [https] and [ftp] pass for find-links on a minion whose
    [valid_url] accepts the listed schemes, and are rejected as mirrors. *)
Example ftp_and_https_pass_for_find_links_not_for_mirrors :
  add_find_links Minion.stock "ftp://mirror.example" []
  = inr ["--find-links=ftp://mirror.example"]
  /\ add_find_links Minion.stock "https://mirror.example" []
     = inr ["--find-links=https://mirror.example"]
  /\ add_mirrors (PyStr "ftp://mirror.example") []
     = inl (Exception "'ftp://mirror.example' must be a valid URL")
  /\ add_mirrors (PyStr "https://mirror.example") []
     = inl (Exception "'https://mirror.example' must be a valid URL").
Proof. repeat split; vm_compute; reflexivity. Qed.

(** C3, the failing call. The file server has no copy of
    [salt://reqs.txt], cached or to be fetched;
    [install(requirements='salt://reqs.txt')] resolves the binary and then
    raises [NameError] for the global [__env__] instead of returning the
    not-found dict.  No process is spawned. *)
Theorem install_remote_requirements_raises_NameError :
  (forall saltenv w,
      cp_is_cached Minion.stock "salt://reqs.txt" saltenv w = ""
      /\ cp_cache_file Minion.stock "salt://reqs.txt" saltenv w = "")
  /\ install Minion.stock Minion.remote_requirements Minion.machine
     = (Raise (NameError "global name '__env__' is not defined"), Minion.searched)
  /\ spawned Minion.searched = 0.
Proof.
  split; [intros saltenv w; split; reflexivity|].
  split; vm_compute; reflexivity.
Qed.

Lemma install_rejects_mirror_witness :
  spawned (snd (install Minion.stock Minion.two_mirrors Minion.machine))
  = spawned Minion.machine
  /\ install Minion.stock Minion.two_mirrors Minion.machine
     = (Raise (Exception "'ftp://mirror.example' must be a valid URL"),
        Minion.searched).
Proof.
  destruct (install_rejects_mirror Minion.stock Minion.two_mirrors
              "ftp://mirror.example" Minion.machine eq_refl eq_refl)
    as (Hquiet & _ & Hraise).
  split; [exact Hquiet|].
  apply (Hraise ["/usr/bin/pip"; "install"; "foo"] Minion.searched
           ["/usr/bin/pip"; "install"; "foo"] None Minion.searched
           ["/usr/bin/pip"; "install"; "foo"]);
    vm_compute; reflexivity.
Defined.

(** * Further properties of the module *)

(** ** The resolvers *)

Section Resolvers.

Variable salt : collaborators.

Lemma truthy_false (s : string) : truthy s = false -> s = "".
Proof. destruct s; [reflexivity|discriminate]. Qed.

Lemma truthy_true (s : string) : truthy s = true -> s <> "".
Proof. destruct s; [discriminate|discriminate]. Qed.

(** What [_get_pip_bin] returns is the find of the PATH search, only when
    [bin_env] is empty; or [bin_env] itself, only when it is no directory;
    or the pip file under the directory, which then exists.  With a
    non-empty [bin_env] the world is left as found: no PATH search. *)
Theorem get_pip_bin_returns (bin_env p : string) (w w' : world) :
  _get_pip_bin salt bin_env w = (Return p, w') ->
  (bin_env = ""
   /\ cmd_which_bin salt ["pip2"; "pip"; "pip-python"] w = Some p
   /\ w' = log_event (EvWhichBin ["pip2"; "pip"; "pip-python"]) w)
  \/ (bin_env <> "" /\ w' = w
      /\ ((os_path_isdir w bin_env = false /\ p = bin_env)
          \/ (os_path_isdir w bin_env = true
              /\ p = pip_subpath salt bin_env
              /\ os_path_isfile w p = true))).
Proof.
  unfold _get_pip_bin, pip_subpath.
  destruct (truthy bin_env) eqn:Ht; cbn [negb].
  - unfold bind, isdir, isfile.
    destruct (os_path_isdir w bin_env) eqn:Hd.
    + destruct (os_path_isfile w _) eqn:Hf; [|discriminate].
      intros [= <- <-]. right.
      split; [now apply truthy_true|]. split; [reflexivity|]. right. auto.
    + intros [= <- <-]. right.
      split; [now apply truthy_true|]. split; [reflexivity|]. left. auto.
  - unfold bind, which_bin.
    destruct (cmd_which_bin salt _ w) as [q|] eqn:Hq; [|discriminate].
    intros [= <- <-]. left. split; [now apply truthy_false|]. auto.
Qed.

(** [_get_pip_bin] ends with [return] or [raise CommandNotFoundError]. *)
Lemma get_pip_bin_outcome (bin_env : string) (w : world) :
  (exists p, fst (_get_pip_bin salt bin_env w) = Return p)
  \/ fst (_get_pip_bin salt bin_env w)
     = Raise (CommandNotFoundError "Could not find a `pip` binary").
Proof.
  unfold _get_pip_bin.
  destruct (truthy bin_env); cbn [negb]; unfold bind, isdir, isfile, which_bin.
  - destruct (os_path_isdir w bin_env); [|left; eexists; reflexivity].
    destruct (os_path_isfile w _); [left; eexists; reflexivity|right; reflexivity].
  - destruct (cmd_which_bin salt _ w); [left; eexists; reflexivity|right; reflexivity].
Qed.

Lemma get_pip_bin_given_world (bin_env : string) (w : world) :
  truthy bin_env = true -> snd (_get_pip_bin salt bin_env w) = w.
Proof.
  intros Ht. unfold _get_pip_bin. rewrite Ht. cbn [negb].
  unfold bind, isdir, isfile.
  destruct (os_path_isdir w bin_env); [|reflexivity].
  destruct (os_path_isfile w _); reflexivity.
Qed.

(** [_get_env_activate] returns the activation script when [bin_env] is a
    directory that holds it and raises otherwise; it reads and changes
    nothing else. *)
Lemma get_env_activate_result (bin_env : string) (w : world) :
  _get_env_activate salt bin_env w
  = (if os_path_isdir w bin_env
        && os_path_isfile w (activate_subpath salt bin_env)
     then Return (activate_subpath salt bin_env)
     else Raise (CommandNotFoundError "Could not find a `activate` binary"), w).
Proof.
  unfold _get_env_activate, activate_subpath.
  destruct (truthy bin_env) eqn:Ht; cbn [negb].
  - unfold bind, isdir, isfile.
    destruct (os_path_isdir w bin_env); [|reflexivity].
    destruct (os_path_isfile w _); reflexivity.
  - apply truthy_false in Ht. subst bin_env. reflexivity.
Qed.

(** With [activate] set on a POSIX minion and a binary that resolves,
    [install] needs the activation script: when [bin_env] is no directory
    or holds no such script, [install] raises [CommandNotFoundError] and
    leaves the world as it found it. *)
Theorem install_activate_needs_script (a : InstallArgs.t) (w : world) (pip_bin : string) :
  is_windows salt = false ->
  InstallArgs.activate a = true ->
  truthy (effective_bin_env a) = true ->
  fst (_get_pip_bin salt (effective_bin_env a) w) = Return pip_bin ->
  os_path_isdir w (effective_bin_env a)
  && os_path_isfile w (activate_subpath salt (effective_bin_env a)) = false ->
  install salt a w
  = (Raise (CommandNotFoundError "Could not find a `activate` binary"), w).
Proof.
  intros Hwin Hact Ht Hpip Hno.
  pose proof (get_pip_bin_given_world _ w Ht) as Hw.
  unfold install, install_cmd, install_front. unfold bind at 1 2 3 4. unfold call at 1.
  destruct (_get_pip_bin salt (effective_bin_env a) w) as [o w1].
  cbn in Hpip, Hw. subst o w1.
  rewrite Hact, Ht, Hwin. cbn [andb negb].
  unfold bind at 1. unfold call. rewrite get_env_activate_result, Hno. reflexivity.
Qed.

(** On a POSIX minion with [activate] set, every command [install] builds
    opens with [.], the activation script under [bin_env] and [&&]. *)
Theorem install_cmd_activation_prefix (a : InstallArgs.t) (w w' : world)
    (cmd : list string) (treq : option string) :
  is_windows salt = false ->
  InstallArgs.activate a = true ->
  truthy (effective_bin_env a) = true ->
  install_cmd salt a w = (Next (cmd, treq), w') ->
  exists pip_bin rest,
    fst (_get_pip_bin salt (effective_bin_env a) w) = Return pip_bin
    /\ os_path_isfile w (activate_subpath salt (effective_bin_env a)) = true
    /\ cmd = ["."; activate_subpath salt (effective_bin_env a); "&&";
              pip_bin; "install"] ++ rest.
Proof.
  intros Hwin Hact Ht Hcmd.
  pose proof (get_pip_bin_given_world _ w Ht) as Hw.
  unfold install_cmd in Hcmd. unfold bind at 1 in Hcmd.
  destruct (install_front salt a w) as [[cmd0|r|e] w0] eqn:Hfront; try discriminate.
  unfold bind at 1 in Hcmd.
  destruct (add_requirements salt a cmd0 w0) as [[[cmd1 t]|r|e] w1] eqn:Hreq;
    try discriminate.
  unfold bind, lift, ret, raise in Hcmd.
  destruct (add_options salt a cmd1) as [e|cmd2] eqn:Hopt; [discriminate|].
  injection Hcmd as <- _ _.
  apply add_requirements_extends in Hreq as [e2 ->].
  apply add_options_extends in Hopt as [e3 ->].
  unfold install_front in Hfront. unfold bind at 1 in Hfront. unfold call at 1 in Hfront.
  destruct (get_pip_bin_outcome (effective_bin_env a) w) as [[p Hp]|Hp];
    destruct (_get_pip_bin salt (effective_bin_env a) w) as [o wp];
    cbn in Hw, Hp; subst wp o; [|discriminate].
  rewrite Hact, Ht, Hwin in Hfront. cbn [andb negb] in Hfront.
  unfold bind at 1 2 in Hfront. unfold call in Hfront.
  rewrite get_env_activate_result in Hfront.
  destruct (os_path_isdir w (effective_bin_env a)
            && os_path_isfile w (activate_subpath salt (effective_bin_env a)))
    eqn:Hok; [|discriminate].
  apply andb_prop in Hok as [_ Hfile].
  unfold ret, lift in Hfront.
  destruct (add_editable _ _) as [e|cmd'] eqn:Hed in Hfront; [discriminate|].
  injection Hfront as <- _.
  apply add_editable_extends in Hed as [e1 ->].
  unfold add_pkgs.
  destruct (truthy_arg (InstallArgs.pkgs a));
    exists p; eexists; (split; [reflexivity|]); (split; [exact Hfile|]);
    cbn [List.app]; rewrite <- ?List.app_assoc; cbn [List.app]; reflexivity.
Qed.

(** On Windows the [activate] argument changes nothing. *)
Theorem install_windows_ignores_activate (a : InstallArgs.t) (b : bool) (w : world) :
  is_windows salt = true ->
  install salt (set_activate b a) w = install salt a w.
Proof.
  intros Hwin. destruct a.
  unfold install, install_cmd, install_front, set_activate, effective_bin_env.
  cbn [InstallArgs.activate InstallArgs.env InstallArgs.bin_env InstallArgs.pkgs
       InstallArgs.editable InstallArgs.runas InstallArgs.cwd].
  rewrite Hwin. cbn [negb].
  destruct b, activate, (truthy env && negb (truthy bin_env)), (truthy env),
    (truthy bin_env); reflexivity.
Qed.

End Resolvers.

Lemma get_pip_bin_returns_witness :
  ("/srv/venv" = ""
   /\ cmd_which_bin Minion.stock ["pip2"; "pip"; "pip-python"] World.venv
      = Some "/srv/venv/bin/pip"
   /\ World.venv = log_event (EvWhichBin ["pip2"; "pip"; "pip-python"]) World.venv)
  \/ ("/srv/venv" <> "" /\ World.venv = World.venv
      /\ ((os_path_isdir World.venv "/srv/venv" = false
           /\ "/srv/venv/bin/pip" = "/srv/venv")
          \/ (os_path_isdir World.venv "/srv/venv" = true
              /\ "/srv/venv/bin/pip" = pip_subpath Minion.stock "/srv/venv"
              /\ os_path_isfile World.venv "/srv/venv/bin/pip" = true))).
Proof.
  apply (get_pip_bin_returns Minion.stock "/srv/venv" "/srv/venv/bin/pip"
           World.venv World.venv).
  vm_compute. reflexivity.
Defined.

Lemma install_activate_needs_script_witness :
  install Minion.stock (World.activated "/opt/pip") World.lone_pip
  = (Raise (CommandNotFoundError "Could not find a `activate` binary"),
     World.lone_pip).
Proof.
  apply (install_activate_needs_script Minion.stock (World.activated "/opt/pip")
           World.lone_pip "/opt/pip"); vm_compute; reflexivity.
Defined.

Lemma install_cmd_activation_prefix_witness :
  exists pip_bin rest,
    fst (_get_pip_bin Minion.stock "/srv/venv" World.venv) = Return pip_bin
    /\ os_path_isfile World.venv (activate_subpath Minion.stock "/srv/venv") = true
    /\ ["."; "/srv/venv/bin/activate"; "&&"; "/srv/venv/bin/pip"; "install"; "foo"]
       = ["."; activate_subpath Minion.stock "/srv/venv"; "&&"; pip_bin; "install"]
         ++ rest.
Proof.
  apply (install_cmd_activation_prefix Minion.stock (World.activated "/srv/venv")
           World.venv World.venv
           ["."; "/srv/venv/bin/activate"; "&&"; "/srv/venv/bin/pip"; "install"; "foo"]
           None); vm_compute; reflexivity.
Defined.

Lemma install_windows_ignores_activate_witness :
  install World.windows (World.activated "C:\venv\Scripts\pip.exe") Minion.machine
  = install World.windows
      (Minion.install_call (PyStr "foo") "" "C:\venv\Scripts\pip.exe" ""
         PyNone PyNone "" "")
      Minion.machine.
Proof.
  apply (install_windows_ignores_activate World.windows
           (Minion.install_call (PyStr "foo") "" "C:\venv\Scripts\pip.exe" ""
              PyNone PyNone "" "")
           true Minion.machine).
  reflexivity.
Defined.

(** ** [freeze] and [list_] *)

Section Listing.

Variable salt : collaborators.

(** [list_] is the loop run on the lines [freeze] returns: it raises what
    [freeze] raises and leaves the world [freeze] leaves. *)
Theorem list_after_freeze (prefix bin_env runas cwd : string) (w : world) :
  list_ salt prefix bin_env runas cwd w
  = (match fst (freeze salt bin_env runas cwd w) with
     | Next lines | Return lines => loop_outcome (list_loop prefix no_locals lines)
     | Raise e => Raise e
     end,
     snd (freeze salt bin_env runas cwd w)).
Proof.
  unfold list_, freeze, bind, call, run_all, raise, return_, lift, ret, no_locals.
  destruct (_get_pip_bin salt bin_env w) as [[p|p|e] w1]; cbn [fst snd];
    try reflexivity.
  all: destruct (cmd_run_all salt _ runas cwd w1) as [e|r]; cbn [fst snd];
    try reflexivity.
  all: destruct (0 <? retcode r)%Z; cbn [fst snd]; try reflexivity.
  all: destruct (list_loop prefix _ _); reflexivity.
Qed.

(** [freeze] changes no file and spawns one process when the binary
    resolves and none when it does not. *)
Theorem freeze_spawns_once (bin_env runas cwd : string) (w : world) :
  files (snd (freeze salt bin_env runas cwd w)) = files w
  /\ spawned (snd (freeze salt bin_env runas cwd w))
     = spawned w
       + match fst (_get_pip_bin salt bin_env w) with
         | Raise _ => 0
         | _ => 1
         end.
Proof.
  pose proof (quiet_get_pip_bin salt bin_env w) as Hq.
  assert (Hf : files (snd (_get_pip_bin salt bin_env w)) = files w).
  { unfold _get_pip_bin.
    destruct (truthy bin_env); cbn [negb]; unfold bind, isdir, isfile, which_bin.
    - destruct (os_path_isdir w bin_env); [|reflexivity].
      destruct (os_path_isfile w _); reflexivity.
    - destruct (cmd_which_bin salt _ w); reflexivity. }
  unfold freeze, bind, call, run_all, raise, return_.
  destruct (_get_pip_bin salt bin_env w) as [[p|p|e] w1]; cbn [fst snd] in *.
  3: split; [exact Hf|lia].
  all: destruct (cmd_run_all salt _ runas cwd w1) as [e|r]; cbn [fst snd];
    [|destruct (0 <? retcode r)%Z; cbn [fst snd]];
    rewrite spawned_log; cbn [is_run files log_event]; split; (exact Hf || lia).
Qed.

Lemma list_assign_locals (line : string) (sp sa : list_locals) :
  name sp = name sa -> version sp = version sa ->
  list_assign line sp = list_assign line sa.
Proof. intros Hn Hv. unfold list_assign. now rewrite Hn, Hv. Qed.

Lemma matching_insert_pass (prefix k v : string) (m : gmap string string) :
  PyStr.startswith (PyStr.lower k) (PyStr.lower prefix) = true ->
  matching prefix (<[k := v]> m) = <[k := v]> (matching prefix m).
Proof. intros H. unfold matching. now apply map_filter_insert_True. Qed.

Lemma matching_insert_fail (prefix k v : string) (m : gmap string string) :
  PyStr.startswith (PyStr.lower k) (PyStr.lower prefix) = false ->
  matching prefix (<[k := v]> m) = matching prefix m.
Proof.
  intros H. unfold matching. apply map_filter_insert_not.
  intros y Hy. cbn [fst] in Hy. congruence.
Qed.

Lemma matching_all (m : gmap string string) : matching "" m = m.
Proof.
  unfold matching. apply map_filter_id. intros k v _. cbn.
  apply PyStrFacts.prefix_nil_l.
Qed.

(** One turn of the filtered loop beside one of the unfiltered loop. *)
Lemma list_line_related (prefix line : string) (sp sa : list_locals) :
  truthy prefix = true -> paired sa -> related prefix sp sa ->
  match list_line "" sa line, list_line prefix sp line with
  | inr sa', inr sp' => related prefix sp' sa'
  | inl ea, inl ep => ea = ep \/ (is_NameError ea = true /\ is_NameError ep = true)
  | _, _ => False
  end.
Proof.
  intros Ht Hp (Hn & Hv & Hpk). unfold list_line.
  rewrite (list_assign_locals line sp sa Hn Hv), Ht.
  destruct (list_assign line sa) as [e|[n v]] eqn:Ha; cbn [ebind].
  - now left.
  - destruct (list_assign_paired _ _ _ _ Hp Ha) as [[-> ->]|(k & x & -> & ->)].
    + cbn. right. split; reflexivity.
    + cbn [truthy String.eqb negb list_record ebind].
      destruct (PyStr.startswith (PyStr.lower k) (PyStr.lower prefix)) eqn:Hm;
        cbn [ebind list_record]; repeat split; cbn [name version packages].
      * now rewrite (matching_insert_pass _ _ _ _ Hm), Hpk.
      * now rewrite (matching_insert_fail _ _ _ _ Hm).
Qed.

Lemma list_loop_related (prefix : string) (lines : list string)
    (sp sa : list_locals) :
  truthy prefix = true -> paired sa -> related prefix sp sa ->
  match list_loop "" sa lines, list_loop prefix sp lines with
  | inr sa', inr sp' => related prefix sp' sa'
  | inl ea, inl ep => ea = ep \/ (is_NameError ea = true /\ is_NameError ep = true)
  | _, _ => False
  end.
Proof.
  intros Ht. revert sp sa. induction lines as [|l lines IH]; intros sp sa Hp Hr.
  - exact Hr.
  - cbn [list_loop].
    pose proof (list_line_related prefix l sp sa Ht Hp Hr) as Hl.
    destruct (list_line "" sa l) as [ea|sa'] eqn:Ea,
             (list_line prefix sp l) as [ep|sp'] eqn:Ep; cbn [ebind];
      try contradiction; [exact Hl|].
    apply IH; [|exact Hl].
    eapply settled_paired, list_line_settled; eassumption.
Qed.

Lemma related_start (prefix : string) : related prefix no_locals no_locals.
Proof.
  split; [reflexivity|]. split; [reflexivity|].
  unfold matching, no_locals. cbn [packages]. now rewrite map_filter_empty.
Qed.

Lemma paired_start : paired no_locals.
Proof. left. split; reflexivity. Qed.

(** What [list_] returns with a prefix is what it returns without one,
    cut down to the names that pass the filter. *)
Theorem list_prefix_filters (prefix bin_env runas cwd : string) (w : world)
    (m : gmap string string) :
  fst (list_ salt "" bin_env runas cwd w) = Return m ->
  fst (list_ salt prefix bin_env runas cwd w) = Return (matching prefix m).
Proof.
  destruct (truthy prefix) eqn:Ht.
  2: { apply truthy_false in Ht. subst prefix. intros ->. now rewrite matching_all. }
  rewrite !list_after_freeze. cbn [fst].
  destruct (fst (freeze salt bin_env runas cwd w)) as [lines|lines|e];
    try discriminate.
  all: pose proof (list_loop_related prefix lines _ _ Ht paired_start
                     (related_start prefix)) as Hrel;
    destruct (list_loop "" no_locals lines) as [ea|sa],
             (list_loop prefix no_locals lines) as [ep|sp];
    try contradiction; try discriminate;
    cbn [loop_outcome]; intros [= <-];
    destruct Hrel as (_ & _ & ->); reflexivity.
Qed.

(** Every name [list_] returns passes the prefix filter. *)
Theorem list_names_match_prefix (prefix bin_env runas cwd : string) (w : world)
    (m : gmap string string) (k v : string) :
  fst (list_ salt prefix bin_env runas cwd w) = Return m ->
  m !! k = Some v ->
  PyStr.startswith (PyStr.lower k) (PyStr.lower prefix) = true.
Proof.
  destruct (truthy prefix) eqn:Ht.
  2: { apply truthy_false in Ht. subst prefix. intros _ _.
       apply PyStrFacts.prefix_nil_l. }
  rewrite list_after_freeze. cbn [fst].
  destruct (fst (freeze salt bin_env runas cwd w)) as [lines|lines|e];
    try discriminate.
  all: pose proof (list_loop_related prefix lines _ _ Ht paired_start
                     (related_start prefix)) as Hrel;
    destruct (list_loop "" no_locals lines) as [ea|sa],
             (list_loop prefix no_locals lines) as [ep|sp];
    try contradiction; try discriminate;
    cbn [loop_outcome]; intros [= <-];
    destruct Hrel as (_ & _ & ->); unfold matching;
    intros Hk; apply map_lookup_filter_Some in Hk as [_ Hk]; exact Hk.
Qed.

Lemma find_snoc {A} (f : A -> bool) (l : list A) (x : A) :
  List.find f (l ++ [x])
  = match List.find f l with
    | Some y => Some y
    | None => if f x then Some x else None
    end.
Proof.
  induction l as [|y l IH]; cbn; [reflexivity|].
  destruct (f y); [reflexivity|exact IH].
Qed.

Lemma fold_recorded_lookup (entries : list freeze_entry) (m : gmap string string)
    (n : string) :
  fold_left recorded entries m !! n
  = match last_named n entries with
    | Some e => Some (entry_value e)
    | None => m !! n
    end.
Proof.
  revert m. induction entries as [|e entries IH]; intros m; [reflexivity|].
  cbn [fold_left]. rewrite IH. unfold last_named. cbn [rev].
  rewrite find_snoc.
  destruct (List.find _ (rev entries)); [reflexivity|].
  unfold recorded.
  destruct (String.eqb (entry_name e) n) eqn:E.
  - apply String.eqb_eq in E. subst n. apply lookup_insert_eq.
  - apply String.eqb_neq in E. now apply lookup_insert_ne.
Qed.

(** When a well-formed listing names a package more than once, the last
    line wins: [list_] maps each name to the version or origin of the last
    line that carries it, and holds no other name. *)
Theorem list_last_line_wins (bin_env runas cwd : string) (w : world)
    (r : CommandResult) (entries : list freeze_entry) :
  freeze_ran salt bin_env runas cwd w r ->
  (retcode r <= 0)%Z ->
  PyStr.splitlines (stdout r) = map render entries ->
  forallb well_formed entries = true ->
  exists m,
    fst (list_ salt "" bin_env runas cwd w) = Return m
    /\ forall n, m !! n = entry_value <$> last_named n entries.
Proof.
  intros Hran Hret Hlines Hwf.
  rewrite (list_after_clean_run salt "" _ _ _ _ _ Hran Hret), Hlines.
  destruct (list_loop_well_formed entries no_locals Hwf) as (st' & -> & Hpk).
  exists (packages st'). split; [reflexivity|].
  intros n. rewrite Hpk, fold_recorded_lookup.
  destruct (last_named n entries); reflexivity.
Qed.

(** A line that opens with [-e] and has no [-e ] in it makes [list_] raise
    an [IndexError] when the lines before it were read without error. *)
Theorem list_editable_without_blank (prefix bin_env runas cwd : string)
    (w : world) (r : CommandResult) (pre post : list string) (line : string)
    (st : list_locals) :
  freeze_ran salt bin_env runas cwd w r ->
  (retcode r <= 0)%Z ->
  PyStr.splitlines (stdout r) = pre ++ line :: post ->
  list_loop prefix no_locals pre = inr st ->
  PyStr.startswith line "-e" = true ->
  PyStr.contains "-e " line = false ->
  fst (list_ salt prefix bin_env runas cwd w)
  = Raise (IndexError "list index out of range").
Proof.
  intros Hran Hret Hlines Hpre He Hb.
  rewrite (list_after_clean_run salt prefix _ _ _ _ _ Hran Hret), Hlines.
  rewrite list_loop_app, Hpre. cbn [ebind list_loop].
  unfold list_line, list_assign.
  rewrite He, (PyStrFacts.split_uncut _ _ Hb). reflexivity.
Qed.

End Listing.

Lemma list_prefix_filters_witness :
  fst (list_ (Minion.exits Freeze.mixed) "DJANGO" "" "" "" Minion.machine)
  = Return (matching "DJANGO"
              (<["django-embed" := "git+https://x"]>
                 (<["markdown" := "2.0"]> (<["Django" := "1.5"]> ∅)))).
Proof.
  apply (list_prefix_filters (Minion.exits Freeze.mixed) "DJANGO" "" "" ""
           Minion.machine).
  vm_compute. reflexivity.
Defined.

Lemma list_names_match_prefix_witness :
  PyStr.startswith (PyStr.lower "Django") (PyStr.lower "DJANGO") = true.
Proof.
  apply (list_names_match_prefix (Minion.exits Freeze.mixed) "DJANGO" "" "" ""
           Minion.machine
           (<["django-embed" := "git+https://x"]> (<["Django" := "1.5"]> ∅))
           "Django" "1.5").
  - vm_compute. reflexivity.
  - vm_compute. reflexivity.
Defined.

Lemma list_last_line_wins_witness :
  exists m,
    fst (list_ (Minion.exits Freeze.mixed) "" "" "" "" Minion.machine) = Return m
    /\ forall n,
        m !! n = entry_value <$>
                 last_named n [Plain "Django" "1.4"; Plain "markdown" "2.0";
                               Plain "Django" "1.5";
                               Editable "git+https://x" "django-embed"].
Proof.
  apply (list_last_line_wins (Minion.exits Freeze.mixed) "" "" ""
           Minion.machine Freeze.mixed).
  - exists "/usr/bin/pip", Minion.searched. split; reflexivity.
  - discriminate.
  - reflexivity.
  - reflexivity.
Defined.

Lemma list_editable_without_blank_witness :
  fst (list_ (Minion.exits Freeze.glued_editable) "" "" "" "" Minion.machine)
  = Raise (IndexError "list index out of range").
Proof.
  apply (list_editable_without_blank (Minion.exits Freeze.glued_editable)
           "" "" "" "" Minion.machine Freeze.glued_editable
           ["django==1.5"] [] "-egit+https://x#egg=foo"
           (mkLocals (Some "django") (Some "1.5") (<["django" := "1.5"]> ∅))).
  - exists "/usr/bin/pip", Minion.searched. split; reflexivity.
  - discriminate.
  - reflexivity.
  - reflexivity.
  - reflexivity.
  - reflexivity.
Defined.

(** ** The tokens of the command *)

Section Tokens.

Variable salt : collaborators.

Lemma appends_ebind (f g : list string -> exn + list string) (t1 t2 : list string) :
  appends f t1 -> appends g t2 -> appends (fun cmd => ebind (f cmd) g) (t1 ++ t2).
Proof.
  intros Hf Hg cmd cmd' H.
  apply ebind_inr in H as (cmd1 & H1 & H2).
  rewrite (Hg _ _ H2), (Hf _ _ H1). now rewrite List.app_assoc.
Qed.

Ltac appends_cases :=
  intros cmd cmd' H; cbv beta delta [opt];
  repeat match type of H with
         | context [if ?b then _ else _] => destruct b
         end;
  try discriminate;
  injection H as <-;
  rewrite ?PyStrFacts.app_nil_r, ?List.app_nil_r; reflexivity.

Lemma add_log_appends (v : string) : appends (add_log v) (opt (truthy v) ("--log=" +:+ v)).
Proof. unfold add_log. appends_cases. Qed.

Lemma add_proxy_appends (v : string) :
  appends (add_proxy v) (opt (truthy v) ("--proxy=" +:+ v)).
Proof. unfold add_proxy. appends_cases. Qed.

Lemma add_timeout_appends (v : string) :
  appends (add_timeout v) (opt (truthy v) ("--timeout=" +:+ v)).
Proof. unfold add_timeout. appends_cases. Qed.

Lemma add_find_links_appends (v : string) :
  appends (add_find_links salt v) (opt (truthy v) ("--find-links=" +:+ v)).
Proof. unfold add_find_links. appends_cases. Qed.

Lemma check_no_index_appends (a : InstallArgs.t) : appends (check_no_index a) [].
Proof. unfold check_no_index. appends_cases. Qed.

Lemma add_index_url_appends (v : string) :
  appends (add_index_url salt v) (opt (truthy v) ("--index-url=" +:+ PyStr.repr v)).
Proof. unfold add_index_url. appends_cases. Qed.

Lemma add_extra_index_url_appends (v : string) :
  appends (add_extra_index_url salt v)
    (opt (truthy v) ("--extra-index-url=" +:+ PyStr.repr v +:+ " ")).
Proof. unfold add_extra_index_url. appends_cases. Qed.

Lemma add_flag_appends (b : bool) (flag : string) :
  appends (add_flag b flag) (opt b flag).
Proof. unfold add_flag. appends_cases. Qed.

Lemma add_build_appends (v : string) : appends (add_build v) [].
Proof. unfold add_build, PyStr.format0. appends_cases. Qed.

Lemma add_value_appends_opt (pre v : string) :
  appends (add_value pre v) (opt (truthy v) (pre +:+ v)).
Proof. unfold add_value, PyStr.format0. appends_cases. Qed.

Lemma mirrors_loop_appends (mirrors : list string) :
  appends (mirrors_loop mirrors) (map (fun m => "--mirrors=" +:+ m) mirrors).
Proof.
  induction mirrors as [|m mirrors IH]; intros cmd cmd' H; cbn in H.
  - injection H as <-. now rewrite List.app_nil_r.
  - destruct (negb (PyStr.startswith m "http://")); [discriminate|].
    rewrite (IH _ _ H). cbn [map]. now rewrite <- List.app_assoc.
Qed.

Lemma add_mirrors_appends (m : str_or_list) :
  appends (add_mirrors m)
    (if truthy_arg m
     then "--use-mirrors" :: map (fun m => "--mirrors=" +:+ m) (as_list m) else []).
Proof.
  intros cmd cmd' H. unfold add_mirrors in H. destruct (truthy_arg m).
  - rewrite (mirrors_loop_appends _ _ _ H). now rewrite <- List.app_assoc.
  - injection H as <-. now rewrite List.app_nil_r.
Qed.

Lemma add_install_options_appends (o : str_or_list) :
  appends (add_install_options o)
    (if truthy_arg o
     then map (fun o => "--install-option=" +:+ o)
            (match o with PyStr s => [s] | PyList l => l | PyNone => [] end)
     else []).
Proof.
  intros cmd cmd' H. unfold add_install_options in H. destruct (truthy_arg o);
    injection H as <-; [reflexivity|now rewrite List.app_nil_r].
Qed.

Lemma editable_loop_appends (entries : list string) :
  appends (editable_loop entries) (map (fun e => "--editable=" +:+ e) entries).
Proof.
  induction entries as [|e entries IH]; intros cmd cmd' H; cbn in H.
  - injection H as <-. now rewrite List.app_nil_r.
  - match type of H with (if ?b then _ else _) = _ => destruct b end;
      [discriminate|].
    rewrite (IH _ _ H). cbn [map]. now rewrite <- List.app_assoc.
Qed.

Lemma appends_eq (f : list string -> exn + list string) (t t' : list string) :
  appends f t -> t = t' -> appends f t'.
Proof. now intros H <-. Qed.

Create HintDb appends.
Hint Resolve add_log_appends add_proxy_appends add_timeout_appends
  add_find_links_appends check_no_index_appends add_index_url_appends
  add_extra_index_url_appends add_flag_appends add_build_appends
  add_value_appends_opt add_mirrors_appends add_install_options_appends : appends.

Ltac appends_chain :=
  repeat (eapply appends_ebind; [solve [eauto with appends]|]);
  solve [eauto with appends].

(** The options after the requirements file, when all are accepted, add
    exactly their tokens, in the order of the source; [build] adds none,
    for it is never accepted. *)
Lemma add_options_appends (a : InstallArgs.t) :
  appends (add_options salt a) (option_tokens a).
Proof.
  assert (H1 : appends (add_options_to_mirrors salt a)
                 (opt (truthy (InstallArgs.log a)) ("--log=" +:+ InstallArgs.log a)
                  ++ opt (truthy (InstallArgs.proxy a))
                       ("--proxy=" +:+ InstallArgs.proxy a)
                  ++ opt (truthy (InstallArgs.timeout a))
                       ("--timeout=" +:+ InstallArgs.timeout a)
                  ++ opt (truthy (InstallArgs.find_links a))
                       ("--find-links=" +:+ InstallArgs.find_links a)
                  ++ []
                  ++ opt (truthy (InstallArgs.index_url a))
                       ("--index-url=" +:+ PyStr.repr (InstallArgs.index_url a))
                  ++ opt (truthy (InstallArgs.extra_index_url a))
                       ("--extra-index-url="
                        +:+ PyStr.repr (InstallArgs.extra_index_url a) +:+ " ")
                  ++ opt (InstallArgs.no_index a) "--no-index")).
  { unfold add_options_to_mirrors. appends_chain. }
  assert (H2 : appends (add_dirs a)
                 ([] ++ opt (truthy (InstallArgs.target a))
                          ("--target=" +:+ InstallArgs.target a)
                  ++ opt (truthy (InstallArgs.download a))
                       ("--download=" +:+ InstallArgs.download a)
                  ++ opt (truthy (InstallArgs.download_cache a))
                       ("--download-cache=" +:+ InstallArgs.download_cache a)
                  ++ opt (truthy (InstallArgs.source a))
                       ("--source=" +:+ InstallArgs.source a))).
  { unfold add_dirs. appends_chain. }
  assert (H3 : appends (add_modifiers a)
                 (opt (InstallArgs.upgrade a) "--upgrade"
                  ++ opt (InstallArgs.force_reinstall a) "--force-reinstall"
                  ++ opt (InstallArgs.ignore_installed a) "--ignore-installed"
                  ++ opt (truthy (InstallArgs.exists_action a))
                       ("--exists-action=" +:+ InstallArgs.exists_action a)
                  ++ opt (InstallArgs.no_deps a) "--no-deps"
                  ++ opt (InstallArgs.no_install a) "--no-install"
                  ++ opt (InstallArgs.no_download a) "--no-download"
                  ++ (if truthy_arg (InstallArgs.install_options a)
                      then map (fun o => "--install-option=" +:+ o)
                             (match InstallArgs.install_options a with
                              | PyStr s => [s]
                              | PyList l => l
                              | PyNone => []
                              end)
                      else []))).
  { unfold add_modifiers. appends_chain. }
  unfold add_options.
  eapply appends_eq.
  - eapply appends_ebind; [exact H1|].
    eapply appends_ebind; [apply add_mirrors_appends|].
    eapply appends_ebind; [exact H2|exact H3].
  - unfold option_tokens. cbn [List.app]. rewrite <- !List.app_assoc. reflexivity.
Qed.

Lemma add_editable_appends (a : InstallArgs.t) :
  appends (add_editable (InstallArgs.editable a)) (editable_tokens a).
Proof.
  intros cmd cmd' H. unfold add_editable in H. unfold editable_tokens.
  destruct (truthy_arg (InstallArgs.editable a)).
  - exact (editable_loop_appends _ _ _ H).
  - injection H as <-. now rewrite List.app_nil_r.
Qed.

(** The requirements file adds no token when none is given and one
    [--requirement=] token otherwise: it names the temporary copy when one
    was made, and a local file given without a copy by its own path. *)
Lemma add_requirements_token (a : InstallArgs.t) (cmd cmd' : list string)
    (treq : option string) (w w' : world) :
  add_requirements salt a cmd w = (Next (cmd', treq), w') ->
  exists req,
    cmd' = cmd ++ req
    /\ (truthy (InstallArgs.requirements a) = false -> req = [] /\ treq = None)
    /\ (truthy (InstallArgs.requirements a) = true ->
        exists path,
          req = ["--requirement=" +:+ PyStr.repr path]
          /\ (forall t, treq = Some t -> truthy t = true -> path = t)
          /\ (treq = None ->
              PyStr.startswith (InstallArgs.requirements a) "salt://" = false ->
              path = InstallArgs.requirements a)).
Proof.
  unfold add_requirements, bind, call, ret, return_, raise, mkstemp, copyfile, chown.
  destruct (truthy (InstallArgs.requirements a)) eqn:Ht.
  2: { intros [= <- <- _]. exists []. rewrite List.app_nil_r.
       repeat split; discriminate. }
  destruct (PyStr.startswith (InstallArgs.requirements a) "salt://");
    [destruct (_get_cached_requirements salt _ w) as [[c|c|e] w1];
     try (intros H; discriminate H);
     (destruct (negb (truthy c)); [intros H; discriminate H|])|].
  all: destruct (truthy (InstallArgs.runas a) && negb (InstallArgs.no_chown a));
    try (destruct (bool_decide _); [|intros H; discriminate H];
         destruct (file_chown salt _ _ _); [intros H; discriminate H|]).
  all: intros H; injection H as <- <- _.
  all: eexists; split; [reflexivity|]; split; [discriminate|].
  all: intros _; eexists; split; [reflexivity|]; split.
  all: first [ discriminate
             | intros x [= <-] Hx; cbn [treq_or]; rewrite Hx; reflexivity
             | intros Hd; discriminate Hd
             | intros _ Hd; discriminate Hd
             | intros; reflexivity ].
Qed.

(** Every command [install] builds is the binary and [install] (after the
    activation prefix, if any), then the packages, the editables, the
    requirements token and the option tokens, each option given adding its
    own token in the order of the source. *)
Theorem install_command_tokens (a : InstallArgs.t) (w w' : world)
    (cmd : list string) (treq : option string) :
  install_cmd salt a w = (Next (cmd, treq), w') ->
  exists pre pip_bin req,
    (pre = [] \/ exists activate_bin, pre = ["."; activate_bin; "&&"])
    /\ cmd = pre ++ [pip_bin; "install"] ++ package_tokens a ++ editable_tokens a
             ++ req ++ option_tokens a
    /\ (truthy (InstallArgs.requirements a) = false -> req = [] /\ treq = None)
    /\ (truthy (InstallArgs.requirements a) = true ->
        exists path,
          req = ["--requirement=" +:+ PyStr.repr path]
          /\ (forall t, treq = Some t -> truthy t = true -> path = t)
          /\ (treq = None ->
              PyStr.startswith (InstallArgs.requirements a) "salt://" = false ->
              path = InstallArgs.requirements a)).
Proof.
  unfold install_cmd, bind, ret, lift, raise. intros H.
  destruct (install_front salt a w) as [[cmd0|r|e] w0] eqn:Hfront; try discriminate.
  destruct (add_requirements salt a cmd0 w0) as [[[cmd1 t]|r|e] w1] eqn:Hreq;
    try discriminate.
  destruct (add_options salt a cmd1) as [e|cmd2] eqn:Hopt; [discriminate|].
  injection H as <- <- _.
  apply install_front_shape in Hfront as (pre & pip_bin & Hpre & Hed).
  apply add_editable_appends in Hed. subst cmd0.
  apply add_requirements_token in Hreq as (req & -> & Hnone & Hsome).
  apply add_options_appends in Hopt. subst cmd2.
  exists pre, pip_bin, req. split; [exact Hpre|].
  split; [|split; assumption].
  unfold add_pkgs, package_tokens.
  destruct (truthy_arg (InstallArgs.pkgs a)); cbn [List.app];
    rewrite <- ?List.app_assoc; reflexivity.
Qed.

End Tokens.

Lemma install_command_tokens_witness :
  exists pre pip_bin req,
    (pre = [] \/ exists activate_bin, pre = ["."; activate_bin; "&&"])
    /\ ["/usr/bin/pip"; "install"; "django"; "markdown"; "--upgrade"]
       = pre ++ [pip_bin; "install"] ++ package_tokens World.upgrade_two
         ++ editable_tokens World.upgrade_two ++ req
         ++ option_tokens World.upgrade_two
    /\ (truthy (InstallArgs.requirements World.upgrade_two) = false ->
        req = [] /\ @None string = None)
    /\ (truthy (InstallArgs.requirements World.upgrade_two) = true ->
        exists path,
          req = ["--requirement=" +:+ PyStr.repr path]
          /\ (forall t, @None string = Some t -> truthy t = true -> path = t)
          /\ (@None string = None ->
              PyStr.startswith (InstallArgs.requirements World.upgrade_two)
                "salt://" = false ->
              path = InstallArgs.requirements World.upgrade_two)).
Proof.
  apply (install_command_tokens Minion.stock World.upgrade_two Minion.machine
           Minion.searched
           ["/usr/bin/pip"; "install"; "django"; "markdown"; "--upgrade"] None).
  vm_compute. reflexivity.
Defined.

(** ** Editable entries *)

Section Editables.

Variable salt : collaborators.

Lemma partition_none_prefix (sep s : string) :
  PyStr.partition sep s = None -> String.prefix sep s = false.
Proof.
  destruct s; unfold PyStr.partition; fold PyStr.partition;
    destruct (String.prefix sep _); [discriminate|reflexivity
                                    |discriminate|reflexivity].
Qed.

Lemma partition_none_tail (sep : string) (c : ascii) (s : string) :
  PyStr.partition sep (String c s) = None -> PyStr.partition sep s = None.
Proof.
  unfold PyStr.partition; fold PyStr.partition.
  destruct (String.prefix sep (String c s)); [discriminate|].
  destruct (PyStr.partition sep s) as [[a b]|]; [discriminate|reflexivity].
Qed.

Lemma egg_after_amp_none (s : string) :
  PyStr.partition "egg=" s = None -> egg_after_amp s = None.
Proof.
  induction s as [|c s IH]; [reflexivity|].
  intros H. apply partition_none_tail in H.
  cbn [egg_after_amp]. rewrite (partition_none_prefix _ _ H), andb_false_r.
  destruct (Ascii.eqb c "010"); [reflexivity|]. now apply IH.
Qed.

(** An entry without [egg=] has no match of the egg pattern. *)
Lemma egg_match_search_none (entry : string) :
  PyStr.contains "egg=" entry = false -> egg_match_search entry = None.
Proof.
  intros H. apply PyStrFacts.contains_false in H.
  induction entry as [|c s IH]; [reflexivity|].
  apply partition_none_tail in H. cbn [egg_match_search].
  rewrite (partition_none_prefix _ _ H), (egg_after_amp_none _ H), (IH H).
  now destruct (Ascii.eqb c "#").
Qed.

Lemma editable_loop_rejects (entries cmd : list string) (entry : string) :
  In entry entries -> lacks_egg entry ->
  editable_loop entries cmd
  = inl (Exception "You must specify an egg for this editable").
Proof.
  intros Hin (Hf & Hs & He). revert cmd.
  induction entries as [|x entries IH]; intros cmd; [now destruct Hin|].
  cbn [editable_loop].
  match goal with |- (if ?b then _ else _) = _ => destruct b eqn:Hb end;
    [reflexivity|].
  destruct Hin as [->|Hin]; [|now apply IH].
  rewrite Hf, Hs, (egg_match_search_none _ He) in Hb. discriminate.
Qed.

Lemma egg_match_search_found (origin name : string) (c : ascii) :
  has_char "#" origin = false -> c <> "&"%char ->
  egg_match_search (origin +:+ "#egg=" +:+ String c name)
  = Some (String c (PyStr.take_while not_amp name)).
Proof.
  intros Ho Hc. induction origin as [|x origin IH].
  - cbn. unfold not_amp at 1.
    destruct (Ascii.eqb c "&") eqn:E; [|reflexivity].
    apply Ascii.eqb_eq in E. congruence.
  - cbn [has_char] in Ho. apply orb_false_elim in Ho as [Hx Ho].
    cbn [String.append egg_match_search]. rewrite Hx. now apply IH.
Qed.

(** Entries that are local paths or carry an egg name are all accepted,
    each adding its own [--editable=] token in their order. *)
Theorem add_editable_accepts (entries cmd : list string) :
  Forall editable_ok entries ->
  add_editable (PyList entries) cmd
  = inr (cmd ++ map (fun e => "--editable=" +:+ e) entries).
Proof.
  intros Hok. unfold add_editable, truthy_arg, as_list.
  destruct entries as [|e0 entries0]; [now rewrite List.app_nil_r|].
  remember (e0 :: entries0) as entries eqn:E. clear E e0 entries0.
  revert cmd. induction Hok as [|e entries He Hok IH]; intros cmd.
  - cbn. now rewrite List.app_nil_r.
  - cbn [editable_loop map].
    assert (Hacc : negb (PyStr.startswith e "file://" || PyStr.startswith e "/")
                   && match egg_match_search e with
                      | Some g => negb (truthy g)
                      | None => true
                      end = false).
    { destruct He as [H|[H|(origin & c & name & -> & Ho & Hc)]].
      - now rewrite H.
      - rewrite H, orb_true_r. reflexivity.
      - rewrite (egg_match_search_found origin name c Ho Hc). cbn.
        apply andb_false_r. }
    rewrite Hacc, IH. now rewrite <- List.app_assoc.
Qed.

End Editables.

Lemma add_editable_accepts_witness :
  add_editable (PyList ["/srv/src/pkg"; "git+https://x/y.git#egg=foo"])
    ["/usr/bin/pip"; "install"]
  = inr (["/usr/bin/pip"; "install"]
         ++ map (fun e => "--editable=" +:+ e)
              ["/srv/src/pkg"; "git+https://x/y.git#egg=foo"]).
Proof.
  apply (add_editable_accepts ["/srv/src/pkg"; "git+https://x/y.git#egg=foo"]).
  constructor; [right; left; reflexivity|].
  constructor; [|constructor].
  right. right. exists "git+https://x/y.git", "f"%char, "oo".
  split; [reflexivity|]. split; [reflexivity|discriminate].
Defined.

(** ** Requests that never reach pip *)

Section NeverRuns.

Variable salt : collaborators.

Lemma keeps_bind {R A B} (m : M R A) (k : A -> M R B) :
  keeps_files m -> (forall a, keeps_files (k a)) -> keeps_files (bind m k).
Proof.
  intros Hm Hk w. unfold bind. specialize (Hm w).
  destruct (m w) as [[a|r|e] w1]; cbn in Hm |- *; try exact Hm.
  now rewrite (Hk a w1).
Qed.

Lemma keeps_call {R R'} (f : M R' R') : keeps_files f -> keeps_files (call (R := R) f).
Proof.
  intros Hf w. unfold call. specialize (Hf w).
  destruct (f w) as [[a|r|e] w1]; exact Hf.
Qed.

Lemma keeps_lift {R A} (r : exn + A) : keeps_files (lift (R := R) r).
Proof. destruct r; intros w; reflexivity. Qed.

Lemma keeps_get_pip_bin (bin_env : string) : keeps_files (_get_pip_bin salt bin_env).
Proof.
  intros w. unfold _get_pip_bin.
  destruct (truthy bin_env); cbn [negb]; unfold bind, isdir, isfile, which_bin.
  - destruct (os_path_isdir w bin_env); [|reflexivity].
    destruct (os_path_isfile w _); reflexivity.
  - destruct (cmd_which_bin salt _ w); reflexivity.
Qed.

Lemma keeps_get_env_activate (bin_env : string) :
  keeps_files (_get_env_activate salt bin_env).
Proof. intros w. now rewrite get_env_activate_result. Qed.

Lemma keeps_get_cached_requirements (requirements : string) :
  keeps_files (_get_cached_requirements salt requirements).
Proof. intros w. reflexivity. Qed.

Lemma keeps_install_front (a : InstallArgs.t) : keeps_files (install_front salt a).
Proof.
  unfold install_front. cbv zeta.
  apply keeps_bind; [apply keeps_call, keeps_get_pip_bin|intros pip_bin].
  apply keeps_bind; [|intros cmd; apply keeps_lift].
  destruct (_ && _); [|intros w; reflexivity].
  destruct (negb _); [|intros w; reflexivity].
  apply keeps_bind; [apply keeps_call, keeps_get_env_activate|intros ?].
  intros w. reflexivity.
Qed.

Lemma add_editable_raises (editable : str_or_list) (cmd : list string) (e : exn) :
  add_editable editable cmd = inl e ->
  e = Exception "You must specify an egg for this editable".
Proof.
  unfold add_editable.
  destruct (truthy_arg editable); [|discriminate].
  generalize (as_list editable). intros l. revert cmd.
  induction l as [|x l IH]; intros cmd; cbn [editable_loop]; [discriminate|].
  match goal with |- context [if ?b then _ else _] => destruct b end.
  - now intros [= <-].
  - apply IH.
Qed.

(** What [install_front] raises: the resolvers' [CommandNotFoundError] or
    the complaint about an editable. *)
Lemma install_front_raises (a : InstallArgs.t) (w : world) (e : exn) :
  fst (install_front salt a w) = Raise e ->
  e = Exception "You must specify an egg for this editable"
  \/ exists msg, e = CommandNotFoundError msg.
Proof.
  unfold install_front, bind, call, ret, lift, raise.
  destruct (get_pip_bin_outcome salt (effective_bin_env a) w) as [[p Hp]|Hp];
    destruct (_get_pip_bin salt (effective_bin_env a) w) as [o w1];
    cbn [fst] in Hp; subst o.
  2: { intros [= <-]. right. eauto. }
  destruct (InstallArgs.activate a && truthy (effective_bin_env a));
    [destruct (negb (is_windows salt))|].
  1: rewrite get_env_activate_result;
     destruct (_ && _); [|intros [= <-]; right; eauto].
  all: destruct (add_editable _ _) as [x|c] eqn:E; cbn [fst]; [|discriminate];
    intros [= <-]; left; exact (add_editable_raises _ _ _ E).
Qed.

Lemma install_front_raise (a : InstallArgs.t) (w w1 : world) (e : exn) :
  install_front salt a w = (Raise e, w1) -> install salt a w = (Raise e, w1).
Proof. intros H. unfold install, install_cmd, bind. now rewrite H. Qed.

(** An editable entry that is no local path and holds no [egg=] stops
    [install] before anything happens: no process, no file, and the call
    raises, the complaint about the editable unless a resolver failed. *)
Theorem install_rejects_editable (a : InstallArgs.t) (entry : string) (w : world) :
  truthy_arg (InstallArgs.editable a) = true ->
  In entry (as_list (InstallArgs.editable a)) ->
  lacks_egg entry ->
  spawned (snd (install salt a w)) = spawned w
  /\ files (snd (install salt a w)) = files w
  /\ exists e,
       fst (install salt a w) = Raise e
       /\ (e = Exception "You must specify an egg for this editable"
           \/ exists msg, e = CommandNotFoundError msg).
Proof.
  intros Ht Hin Hlack.
  assert (Hfront : forall cmd, fst (install_front salt a w) <> Next cmd).
  { intros cmd H. apply (f_equal built) in H.
    unfold install_front, bind, call, ret, lift, raise in H.
    assert (Hed : forall c, add_editable (InstallArgs.editable a) c
                            = inl (Exception "You must specify an egg for this editable")).
    { intros c. unfold add_editable. rewrite Ht.
      now apply editable_loop_rejects with entry. }
    destruct (_get_pip_bin salt (effective_bin_env a) w) as [[p|p|e] w1];
      try discriminate.
    all: destruct (InstallArgs.activate a && truthy (effective_bin_env a));
      [destruct (negb (is_windows salt))|].
    all: try destruct (_get_env_activate salt (effective_bin_env a) w1)
           as [[act|act|e] w2].
    all: rewrite ?Hed in H; discriminate. }
  pose proof (quiet_install_front salt a w) as Hq.
  pose proof (keeps_install_front a w) as Hk.
  pose proof (install_front_no_return salt a w) as Hnr.
  pose proof (install_front_raises a w) as Hr.
  destruct (install_front salt a w) as [[cmd|r|e] w1] eqn:E; cbn [fst snd] in *.
  - now destruct (Hfront cmd).
  - now destruct (Hnr r).
  - rewrite (install_front_raise a w w1 e E). cbn [fst snd].
    split; [exact Hq|]. split; [exact Hk|]. exists e. split; [reflexivity|].
    now apply Hr.
Qed.

(** When the options after the requirements file cannot all be accepted,
    [install] spawns nothing and returns no run result. *)
Lemma install_never_runs (a : InstallArgs.t) (w : world) :
  (forall cmd, exists e, add_options salt a cmd = inl e) ->
  spawned (snd (install salt a w)) = spawned w
  /\ forall r, fst (install salt a w) <> Return (RunResult r).
Proof.
  intros Hopt.
  assert (Hno : forall c, fst (install_cmd salt a w) <> Next c).
  { intros c. unfold install_cmd, bind.
    destruct (install_front salt a w) as [[cmd0|r|e] w0]; try discriminate.
    destruct (add_requirements salt a cmd0 w0) as [[[cmd treq]|r|e] w1];
      try discriminate.
    destruct (Hopt cmd) as [e ->]. discriminate. }
  destruct (install_without_command salt a w Hno) as [Hw Ho].
  split.
  - rewrite Hw. apply quiet_install_cmd.
  - intros r Hr. destruct Ho as [(e & _ & He)|(r' & Hr' & Hi)]; [congruence|].
    apply install_cmd_return in Hr'. congruence.
Qed.

Lemma install_raises_at_options (a : InstallArgs.t) (w w0 w1 : world)
    (cmd0 cmd : list string) (treq : option string) (e : exn) :
  install_front salt a w = (Next cmd0, w0) ->
  add_requirements salt a cmd0 w0 = (Next (cmd, treq), w1) ->
  add_options salt a cmd = inl e ->
  install salt a w = (Raise e, w1).
Proof.
  intros Hfront Hreq Hopt. unfold install, install_cmd, bind.
  now rewrite Hfront, Hreq, Hopt.
Qed.

(** A [timeout] that is no integer: [install] spawns nothing and returns no
    run result, and once the command up to the requirements file stands it
    raises the [ValueError] that names the value. *)
Theorem install_rejects_timeout (a : InstallArgs.t) (w : world) :
  truthy (InstallArgs.timeout a) = true ->
  PyStr.int_parses (InstallArgs.timeout a) = false ->
  spawned (snd (install salt a w)) = spawned w
  /\ (forall r, fst (install salt a w) <> Return (RunResult r))
  /\ (forall cmd0 w0 cmd treq w1,
         install_front salt a w = (Next cmd0, w0) ->
         add_requirements salt a cmd0 w0 = (Next (cmd, treq), w1) ->
         install salt a w
         = (Raise (ValueError (PyStr.repr (InstallArgs.timeout a)
                               +:+ " is not a valid integer base 10.")), w1)).
Proof.
  intros Ht Hint.
  assert (Hopt : forall cmd,
             add_options salt a cmd
             = inl (ValueError (PyStr.repr (InstallArgs.timeout a)
                                +:+ " is not a valid integer base 10."))).
  { intros cmd. unfold add_options, add_options_to_mirrors, add_log, add_proxy,
      add_timeout.
    rewrite Ht, Hint.
    destruct (truthy (InstallArgs.log a)), (truthy (InstallArgs.proxy a));
      reflexivity. }
  destruct (install_never_runs a w) as [Hq Hr]; [intros cmd; eauto|].
  split; [exact Hq|]. split; [exact Hr|].
  intros cmd0 w0 cmd treq w1 Hfront Hreq.
  exact (install_raises_at_options a w w0 w1 cmd0 cmd treq _ Hfront Hreq (Hopt cmd)).
Qed.

(** [no_index] together with an index URL: [install] spawns nothing and
    returns no run result, and once the earlier steps are accepted it
    raises the exception about the exclusive options. *)
Theorem install_no_index_exclusive (a : InstallArgs.t) (w : world) :
  InstallArgs.no_index a = true ->
  truthy (InstallArgs.index_url a) || truthy (InstallArgs.extra_index_url a) = true ->
  spawned (snd (install salt a w)) = spawned w
  /\ (forall r, fst (install salt a w) <> Return (RunResult r))
  /\ (forall cmd0 w0 cmd treq w1,
         install_front salt a w = (Next cmd0, w0) ->
         add_requirements salt a cmd0 w0 = (Next (cmd, treq), w1) ->
         timeout_ok a = true -> find_links_ok salt a = true ->
         install salt a w
         = (Raise (Exception
              "'no_index' and ('index_url' or 'extra_index_url') are mutually exclusive."),
            w1)).
Proof.
  intros Hno Hurl.
  assert (Hfail : forall cmd, exists e, add_options salt a cmd = inl e).
  { intros cmd. unfold add_options, add_options_to_mirrors.
    destruct (add_log _ cmd) as [e|c1]; cbn [ebind]; [eauto|].
    destruct (add_proxy _ c1) as [e|c2]; cbn [ebind]; [eauto|].
    destruct (add_timeout _ c2) as [e|c3]; cbn [ebind]; [eauto|].
    destruct (add_find_links salt _ c3) as [e|c4]; cbn [ebind]; [eauto|].
    unfold check_no_index. rewrite Hno, Hurl. cbn. eauto. }
  destruct (install_never_runs a w Hfail) as [Hq Hr].
  split; [exact Hq|]. split; [exact Hr|].
  intros cmd0 w0 cmd treq w1 Hfront Hreq Htime Hlinks.
  apply (install_raises_at_options a w w0 w1 cmd0 cmd treq _ Hfront Hreq).
  unfold add_options, add_options_to_mirrors, add_log, add_proxy, add_timeout,
    add_find_links, check_no_index.
  unfold timeout_ok in Htime. unfold find_links_ok in Hlinks.
  rewrite Hno, Hurl.
  destruct (truthy (InstallArgs.log a)), (truthy (InstallArgs.proxy a)),
    (truthy (InstallArgs.timeout a)), (truthy (InstallArgs.find_links a));
    cbn [negb orb] in Htime, Hlinks; rewrite ?Htime, ?Hlinks; reflexivity.
Qed.

(** A non-empty [build]: whatever else is asked, [install] spawns nothing
    and returns no run result. *)
Theorem install_build_never_runs (a : InstallArgs.t) (w : world) :
  truthy (InstallArgs.build a) = true ->
  spawned (snd (install salt a w)) = spawned w
  /\ forall r, fst (install salt a w) <> Return (RunResult r).
Proof.
  intros Hb. apply install_never_runs. intros cmd.
  unfold add_options.
  destruct (add_options_to_mirrors salt a cmd) as [e|c1]; cbn [ebind]; [eauto|].
  destruct (add_mirrors _ c1) as [e|c2]; cbn [ebind]; [eauto|].
  unfold add_dirs. rewrite (add_build_raises _ _ Hb). cbn. eauto.
Qed.

End NeverRuns.

Lemma install_rejects_editable_witness :
  spawned (snd (install Minion.stock
                  (Editable.request (PyStr "git+https://x/y.git")) Minion.machine))
  = spawned Minion.machine
  /\ files (snd (install Minion.stock
                   (Editable.request (PyStr "git+https://x/y.git")) Minion.machine))
     = files Minion.machine
  /\ exists e,
       fst (install Minion.stock
              (Editable.request (PyStr "git+https://x/y.git")) Minion.machine)
       = Raise e
       /\ (e = Exception "You must specify an egg for this editable"
           \/ exists msg, e = CommandNotFoundError msg).
Proof.
  apply (install_rejects_editable Minion.stock
           (Editable.request (PyStr "git+https://x/y.git"))
           "git+https://x/y.git" Minion.machine).
  - reflexivity.
  - left. reflexivity.
  - repeat split; reflexivity.
Defined.

Lemma install_rejects_timeout_witness :
  spawned (snd (install Minion.stock Options.bad_timeout Minion.machine))
  = spawned Minion.machine
  /\ install Minion.stock Options.bad_timeout Minion.machine
     = (Raise (ValueError "'abc' is not a valid integer base 10."), Minion.searched).
Proof.
  destruct (install_rejects_timeout Minion.stock Options.bad_timeout Minion.machine
              eq_refl eq_refl) as (Hq & _ & Hraise).
  split; [exact Hq|].
  apply (Hraise ["/usr/bin/pip"; "install"; "foo"] Minion.searched
           ["/usr/bin/pip"; "install"; "foo"] None Minion.searched);
    vm_compute; reflexivity.
Defined.

Lemma install_no_index_exclusive_witness :
  spawned (snd (install Minion.stock Options.index_and_no_index Minion.machine))
  = spawned Minion.machine
  /\ install Minion.stock Options.index_and_no_index Minion.machine
     = (Raise (Exception
          "'no_index' and ('index_url' or 'extra_index_url') are mutually exclusive."),
        Minion.searched).
Proof.
  destruct (install_no_index_exclusive Minion.stock Options.index_and_no_index
              Minion.machine eq_refl eq_refl) as (Hq & _ & Hraise).
  split; [exact Hq|].
  apply (Hraise ["/usr/bin/pip"; "install"; "foo"] Minion.searched
           ["/usr/bin/pip"; "install"; "foo"] None Minion.searched);
    vm_compute; reflexivity.
Defined.

Lemma install_build_never_runs_witness :
  spawned (snd (install Minion.stock Options.with_build Minion.machine))
  = spawned Minion.machine
  /\ forall r, fst (install Minion.stock Options.with_build Minion.machine)
               <> Return (RunResult r).
Proof.
  apply (install_build_never_runs Minion.stock Options.with_build Minion.machine).
  reflexivity.
Defined.

(** ** Files and processes *)

Section FilesAndProcesses.

Variable salt : collaborators.

Lemma copy_twice (t : string) (F : gset string) : {[t]} ∪ ({[t]} ∪ F) = {[t]} ∪ F.
Proof.
  apply set_eq. intros x. rewrite !elem_of_union. tauto.
Qed.

Lemma add_requirements_files (a : InstallArgs.t) (cmd cmd' : list string)
    (treq : option string) (w w' : world) :
  add_requirements salt a cmd w = (Next (cmd', treq), w') ->
  files w' = match treq with
             | Some t => {[t]} ∪ files w
             | None => files w
             end.
Proof.
  unfold add_requirements, bind, call, ret, return_, raise, mkstemp, copyfile, chown.
  destruct (truthy (InstallArgs.requirements a)); [|now intros [= _ <- <-]].
  destruct (PyStr.startswith (InstallArgs.requirements a) "salt://").
  - pose proof (keeps_get_cached_requirements salt (InstallArgs.requirements a) w) as Hk.
    destruct (_get_cached_requirements salt _ w) as [[c|c|e] w1]; cbn [snd] in Hk;
      try (intros H; discriminate H).
    all: destruct (negb (truthy c)); [intros H; discriminate H|].
    all: destruct (truthy (InstallArgs.runas a) && negb (InstallArgs.no_chown a));
      [|intros [= _ <- <-]; exact Hk].
    all: destruct (bool_decide _); [|intros H; discriminate H].
    all: destruct (file_chown salt _ _ _); [intros H; discriminate H|].
    all: intros [= _ <- <-]; cbn [files log_event add_file].
    all: rewrite Hk; apply copy_twice.
  - destruct (truthy (InstallArgs.runas a) && negb (InstallArgs.no_chown a));
      [|now intros [= _ <- <-]].
    destruct (bool_decide _); [|intros H; discriminate H].
    destruct (file_chown salt _ _ _); [intros H; discriminate H|].
    intros [= _ <- <-]. apply copy_twice.
Qed.

Lemma spawned_cleanup (treq : option string) (w : world) :
  spawned (install_cleanup treq w) = spawned w.
Proof. destruct treq; reflexivity. Qed.

Lemma copy_removed (t : string) (F : gset string) : ({[t]} ∪ F) ∖ {[t]} = F ∖ {[t]}.
Proof.
  apply set_eq. intros x.
  rewrite !elem_of_difference, elem_of_union. tauto.
Qed.

Lemma install_cmd_files (a : InstallArgs.t) (cmd : list string)
    (treq : option string) (w w' : world) :
  install_cmd salt a w = (Next (cmd, treq), w') ->
  files w' = match treq with
             | Some t => {[t]} ∪ files w
             | None => files w
             end.
Proof.
  unfold install_cmd, bind, ret, lift, raise. intros H.
  pose proof (keeps_install_front salt a w) as Hk.
  destruct (install_front salt a w) as [[cmd0|r|e] w0]; try discriminate.
  destruct (add_requirements salt a cmd0 w0) as [[[cmd1 t]|r|e] w1] eqn:Hreq;
    try discriminate.
  destruct (add_options salt a cmd1); [discriminate|].
  injection H as _ <- <-.
  rewrite (add_requirements_files _ _ _ _ _ _ Hreq). cbn [snd] in Hk.
  now rewrite Hk.
Qed.

(** Once [install] has built its command it runs it exactly once and
    hands back what the run gave: the result for any exit code, the
    exception if the run raised.  Afterwards the temporary copy is gone and
    no other file has changed. *)
Theorem install_reports_run (a : InstallArgs.t) (cmd : list string)
    (treq : option string) (w w' : world) :
  install_cmd salt a w = (Next (cmd, treq), w') ->
  fst (install salt a w)
  = match cmd_run_all salt (PyStr.join " " cmd) (InstallArgs.runas a)
            (InstallArgs.cwd a) w' with
    | inl e => Raise e
    | inr r => Return (RunResult r)
    end
  /\ spawned (snd (install salt a w)) = spawned w + 1
  /\ files (snd (install salt a w))
     = match treq with
       | Some t => files w ∖ {[t]}
       | None => files w
       end.
Proof.
  intros H.
  pose proof (quiet_install_cmd salt a w) as Hq.
  pose proof (install_cmd_files a cmd treq w w' H) as Hf.
  unfold install, bind. rewrite H in Hq |- *. cbn [snd] in Hq.
  unfold try_finally, bind, run_all, return_.
  destruct (cmd_run_all salt _ _ _ w') as [e|r]; cbn [fst snd];
    (split; [reflexivity|]); (split;
      [ rewrite spawned_cleanup, spawned_log; cbn [is_run]; lia
      | destruct treq; cbn [install_cleanup remove_quietly remove_file files log_event];
        rewrite Hf; [apply copy_removed|reflexivity] ]).
Qed.

(** [install] never spawns more than one process: one when it has built a
    command and none otherwise. *)
Theorem install_spawns_once (a : InstallArgs.t) (w : world) :
  spawned (snd (install salt a w))
  = spawned w + (if built (fst (install_cmd salt a w)) then 1 else 0).
Proof.
  destruct (install_cmd salt a w) as [[[cmd treq]|r|e] w'] eqn:H; cbn [fst built].
  - now destruct (install_reports_run a cmd treq w w' H) as (_ & Hs & _).
  - pose proof (quiet_install_cmd salt a w) as Hq.
    unfold install, bind. rewrite H in Hq |- *. cbn [snd] in *. lia.
  - pose proof (quiet_install_cmd salt a w) as Hq.
    unfold install, bind. rewrite H in Hq |- *. cbn [snd] in *. lia.
Qed.

(** Without [runas], with [no_chown], or without a requirements file,
    [install] makes no copy: whatever happens, the files are as before. *)
Theorem install_keeps_files (a : InstallArgs.t) (w : world) :
  no_copy a ->
  files (snd (install salt a w)) = files w.
Proof.
  intros Hno.
  assert (Hreq : forall cmd w0,
             files (snd (add_requirements salt a cmd w0)) = files w0
             /\ forall cmd' t w1,
                 add_requirements salt a cmd w0 = (Next (cmd', t), w1) -> t = None).
  { intros cmd w0.
    unfold add_requirements, bind, call, ret, return_, raise, mkstemp, copyfile, chown.
    destruct (truthy (InstallArgs.requirements a)) eqn:Hr.
    2: { split; [reflexivity|]. now intros cmd' t w1 [= _ <- _]. }
    assert (Hc : truthy (InstallArgs.runas a) && negb (InstallArgs.no_chown a) = false).
    { destruct Hno as [H|[H|H]]; [congruence|now rewrite H|].
      rewrite H. apply andb_false_r. }
    rewrite Hc.
    destruct (PyStr.startswith (InstallArgs.requirements a) "salt://").
    - pose proof (keeps_get_cached_requirements salt (InstallArgs.requirements a) w0) as Hk.
      destruct (_get_cached_requirements salt _ w0) as [[c|c|e] w1];
        cbn [snd] in Hk |- *.
      3: { split; [exact Hk|intros ? ? ? H; discriminate H]. }
      all: destruct (negb (truthy c)); cbn [snd];
        (split; [exact Hk|]); intros cmd' t w2 H; try discriminate H;
        now injection H as _ <- _.
    - split; [reflexivity|]. now intros cmd' t w1 [= _ <- _]. }
  destruct (install_cmd salt a w) as [[[cmd treq]|r|e] w'] eqn:H.
  - destruct (install_reports_run a cmd treq w w' H) as (_ & _ & Hf).
    rewrite Hf.
    unfold install_cmd, bind, ret, lift, raise in H.
    destruct (install_front salt a w) as [[cmd0|r|e] w0]; try discriminate.
    destruct (add_requirements salt a cmd0 w0) as [[[cmd1 t]|r|e] w1] eqn:Hr;
      try discriminate.
    destruct (add_options salt a cmd1); [discriminate|].
    injection H as _ <- _.
    now rewrite (proj2 (Hreq cmd0 w0) _ _ _ Hr).
  - unfold install, bind. rewrite H. cbn [snd].
    unfold install_cmd, bind, ret, lift, raise in H.
    pose proof (keeps_install_front salt a w) as Hk.
    destruct (install_front salt a w) as [[cmd0|r0|e] w0]; cbn [snd] in Hk.
    + pose proof (proj1 (Hreq cmd0 w0)) as Hk2.
      destruct (add_requirements salt a cmd0 w0) as [[[cmd1 t]|r1|e] w1];
        cbn [snd] in Hk2.
      * destruct (add_options salt a cmd1); discriminate.
      * injection H as _ <-. congruence.
      * discriminate.
    + injection H as _ <-. exact Hk.
    + discriminate.
  - unfold install, bind. rewrite H. cbn [snd].
    unfold install_cmd, bind, ret, lift, raise in H.
    pose proof (keeps_install_front salt a w) as Hk.
    destruct (install_front salt a w) as [[cmd0|r0|e0] w0]; cbn [snd] in Hk.
    + pose proof (proj1 (Hreq cmd0 w0)) as Hk2.
      destruct (add_requirements salt a cmd0 w0) as [[[cmd1 t]|r1|e1] w1];
        cbn [snd] in Hk2.
      * destruct (add_options salt a cmd1); [|discriminate].
        injection H as _ <-. congruence.
      * discriminate.
      * injection H as _ <-. congruence.
    + discriminate.
    + injection H as _ <-. exact Hk.
Qed.

End FilesAndProcesses.

Lemma install_reports_run_witness :
  fst (install Minion.stock Options.as_bob Minion.machine)
  = Return (RunResult (mkResult 0 "" ""))
  /\ spawned (snd (install Minion.stock Options.as_bob Minion.machine))
     = spawned Minion.machine + 1
  /\ files (snd (install Minion.stock Options.as_bob Minion.machine))
     = files Minion.machine ∖ {["/tmp/tmpXs3kq1"]}.
Proof.
  apply (install_reports_run Minion.stock Options.as_bob
           ["/usr/bin/pip"; "install"; "foo"; "--requirement='/tmp/tmpXs3kq1'"]
           (Some "/tmp/tmpXs3kq1") Minion.machine Options.copied).
  vm_compute. reflexivity.
Defined.

Lemma install_keeps_files_witness :
  files (snd (install Minion.stock Options.plain_requirements Minion.machine))
  = files Minion.machine.
Proof.
  apply (install_keeps_files Minion.stock Options.plain_requirements Minion.machine).
  right. left. reflexivity.
Defined.

(** ** [uninstall] *)

Section Uninstall.

Variable salt : collaborators.

Lemma spawned_add_file (p : string) (w : world) : spawned (add_file p w) = spawned w.
Proof. reflexivity. Qed.

Lemma spawned_remove_file (p : string) (w : world) :
  spawned (remove_file p w) = spawned w.
Proof. reflexivity. Qed.

Lemma cache_file_calls_add_file (p : string) (w : world) :
  cache_file_calls (add_file p w) = cache_file_calls w.
Proof. reflexivity. Qed.

Ltac uninstall_cases a w :=
  unfold uninstall, bind, call, ret, return_, raise, cache_file, mkstemp, copyfile,
    run_all, modify;
  destruct (_get_pip_bin salt (UninstallArgs.bin_env a) w) as [[p|p|e] w1];
  cbn [fst snd];
  destruct (truthy (UninstallArgs.pkgs a));
  destruct (truthy (UninstallArgs.requirements a));
  try destruct (PyStr.startswith (UninstallArgs.requirements a) "salt://");
  try destruct (bool_decide _);
  destruct (truthy (UninstallArgs.log a));
  destruct (truthy (UninstallArgs.proxy a));
  destruct (truthy (UninstallArgs.timeout a));
  try destruct (PyStr.int_parses (UninstallArgs.timeout a));
  cbn [fst snd];
  try match goal with
      | |- context [cmd_run_all salt ?c ?r ?d ?x] => destruct (cmd_run_all salt c r d x)
      end;
  cbn [fst snd];
  try match goal with
      | |- context [truthy (mkstemp_path salt ?x)] =>
          destruct (truthy (mkstemp_path salt x))
      end;
  cbn [fst snd andb].

(** [uninstall] never spawns more than one process. *)
Theorem uninstall_spawns_at_most_once (a : UninstallArgs.t) (w : world) :
  spawned w <= spawned (snd (uninstall salt a w)) <= spawned w + 1.
Proof.
  pose proof (quiet_get_pip_bin salt (UninstallArgs.bin_env a) w) as Hq.
  revert Hq. uninstall_cases a w; intros Hq;
    unfold remove_quietly;
    rewrite ?spawned_remove_file, ?spawned_log, ?spawned_add_file, ?spawned_log;
    cbn [is_run]; lia.
Qed.

(** With a local requirements file, or none, [uninstall] changes no file
    and asks the file server for nothing. *)
Theorem uninstall_local_keeps_files (a : UninstallArgs.t) (w : world) :
  PyStr.startswith (UninstallArgs.requirements a) "salt://" = false ->
  files (snd (uninstall salt a w)) = files w
  /\ cache_file_calls (snd (uninstall salt a w)) = cache_file_calls w.
Proof.
  intros Hs.
  pose proof (keeps_get_pip_bin salt (UninstallArgs.bin_env a) w) as Hk.
  assert (Hc : cache_file_calls (snd (_get_pip_bin salt (UninstallArgs.bin_env a) w))
               = cache_file_calls w).
  { unfold _get_pip_bin.
    destruct (truthy (UninstallArgs.bin_env a)); cbn [negb];
      unfold bind, isdir, isfile, which_bin.
    - destruct (os_path_isdir w _); [|reflexivity].
      destruct (os_path_isfile w _); reflexivity.
    - destruct (cmd_which_bin salt _ w); unfold raise, return_; cbn [snd];
        rewrite cache_file_calls_log; cbn [is_cache_file]; lia. }
  revert Hk Hc. unfold uninstall. rewrite Hs.
  unfold bind, call, ret, return_, raise, run_all, modify.
  destruct (_get_pip_bin salt (UninstallArgs.bin_env a) w) as [[p|p|e] w1];
    cbn [fst snd];
    destruct (truthy (UninstallArgs.pkgs a));
    destruct (truthy (UninstallArgs.requirements a));
    destruct (truthy (UninstallArgs.log a));
    destruct (truthy (UninstallArgs.proxy a));
    destruct (truthy (UninstallArgs.timeout a));
    try destruct (PyStr.int_parses (UninstallArgs.timeout a));
    cbn [fst snd];
    try match goal with
        | |- context [cmd_run_all salt ?c ?r ?d ?x] =>
            destruct (cmd_run_all salt c r d x)
        end;
    cbn [fst snd]; intros Hk Hc;
    rewrite ?cache_file_calls_log; cbn [is_cache_file files log_event];
    (split; [exact Hk|lia]).
Qed.

(** A [timeout] that is no integer: [uninstall] spawns nothing and raises. *)
Theorem uninstall_rejects_timeout (a : UninstallArgs.t) (w : world) :
  truthy (UninstallArgs.timeout a) = true ->
  PyStr.int_parses (UninstallArgs.timeout a) = false ->
  spawned (snd (uninstall salt a w)) = spawned w
  /\ exists e, fst (uninstall salt a w) = Raise e.
Proof.
  intros Ht Hint.
  pose proof (quiet_get_pip_bin salt (UninstallArgs.bin_env a) w) as Hq.
  revert Hq.
  unfold uninstall. rewrite Ht, Hint.
  unfold bind, call, ret, return_, raise, cache_file, mkstemp, copyfile.
  destruct (_get_pip_bin salt (UninstallArgs.bin_env a) w) as [[p|p|e] w1];
    cbn [fst snd];
    destruct (truthy (UninstallArgs.pkgs a));
    destruct (truthy (UninstallArgs.requirements a));
    try destruct (PyStr.startswith (UninstallArgs.requirements a) "salt://");
    try destruct (bool_decide _);
    destruct (truthy (UninstallArgs.log a));
    destruct (truthy (UninstallArgs.proxy a));
    cbn [fst snd]; intros Hq;
    rewrite ?spawned_add_file, ?spawned_log, ?spawned_add_file, ?spawned_log;
    cbn [is_run]; (split; [lia|eexists; reflexivity]).
Qed.

Lemma startswith_refl (s : string) : PyStr.startswith s s = true.
Proof.
  unfold PyStr.startswith. rewrite <- (PyStrFacts.app_nil_r s) at 2.
  apply PyStrFacts.prefix_app.
Qed.

Lemma startswith_app_l (s t p : string) :
  PyStr.startswith s p = true -> PyStr.startswith (s +:+ t) p = true.
Proof.
  unfold PyStr.startswith. revert s.
  induction p as [|c p IH]; intros s H; [apply PyStrFacts.prefix_nil_l|].
  destruct s as [|d s]; [discriminate|].
  cbn [String.append]. rewrite PyStrFacts.prefix_cons in *.
  destruct (ascii_dec c d); [apply IH; exact H|discriminate].
Qed.

Ltac opens_with :=
  first [ apply startswith_refl | apply startswith_app_l; opens_with ].

(** When [uninstall] returns, it returns what its one run gave, whatever
    the exit code; the command it ran opens with the binary and
    [uninstall -y], and the run is the last call it made. *)
Theorem uninstall_returns_run (a : UninstallArgs.t) (w : world) (r : CommandResult) :
  fst (uninstall salt a w) = Return r ->
  spawned (snd (uninstall salt a w)) = spawned w + 1
  /\ exists pip_bin cmd w1,
       fst (_get_pip_bin salt (UninstallArgs.bin_env a) w) = Return pip_bin
       /\ PyStr.startswith cmd (pip_bin +:+ " uninstall -y ") = true
       /\ cmd_run_all salt cmd (UninstallArgs.runas a) (UninstallArgs.cwd a) w1 = inr r
       /\ trace (snd (uninstall salt a w))
          = trace w1 ++ [EvRunAll cmd (UninstallArgs.runas a) (UninstallArgs.cwd a)].
Proof.
  pose proof (quiet_get_pip_bin salt (UninstallArgs.bin_env a) w) as Hq.
  destruct (get_pip_bin_outcome salt (UninstallArgs.bin_env a) w) as [[q Hp]|Hp].
  2: { unfold uninstall, bind, call.
       destruct (_get_pip_bin salt (UninstallArgs.bin_env a) w) as [o w1].
       cbn [fst] in Hp. subst o. discriminate. }
  revert Hq Hp.
  unfold uninstall, bind, call, ret, return_, raise, cache_file, mkstemp, copyfile,
    run_all, modify.
  destruct (_get_pip_bin salt (UninstallArgs.bin_env a) w) as [o w1].
  cbn [fst snd]. intros Hq ->.
  destruct (truthy (UninstallArgs.pkgs a));
    destruct (truthy (UninstallArgs.requirements a));
    try destruct (PyStr.startswith (UninstallArgs.requirements a) "salt://");
    try destruct (bool_decide _);
    destruct (truthy (UninstallArgs.log a));
    destruct (truthy (UninstallArgs.proxy a));
    destruct (truthy (UninstallArgs.timeout a));
    try destruct (PyStr.int_parses (UninstallArgs.timeout a));
    cbn [fst snd]; try discriminate;
    match goal with
    | |- context [cmd_run_all salt ?c ?x ?d ?y] =>
        destruct (cmd_run_all salt c x d y) as [e|r'] eqn:Hrun
    end;
    cbn [fst snd]; try discriminate;
    try match goal with
        | |- context [truthy (mkstemp_path salt ?x)] =>
            destruct (truthy (mkstemp_path salt x))
        end;
    cbn [fst snd andb]; intros [= <-];
    (split;
     [ unfold remove_quietly;
       rewrite ?spawned_remove_file, ?spawned_log, ?spawned_add_file, ?spawned_log;
       cbn [is_run]; lia
     | exists q; do 2 eexists; split; [reflexivity|];
       split; [|split; [exact Hrun|reflexivity]];
       opens_with ]).
Qed.


End Uninstall.

Lemma uninstall_local_keeps_files_witness :
  files (snd (uninstall Minion.stock (Removal.request "/srv/reqs.txt" "")
                Minion.machine)) = files Minion.machine
  /\ cache_file_calls (snd (uninstall Minion.stock (Removal.request "/srv/reqs.txt" "")
                              Minion.machine)) = cache_file_calls Minion.machine.
Proof.
  apply (uninstall_local_keeps_files Minion.stock (Removal.request "/srv/reqs.txt" "")
           Minion.machine).
  reflexivity.
Defined.

Lemma uninstall_rejects_timeout_witness :
  spawned (snd (uninstall Minion.stock (Removal.request "" "abc") Minion.machine))
  = spawned Minion.machine
  /\ exists e,
       fst (uninstall Minion.stock (Removal.request "" "abc") Minion.machine) = Raise e.
Proof.
  apply (uninstall_rejects_timeout Minion.stock (Removal.request "" "abc")
           Minion.machine); reflexivity.
Defined.

Lemma uninstall_returns_run_witness :
  spawned (snd (uninstall (Minion.exits Minion.killed) (Removal.request "" "")
                  Minion.machine)) = spawned Minion.machine + 1
  /\ exists pip_bin cmd w1,
       fst (_get_pip_bin (Minion.exits Minion.killed) "" Minion.machine)
       = Return pip_bin
       /\ PyStr.startswith cmd (pip_bin +:+ " uninstall -y ") = true
       /\ cmd_run_all (Minion.exits Minion.killed) cmd "" "" w1 = inr Minion.killed
       /\ trace (snd (uninstall (Minion.exits Minion.killed) (Removal.request "" "")
                        Minion.machine))
          = trace w1 ++ [EvRunAll cmd "" ""].
Proof.
  apply (uninstall_returns_run (Minion.exits Minion.killed) (Removal.request "" "")
           Minion.machine Minion.killed).
  vm_compute. reflexivity.
Defined.


(** ** The deprecated [env] argument *)

Section Fallbacks.

Variable salt : collaborators.

(** Without [bin_env], [install] treats [env] as the [bin_env]: the call
    equals the one that passes the value of [env] as [bin_env] and no
    [env]. *)
Theorem install_env_fallback (a : InstallArgs.t) (w : world) :
  truthy (InstallArgs.bin_env a) = false ->
  install salt a w
  = install salt (set_env "" (set_bin_env (InstallArgs.env a) a)) w.
Proof.
  intros Hb. destruct a.
  cbn [InstallArgs.bin_env InstallArgs.env] in *.
  unfold install, install_cmd, install_front, set_env, set_bin_env,
    effective_bin_env.
  cbn [InstallArgs.activate InstallArgs.env InstallArgs.bin_env InstallArgs.pkgs
       InstallArgs.editable InstallArgs.runas InstallArgs.cwd].
  assert (Hnil : bin_env = "").
  { unfold truthy in Hb. apply negb_false_iff in Hb.
    apply String.eqb_eq in Hb. exact Hb. }
  subst bin_env.
  destruct env as [|c env]; reflexivity.
Qed.

(** With a [bin_env], [install] never looks at [env]. *)
Theorem install_env_ignored (a : InstallArgs.t) (env : string) (w : world) :
  truthy (InstallArgs.bin_env a) = true ->
  install salt (set_env env a) w = install salt a w.
Proof.
  intros Hb. destruct a.
  cbn [InstallArgs.bin_env InstallArgs.env] in *.
  unfold install, install_cmd, install_front, set_env, effective_bin_env.
  cbn [InstallArgs.activate InstallArgs.env InstallArgs.bin_env InstallArgs.pkgs
       InstallArgs.editable InstallArgs.runas InstallArgs.cwd].
  rewrite Hb. cbn [negb]. rewrite !andb_false_r. reflexivity.
Qed.


End Fallbacks.

Lemma install_env_fallback_witness :
  install Minion.stock
    (set_env "/srv/venv" (Minion.install_call (PyStr "foo") "" "" "" PyNone PyNone "" ""))
    World.venv
  = install Minion.stock
      (set_env "" (set_bin_env "/srv/venv"
         (set_env "/srv/venv"
            (Minion.install_call (PyStr "foo") "" "" "" PyNone PyNone "" ""))))
      World.venv.
Proof.
  apply (install_env_fallback Minion.stock
           (set_env "/srv/venv"
              (Minion.install_call (PyStr "foo") "" "" "" PyNone PyNone "" ""))
           World.venv).
  reflexivity.
Defined.

Lemma install_env_ignored_witness :
  install Minion.stock
    (set_env "/srv/other"
       (Minion.install_call (PyStr "foo") "" "/srv/venv" "" PyNone PyNone "" ""))
    World.venv
  = install Minion.stock
      (Minion.install_call (PyStr "foo") "" "/srv/venv" "" PyNone PyNone "" "")
      World.venv.
Proof.
  apply (install_env_ignored Minion.stock
           (Minion.install_call (PyStr "foo") "" "/srv/venv" "" PyNone PyNone "" "")
           "/srv/other" World.venv).
  reflexivity.
Defined.
